(** * raas-tools: invoice references, currency conversion and the
      yearly bookkeeping report

    A shallow embedding of [src/invoice-utils.ts], [src/currency-converter.ts]
    and of the report generator ([generateReport], the "Buchführung" script),
    with the computations of the invoice generator, followed by the
    properties of these functions.

    Conventions of the embedding.
    - A JavaScript string is a Rocq [string].  The functions below only
      inspect ASCII letters, digits, ['/'], ['-'] and ['T']; every other
      UTF-16 code unit, like every byte of a UTF-8 sequence, is outside
      these classes, so the two views agree on them.  File names and
      command-line arguments, which are cut by position and read by
      [parseInt], are strings of ASCII characters.
    - A JavaScript [number] holding a monetary amount or a rate is a
      canonical rational [Qc]: arithmetic is exact.  Integers that the code
      keeps apart ([BigInt], character codes, hash values) are [Z] or [N].
    - A [throw] is the [Throw] constructor of [result]; [try]/[catch] is a
      [match] on it.  [process.exit] ends a run with [Exited].
    - A plain object used as a dictionary is a [gmap string _] of its own
      properties.  Reading a property of such an object also finds the
      members that every object inherits ([JS.objectPrototypeKeys]).
      Client names are free text, and for the dictionary they index the
      inherited members are taken into account ([JS.inherited]).  Months
      are two characters, shorter than the name of every inherited member.
      The table of rates and the totals by currency are followed for
      currency codes that are not the name of an inherited member, and
      rates are finite numbers; the statements that depend on it say so
      ([plainCurrencies]).  For a code such as [constructor] without an
      own entry the source reads the inherited member: the conversion
      does not throw and yields [NaN], the totals by currency become
      strings, and the script ends with exit code 1 when it formats
      them. *)

From Stdlib Require Import ZArith NArith QArith Qcanon String Ascii List DecimalString.
From Stdlib Require Import Sorted.
From Stdlib Require Decimal DecimalFacts DecimalZ.
From stdpp Require Import gmap strings.

Local Open Scope Z_scope.

(** ** Results of calls that may throw *)

Inductive exn : Type :=
  | Error (message : string)
  | SyntaxError (message : string).

Inductive result (A : Type) : Type :=
  | Ok (value : A)
  | Throw (e : exn).

Arguments Ok {A} value.
Arguments Throw {A} e.

Definition threw {A : Type} (r : result A) : Prop :=
  match r with Ok _ => False | Throw _ => True end.

(** ** The part of the JavaScript standard library that the sources use *)

Module JS.

(** [c.charCodeAt(0)] *)
Definition charCode (c : ascii) : Z := Z.of_N (N_of_ascii c).

Definition between (lo hi : Z) (c : ascii) : bool :=
  (lo <=? charCode c) && (charCode c <=? hi).

(** The character classes [[0-9]] (also [\d]), [[A-Z]] and [[a-z]]. *)
Definition isDigit (c : ascii) : bool := between 48 57 c.
Definition isUpper (c : ascii) : bool := between 65 90 c.
Definition isLower (c : ascii) : bool := between 97 122 c.

(** The class [[a-zA-Z0-9]]. *)
Definition isAlnum (c : ascii) : bool := isLower c || isUpper c || isDigit c.

Fixpoint filter (keep : ascii -> bool) (s : string) : string :=
  match s with
  | EmptyString => EmptyString
  | String c rest =>
      if keep c then String c (filter keep rest) else filter keep rest
  end.

Fixpoint map (f : ascii -> ascii) (s : string) : string :=
  match s with
  | EmptyString => EmptyString
  | String c rest => String (f c) (map f rest)
  end.

(** [s.split("").map(f).join("")] for an [f] that returns strings. *)
Fixpoint mapJoin (f : ascii -> string) (s : string) : string :=
  match s with
  | EmptyString => EmptyString
  | String c rest => f c +:+ mapJoin f rest
  end.

Fixpoint forallb (p : ascii -> bool) (s : string) : bool :=
  match s with
  | EmptyString => true
  | String c rest => p c && forallb p rest
  end.

(** [s.toUpperCase()], on the letters [a]..[z]; the sources apply it to
    strings of ASCII letters and digits only. *)
Definition toUpperChar (c : ascii) : ascii :=
  if isLower c then ascii_of_N (Z.to_N (charCode c - 32)) else c.
Definition toUpperCase (s : string) : string := map toUpperChar s.

(** [n.toString()] for an integer [n]. *)
Definition toString (n : Z) : string := NilZero.string_of_int (Z.to_int n).

Fixpoint repeat (c : ascii) (n : nat) : string :=
  match n with
  | O => EmptyString
  | S n' => String c (repeat c n')
  end.

(** [s.padStart(width, c)] for a one-character filler [c]. *)
Definition padStart (width : nat) (c : ascii) (s : string) : string :=
  repeat c (width - String.length s) +:+ s.

(** [s.slice(-n)]: the last [n] characters (all of [s] when it is shorter). *)
Definition sliceLast (n : nat) (s : string) : string :=
  substring (String.length s - n) n s.

(** [s.slice(0, n)] *)
Definition slicePrefix (n : nat) (s : string) : string := substring 0 n s.

Fixpoint decimalValue (acc : Z) (s : string) : option Z :=
  match s with
  | EmptyString => Some acc
  | String c rest =>
      if isDigit c then decimalValue (10 * acc + (charCode c - 48)) rest
      else None
  end.

(** [BigInt(s)] on a string: the empty string is [0n], a string of decimal
    digits is its value; any other character makes the call throw a
    [SyntaxError] (the sign, white-space and radix-prefix forms that
    [BigInt] also accepts do not occur in the sources). *)
Definition BigInt (s : string) : result Z :=
  match decimalValue 0 s with
  | Some n => Ok n
  | None => Throw (SyntaxError ("Cannot convert " +:+ s +:+ " to a BigInt"))
  end.

(** [s.split(sep)] for a one-character separator. *)
Fixpoint split (sep : ascii) (s : string) : list string :=
  match s with
  | EmptyString => [EmptyString]
  | String c rest =>
      if Ascii.eqb c sep then EmptyString :: split sep rest
      else match split sep rest with
           | piece :: pieces => String c piece :: pieces
           | [] => [String c EmptyString]
           end
  end.

(** Truthiness of an optional string property: [undefined] and [""] are
    falsy. *)
Definition truthy (o : option string) : bool :=
  match o with
  | Some s => negb (String.eqb s EmptyString)
  | None => false
  end.

(** [o || dflt] on an optional string property. *)
Definition orElse (o : option string) (dflt : string) : string :=
  match o with
  | Some s => if String.eqb s EmptyString then dflt else s
  | None => dflt
  end.

Definition hexValue (c : ascii) : option N :=
  if isDigit c then Some (Z.to_N (charCode c - 48))
  else if between 97 102 c then Some (Z.to_N (charCode c - 87))
  else if between 65 70 c then Some (Z.to_N (charCode c - 55))
  else None.

Fixpoint hexPrefixValue (acc : N) (seen : bool) (s : string) : option N :=
  match s with
  | EmptyString => if seen then Some acc else None
  | String c rest =>
      match hexValue c with
      | Some d => hexPrefixValue (16 * acc + d)%N true rest
      | None => if seen then Some acc else None
      end
  end.

(** [parseInt(s, 16)]: the value of the longest prefix of hexadecimal
    digits, [None] standing for [NaN] when there is none (leading
    white-space, a sign and a [0x] prefix, which [parseInt] also skips,
    do not occur in a hexadecimal digest). *)
Definition parseInt16 (s : string) : option N := hexPrefixValue 0 false s.

(** [(x % 1000).toString().padStart(3, "0")] for the result [x] of
    [parseInt]: [NaN % 1000] is [NaN], printed as ["NaN"]. *)
Definition mod1000Padded (x : option N) : string :=
  match x with
  | Some v => padStart 3 "0" (toString (Z.of_N (v mod 1000)))
  | None => "NaN"
  end.

(** The property names that every object literal [{}] inherits from
    [Object.prototype].  Reading one of them from an object that has no
    own property of that name yields the inherited member (a function,
    or the prototype itself for [__proto__]), which is truthy. *)
Definition objectPrototypeKeys : list string :=
  [ "constructor"; "hasOwnProperty"; "isPrototypeOf";
    "propertyIsEnumerable"; "toLocaleString"; "toString"; "valueOf";
    "__defineGetter__"; "__defineSetter__"; "__lookupGetter__";
    "__lookupSetter__"; "__proto__" ]%string.

Definition inherited (key : string) : bool :=
  List.existsb (String.eqb key) objectPrototypeKeys.

(** What the sources read of a [Date]. *)
Record Date : Type := { getFullYear : Z; getMonth : Z }.

(** [s.startsWith(prefix)] and [s.endsWith(suffix)] *)
Fixpoint startsWith (s prefix : string) : bool :=
  match prefix, s with
  | EmptyString, _ => true
  | String a prefix', String b s' => Ascii.eqb a b && startsWith s' prefix'
  | String _ _, EmptyString => false
  end.

Definition endsWith (s suffix : string) : bool :=
  (String.length suffix <=? String.length s)%nat
  && String.eqb (sliceLast (String.length suffix) s) suffix.

(** The white space that [parseInt] skips, among the ASCII characters:
    tab, line feed, vertical tab, form feed, carriage return and space. *)
Definition isWhiteSpace (c : ascii) : bool :=
  between 9 13 c || (charCode c =? 32).

Fixpoint trimStart (s : string) : string :=
  match s with
  | EmptyString => EmptyString
  | String c rest => if isWhiteSpace c then trimStart rest else s
  end.

Fixpoint decimalPrefixValue (acc : Z) (seen : bool) (s : string) : option Z :=
  match s with
  | EmptyString => if seen then Some acc else None
  | String c rest =>
      if isDigit c then decimalPrefixValue (10 * acc + (charCode c - 48)) true rest
      else if seen then Some acc else None
  end.

(** [parseInt(s)] without a radix, on a string of ASCII characters: white
    space is skipped, then a sign, then the prefix [0x] or [0X], which
    selects the radix 16; the value is the one of the longest prefix of
    digits that follows, [None] standing for [NaN] when there is none.
    The integer [0] also stands for [-0]; the values are exact, as they
    are in the sources, which parse strings of a few characters. *)
Definition parseInt (s : string) : option Z :=
  let trimmed := trimStart s in
  let '(sign, unsigned) :=
    match trimmed with
    | String "-" rest => (-1, rest)
    | String "+" rest => (1, rest)
    | _ => (1, trimmed)
    end in
  match unsigned with
  | String "0" (String x rest) =>
      if Ascii.eqb x "x" || Ascii.eqb x "X" then
        option_map (fun v => sign * Z.of_N v) (hexPrefixValue 0 false rest)
      else option_map (Z.mul sign) (decimalPrefixValue 0 false unsigned)
  | _ => option_map (Z.mul sign) (decimalPrefixValue 0 false unsigned)
  end.

(** [Math.ceil(n / d)] for an integer [n] and a positive integer [d]. *)
Definition ceilDiv (n d : Z) : Z := - ((- n) / d).

(** [new Date(Date.UTC(year, monthIndex, 1))] for arguments that are
    integers or [NaN]: the year and the month (from 0) of the date in UTC,
    or [None] for an invalid date.  A year from 0 to 99 counts from 1900;
    a month index outside 0..11 carries into the year; the date is
    invalid when an argument is [NaN] or the day lies outside the range
    of time values, which starts on 20 April -271821 and ends on
    13 September 275760. *)
Definition utcFirstOfMonth (year monthIndex : option Z) : option (Z * Z) :=
  match year, monthIndex with
  | Some y, Some m =>
      let yr := if (0 <=? y) && (y <=? 99) then 1900 + y else y in
      let ym := yr + m / 12 in
      let mn := m mod 12 in
      if ((-271821 <? ym) || ((ym =? -271821) && (4 <=? mn)))
         && ((ym <? 275760) || ((ym =? 275760) && (mn <=? 8)))
      then Some (ym, mn)
      else None
  | _, _ => None
  end.

(** [date.toISOString()] for such a date: the year in four digits, or
    with a sign and six digits outside 0..9999; it throws a [RangeError],
    which is an [Error], on an invalid date. *)
Definition toISOString (date : option (Z * Z)) : result string :=
  match date with
  | Some (y, m) =>
      let year :=
        if (0 <=? y) && (y <=? 9999) then padStart 4 "0" (toString y)
        else (if y <? 0 then "-" else "+") +:+ padStart 6 "0" (toString (Z.abs y)) in
      Ok (year +:+ "-" +:+ padStart 2 "0" (toString (m + 1))
          +:+ "-01T00:00:00.000Z")
  | None => Throw (Error "Invalid time value")
  end.

End JS.

(** ** The invoice file schema

    The interfaces [InvoiceItem], [Creditor], [Debtor] and [InvoiceData].
    The optional properties [number] and [currency] are options; [vatRate]
    is [number | null]. *)

Record InvoiceItem : Type := {
  description : string;
  amount : Qc
}.

Module Creditor.
Record t : Type := {
  name : string;
  uid : string;
  address : string;
  buildingNumber : string;
  zip : string;
  city : string;
  country : string;
  email : string;
  phone : string;
  iban : string;
  swift : string;
  accountName : string
}.
End Creditor.

Module Debtor.
Record t : Type := {
  name : string;
  address : string;
  buildingNumber : string;
  zip : string;
  city : string;
  country : string
}.
End Debtor.

Inductive Language : Type := DE | EN | FR | IT.

Record InvoiceData : Type := {
  number : option string;
  creditor : Creditor.t;
  debtor : Debtor.t;
  columns : list string;
  items : list InvoiceItem;
  language : Language;
  vatRate : option Qc;
  currency : option string
}.

(** ** [crypto.createHash("sha256")]

    The digest function of Node's [crypto] module, written out after
    FIPS 180-4 on 32-bit words held in [N]. *)

Module Crypto.

Local Open Scope N_scope.

Definition mask32 (x : N) : N := x mod 2 ^ 32.
Definition add32 (x y : N) : N := mask32 (x + y).
Definition rotr (n x : N) : N :=
  N.lor (N.shiftr x n) (mask32 (N.shiftl x (32 - n))).
Definition not32 (x : N) : N := N.lxor x (2 ^ 32 - 1).

Definition Ch (x y z : N) : N := N.lxor (N.land x y) (N.land (not32 x) z).
Definition Maj (x y z : N) : N :=
  N.lxor (N.lxor (N.land x y) (N.land x z)) (N.land y z).
Definition Sigma0 (x : N) : N := N.lxor (N.lxor (rotr 2 x) (rotr 13 x)) (rotr 22 x).
Definition Sigma1 (x : N) : N := N.lxor (N.lxor (rotr 6 x) (rotr 11 x)) (rotr 25 x).
Definition sigma0 (x : N) : N := N.lxor (N.lxor (rotr 7 x) (rotr 18 x)) (N.shiftr x 3).
Definition sigma1 (x : N) : N := N.lxor (N.lxor (rotr 17 x) (rotr 19 x)) (N.shiftr x 10).

(** The round constants are the leading 32 fractional bits of the cube
    roots of the first 64 primes, the initial state those of the square
    roots of the first 8; both are computed here rather than tabulated. *)
Definition isPrime (p : N) : bool :=
  List.forallb (fun d => negb (p mod d =? 0))
    (List.map N.of_nat (List.seq 2 (N.to_nat p - 2))).

Definition primes : list N :=
  Eval vm_compute in
    List.filter isPrime (List.map N.of_nat (List.seq 2 310)).

Definition cbrtFloor (n : N) : N :=
  List.fold_left
    (fun r i => let c := r + 2 ^ i in if c * c * c <=? n then c else r)
    (List.map N.of_nat (List.rev (List.seq 0 36))) 0.

Definition K : list N :=
  Eval vm_compute in
    List.map (fun p => mask32 (cbrtFloor (p * 2 ^ 96))) primes.

Inductive state : Type :=
  State (a b c d e f g h : N).

Definition initial : state :=
  Eval vm_compute in
    match List.map (fun p => mask32 (N.sqrt (p * 2 ^ 64))) primes with
    | a :: b :: c :: d :: e :: f :: g :: h :: _ => State a b c d e f g h
    | _ => State 0 0 0 0 0 0 0 0
    end.

(** Padding: the byte [0x80], zero bytes up to 56 modulo 64, and the
    length in bits as 8 big-endian bytes. *)
Fixpoint bigEndian (n : nat) (x : N) : list N :=
  match n with
  | O => []
  | S n' => bigEndian n' (x / 256) ++ [x mod 256]
  end.

Definition pad (msg : list N) : list N :=
  let len := N.of_nat (List.length msg) in
  let zeros := N.to_nat ((64 - (len + 9) mod 64) mod 64) in
  msg ++ [128] ++ List.repeat 0 zeros ++ bigEndian 8 (8 * len).

Fixpoint words (bytes : list N) : list N :=
  match bytes with
  | b0 :: b1 :: b2 :: b3 :: rest =>
      (b0 * 2 ^ 24 + b1 * 2 ^ 16 + b2 * 2 ^ 8 + b3) :: words rest
  | _ => []
  end.

Fixpoint blocks (n : nat) (ws : list N) : list (list N) :=
  match n with
  | O => []
  | S n' => List.firstn 16 ws :: blocks n' (List.skipn 16 ws)
  end.

Definition extend (w : list N) (t : nat) : list N :=
  let at_ (i : nat) := List.nth (t - i) w 0 in
  w ++ [add32 (add32 (add32 (sigma1 (at_ 2%nat)) (at_ 7%nat))
                     (sigma0 (at_ 15%nat))) (at_ 16%nat)].

Definition schedule (block : list N) : list N :=
  List.fold_left extend (List.seq 16 48) block.

Definition round (s : state) (kw : N * N) : state :=
  let '(State a b c d e f g h) := s in
  let t1 := add32 (add32 (add32 (add32 h (Sigma1 e)) (Ch e f g)) (fst kw)) (snd kw) in
  let t2 := add32 (Sigma0 a) (Maj a b c) in
  State (add32 t1 t2) a b c (add32 d t1) e f g.

Definition compress (s : state) (block : list N) : state :=
  let '(State a b c d e f g h) := s in
  let '(State a' b' c' d' e' f' g' h') :=
    List.fold_left round (List.combine K (schedule block)) s in
  State (add32 a a') (add32 b b') (add32 c c') (add32 d d')
        (add32 e e') (add32 f f') (add32 g g') (add32 h h').

Definition bytesOf (s : string) : list N :=
  List.map N_of_ascii (list_ascii_of_string s).

(** [createHash("sha256").update(s)]: the state after the last block. *)
Definition sha256 (s : string) : state :=
  let ws := words (pad (bytesOf s)) in
  List.fold_left compress (blocks (List.length ws / 16) ws) initial.

Definition hexChar (d : N) : ascii :=
  if d <? 10 then ascii_of_N (48 + d) else ascii_of_N (87 + d).

(** The [n] low hexadecimal digits of [x], most significant first. *)
Fixpoint hex (n : nat) (x : N) : string :=
  match n with
  | O => EmptyString
  | S n' => hex n' (x / 16) +:+ String (hexChar (x mod 16)) EmptyString
  end.

(** [.digest("hex")]: 64 lower-case hexadecimal digits. *)
Definition digestHex (s : state) : string :=
  let '(State a b c d e f g h) := s in
  hex 8 a +:+ hex 8 b +:+ hex 8 c +:+ hex 8 d +:+
  hex 8 e +:+ hex 8 f +:+ hex 8 g +:+ hex 8 h.

(** The first word of a state: the leading 32 bits of the digest. *)
Definition leadingWord (s : state) : N :=
  let '(State a _ _ _ _ _ _ _) := s in mask32 a.

End Crypto.

(** ** [src/invoice-utils.ts] *)

Module InvoiceUtils.

Section InvoiceNumber.

(** [JSON.stringify] on an invoice object.  Its text depends on the
    order in which the object's properties were created, which the
    record does not keep, so it is a parameter here. *)
Variable JSON_stringify : InvoiceData -> string.

(** The expression shared by both numbering functions:
    [parseInt(createHash("sha256").update(JSON.stringify(data))
       .digest("hex").slice(0, 8), 16) % 1000], then
    [.toString().padStart(3, "0")]. *)
Definition hash (data : InvoiceData) : string :=
  JS.mod1000Padded
    (JS.parseInt16
       (JS.slicePrefix 8
          (Crypto.digestHex (Crypto.sha256 (JSON_stringify data))))).

(** [generateInvoiceNumber(data)]; [now] is the value of [new Date()]. *)
Definition generateInvoiceNumber (now : JS.Date) (data : InvoiceData) : string :=
  let year := JS.sliceLast 2 (JS.toString (JS.getFullYear now)) in
  let month := JS.padStart 2 "0" (JS.toString (JS.getMonth now + 1)) in
  year +:+ month +:+ "-" +:+ hash data.

(** A run of exactly [n] digits at the head of [s], and what follows. *)
Fixpoint digits (n : nat) (s : string) : option (string * string) :=
  match n with
  | O => Some (EmptyString, s)
  | S n' =>
      match s with
      | String c rest =>
          if JS.isDigit c then
            match digits n' rest with
            | Some (ds, tail) => Some (String c ds, tail)
            | None => None
            end
          else None
      | EmptyString => None
      end
  end.

(** [filename.match(/^(\d{4})-(\d{2})/)]: the two groups. *)
Definition matchYearMonth (filename : string) : option (string * string) :=
  match digits 4 filename with
  | Some (yyyy, String "-" rest) =>
      match digits 2 rest with
      | Some (mm, _) => Some (yyyy, mm)
      | None => None
      end
  | _ => None
  end.

(** [generateInvoiceNumberFromFile(filePath, invoiceData)]: a truthy
    [invoiceData.number] is returned as it is; otherwise the number is
    derived from the file name, or from today's date when the name does
    not start with a year and a month. *)
Definition generateInvoiceNumberFromFile
    (now : JS.Date) (filePath : string) (invoiceData : InvoiceData) : string :=
  let derived :=
    let filename := List.last (JS.split "/" filePath) EmptyString in
    match matchYearMonth filename with
    | None => generateInvoiceNumber now invoiceData
    | Some (yyyy, mm) =>
        let year := JS.sliceLast 2 yyyy in
        let month := mm in
        year +:+ month +:+ "-" +:+ hash invoiceData
    end in
  match number invoiceData with
  | Some n => if JS.truthy (Some n) then n else derived
  | None => derived
  end.

End InvoiceNumber.

(** The callback of both [.map] calls of [generateSCORReference]: a digit
    stays, any other character [c] becomes the decimal numeral of
    [c.charCodeAt(0) - 55]. *)
Definition letterToNumber (c : ascii) : string :=
  if JS.isDigit c then String c EmptyString
  else JS.toString (JS.charCode c - 55).

(** [generateSCORReference(invoiceNumber)].  [%] on BigInts truncates
    towards zero, which is [Z.rem]. *)
Definition generateSCORReference (invoiceNumber : string) : result string :=
  let cleanNumber := JS.filter JS.isAlnum invoiceNumber in
  let converted := JS.mapJoin letterToNumber (JS.toUpperCase cleanNumber) in
  let withRF := converted +:+ "RF00" in
  let numeric := JS.mapJoin letterToNumber withRF in
  match JS.BigInt numeric with
  | Throw e => Throw e
  | Ok n =>
      let mod97 := Z.rem n 97 in
      let checkDigits := JS.padStart 2 "0" (JS.toString (98 - mod97)) in
      Ok ("RF" +:+ checkDigits +:+ cleanNumber)
  end.

End InvoiceUtils.

(** ** [src/currency-converter.ts] *)

Module CurrencyConverter.

(** [!rates[c]]: the property is absent ([undefined]) or is [0]. *)
Definition falsy (r : option Qc) : bool :=
  match r with
  | Some v => bool_decide (v = 0%Qc)
  | None => true
  end.

(** [convertCurrency(amount, fromCurrency, toCurrency, rates)], for
    [rates : ExchangeRates], whose index signature makes every property
    read a number or [undefined].  The table holds finite rates, and the
    two currencies are read among its own entries: this is what the source
    reads for every currency that is not the name of an inherited member
    ([JS.inherited]). *)
Definition convertCurrency (amount : Qc) (fromCurrency toCurrency : string)
    (rates : gmap string Qc) : result Qc :=
  if String.eqb fromCurrency toCurrency then Ok amount
  else if falsy (rates !! fromCurrency) || falsy (rates !! toCurrency) then
    Throw (Error ("No conversion rate available for " +:+ fromCurrency
                  +:+ " to " +:+ toCurrency))
  else
    let amountInCHF := (amount * default 0 (rates !! fromCurrency))%Qc in
    Ok (amountInCHF / default 0 (rates !! toCurrency))%Qc.

(** The numbers of the table that [getOfficialExchangeRates] builds: the
    quotient [1 / rate] is [Infinity] for a rate of [0]. *)
Inductive number : Type :=
  | Finite (q : Qc)
  | Infinity.



End CurrencyConverter.

(** ** The report generator ([generateReport])

    The run is modelled from the point where the invoice files have been
    read into [ProcessedInvoice] objects and the exchange rates fetched.
    Lines written with [console.error] and [console.warn] are collected in
    a list; [console.log] output, the markdown text of the reports and the
    optional PDF conversion are left out.  Beside it stand
    [parseArguments], the loop that makes the [ProcessedInvoice] objects
    from the files of the directory, and the numbers of the quarterly
    table of [generateLanguageReport]. *)

Module ProcessedInvoice.
(** [date] holds the [Date] as the text [date.toISOString()] returns. *)
Record t : Type := {
  client : string;
  month : string;
  fileName : string;
  date : string;
  invoiceNumber : string;
  data : InvoiceData
}.
End ProcessedInvoice.

Module ClientSummary.
Record t : Type := {
  totalBilled : Qc;
  totalBilledCHF : Qc;
  invoiceCount : Z;
  currency : string
}.
End ClientSummary.

Module MonthSummary.
Record t : Type := {
  total : Qc;
  totalCHF : Qc;
  byCurrency : gmap string Qc
}.
End MonthSummary.

Module InvoiceLine.
(** An element of [report.invoices]. *)
Record t : Type := {
  client : string;
  month : string;
  date : string;
  invoiceNumber : string;
  amount : Qc;
  amountCHF : Qc;
  currency : string;
  items : nat;
  fileName : string
}.
End InvoiceLine.

Record Report : Type := {
  year : string;
  generatedAt : string;
  exchangeRateDate : string;
  totalRevenue : gmap string Qc;
  totalRevenueCHF : Qc;
  monthlyRevenue : gmap string MonthSummary.t;
  clientSummary : gmap string ClientSummary.t;
  invoices : list InvoiceLine.t
}.

Inductive LanguageOption : Type := OnlyEn | OnlyDe | Both.
Inductive ReportLanguage : Type := En | De.

(** How a run ends: [process.exit(code)], or the report together with the
    languages for which [generateLanguageReport] wrote
    [buchfuehrung-<year>-<language>.md]. *)
Inductive outcome : Type :=
  | Exited (code : Z)
  | Completed (report : Report) (generatedFiles : list ReportLanguage).

(** What [parseArguments] returns. *)
Module Options.
Record t : Type := {
  year : string;
  invoicesDir : string;
  language : LanguageOption;
  generatePdf : bool
}.
End Options.

(** How [parseArguments] ends: it returns the options, or writes a line to
    the error stream and calls [process.exit(code)]. *)
Inductive parsed : Type :=
  | Parsed (options : Options.t)
  | Refused (code : Z) (stderr : string).

Module Buchfuehrung.

Import CurrencyConverter.

Section Arguments.

(** [path.resolve], which depends on the working directory, and the
    constant [DEFAULT_INVOICES_DIR], which depends on where the script
    is installed. *)
Variable resolve : string -> string.
Variable DEFAULT_INVOICES_DIR : string.

(** [/^\d{4}$/.test(year)] *)
Definition isYear (year : string) : bool :=
  (String.length year =? 4)%nat && JS.forallb JS.isDigit year.

(** The body of the loop over [args[1]], [args[2]], ..., on the three
    variables [invoicesDir], [language] and [generatePdf]. *)
Definition parseArgument (st : string * LanguageOption * bool) (arg : string)
    : string * LanguageOption * bool :=
  let '(invoicesDir, language, generatePdf) := st in
  if String.eqb arg "--lang=de" || String.eqb arg "-l=de" then
    (invoicesDir, OnlyDe, generatePdf)
  else if String.eqb arg "--lang=en" || String.eqb arg "-l=en" then
    (invoicesDir, OnlyEn, generatePdf)
  else if String.eqb arg "--pdf" || String.eqb arg "-p" then
    (invoicesDir, language, true)
  else if negb (JS.startsWith arg "-") then
    (resolve arg, language, generatePdf)
  else st.

(** [parseArguments()], on [args = process.argv.slice(2)]. *)
Definition parseArguments (args : list string) : parsed :=
  match args with
  | [] => Refused 1 "Please provide a year (YYYY) as the first argument"
  | year :: rest =>
      if negb (isYear year) then Refused 1 "Year must be in YYYY format"
      else
        let '(invoicesDir, language, generatePdf) :=
          List.fold_left parseArgument rest
            (DEFAULT_INVOICES_DIR, Both, false) in
        Parsed {| Options.year := year;
                  Options.invoicesDir := invoicesDir;
                  Options.language := language;
                  Options.generatePdf := generatePdf |}
  end.

End Arguments.

Definition message (e : exn) : string :=
  match e with Error m => m | SyntaxError m => m end.

(** [s.split('T')[0]] *)
Definition datePart (iso : string) : string :=
  List.hd EmptyString (JS.split "T" iso).

(** The sum of the item amounts, plus VAT when [data.vatRate] is truthy. *)
Definition invoiceTotal (data : InvoiceData) : Qc :=
  let subtotal :=
    List.fold_left (fun acc item => (acc + amount item)%Qc) (items data) 0%Qc in
  match vatRate data with
  | Some rate =>
      if bool_decide (rate = 0%Qc) then subtotal
      else (subtotal + subtotal * (rate / Q2Qc 100))%Qc
  | None => subtotal
  end.

(** The conversion to CHF with its [try]/[catch]: the amount, and the
    lines written to the error stream. *)
Definition invoiceTotalCHF (exchangeRates : gmap string Qc)
    (currency : string) (invoiceTotal : Qc) : Qc * list string :=
  if negb (String.eqb currency "CHF") then
    match convertCurrency invoiceTotal currency "CHF" exchangeRates with
    | Ok converted => (converted, [])
    | Throw e =>
        (invoiceTotal,
         [ "Warning: " +:+ message e;
           "Using 1:1 rate for " +:+ currency +:+ " to CHF as fallback" ])
    end
  else (invoiceTotal, []).

(** [report.totalRevenue[currency] = (report.totalRevenue[currency] || 0)
    + invoiceTotal], and likewise for [byCurrency], for a currency code
    that is not the name of an inherited member ([JS.inherited]): the
    total is read among the own entries. *)
Definition addTo (totals : gmap string Qc) (currency : string) (x : Qc)
    : gmap string Qc :=
  <[currency := (default 0%Qc (totals !! currency) + x)%Qc]> totals.

(** The update of [report.monthlyRevenue[month]].  [month] is
    [file.substring(5, 7)], two characters, which is shorter than every
    inherited property name. *)
Definition addToMonth (months : gmap string MonthSummary.t)
    (month currency : string) (invoiceTotal invoiceTotalCHF : Qc)
    : gmap string MonthSummary.t :=
  let entry :=
    default {| MonthSummary.total := 0; MonthSummary.totalCHF := 0;
               MonthSummary.byCurrency := ∅ |} (months !! month) in
  <[month :=
      {| MonthSummary.total := (MonthSummary.total entry + invoiceTotal)%Qc;
         MonthSummary.totalCHF := (MonthSummary.totalCHF entry + invoiceTotalCHF)%Qc;
         MonthSummary.byCurrency :=
           addTo (MonthSummary.byCurrency entry) currency invoiceTotal |}]> months.

Definition bump (entry : ClientSummary.t) (invoiceTotal invoiceTotalCHF : Qc)
    : ClientSummary.t :=
  {| ClientSummary.totalBilled := (ClientSummary.totalBilled entry + invoiceTotal)%Qc;
     ClientSummary.totalBilledCHF :=
       (ClientSummary.totalBilledCHF entry + invoiceTotalCHF)%Qc;
     ClientSummary.invoiceCount := ClientSummary.invoiceCount entry + 1;
     ClientSummary.currency := ClientSummary.currency entry |}.

(** The update of [report.clientSummary[client]].  [client] is the
    debtor's name, free text.  The guard [!report.clientSummary[client]]
    reads the property through the prototype chain: for a name in
    [JS.objectPrototypeKeys] that is not an own property it sees the
    inherited member, creates no entry, and the three [+=] that follow
    write to that member instead of the dictionary. *)
Definition addToClient (clients : gmap string ClientSummary.t)
    (client currency : string) (invoiceTotal invoiceTotalCHF : Qc)
    : gmap string ClientSummary.t :=
  match clients !! client with
  | Some entry => <[client := bump entry invoiceTotal invoiceTotalCHF]> clients
  | None =>
      if JS.inherited client then clients
      else
        let entry :=
          {| ClientSummary.totalBilled := 0; ClientSummary.totalBilledCHF := 0;
             ClientSummary.invoiceCount := 0; ClientSummary.currency := currency |} in
        <[client := bump entry invoiceTotal invoiceTotalCHF]> clients
  end.

(** The body of [invoices.forEach(invoice => ...)], on the report under
    construction and the error stream. *)
Definition processInvoice (exchangeRates : gmap string Qc)
    (st : Report * list string) (invoice : ProcessedInvoice.t)
    : Report * list string :=
  let '(report, stderr) := st in
  let data := ProcessedInvoice.data invoice in
  let client := ProcessedInvoice.client invoice in
  let month := ProcessedInvoice.month invoice in
  let currency := JS.orElse (currency data) "CHF" in
  let invoiceTotal := invoiceTotal data in
  let '(invoiceTotalCHF, warnings) :=
    invoiceTotalCHF exchangeRates currency invoiceTotal in
  ({| year := year report;
      generatedAt := generatedAt report;
      exchangeRateDate := exchangeRateDate report;
      totalRevenue := addTo (totalRevenue report) currency invoiceTotal;
      totalRevenueCHF := (totalRevenueCHF report + invoiceTotalCHF)%Qc;
      monthlyRevenue :=
        addToMonth (monthlyRevenue report) month currency
          invoiceTotal invoiceTotalCHF;
      clientSummary :=
        addToClient (clientSummary report) client currency
          invoiceTotal invoiceTotalCHF;
      invoices :=
        invoices report ++
        [ {| InvoiceLine.client := client;
             InvoiceLine.month := month;
             InvoiceLine.date := datePart (ProcessedInvoice.date invoice);
             InvoiceLine.invoiceNumber := ProcessedInvoice.invoiceNumber invoice;
             InvoiceLine.amount := invoiceTotal;
             InvoiceLine.amountCHF := invoiceTotalCHF;
             InvoiceLine.currency := currency;
             InvoiceLine.items := List.length (items data);
             InvoiceLine.fileName := ProcessedInvoice.fileName invoice |} ] |},
   stderr ++ warnings).

(** [report.invoices.sort((a, b) => a.date.localeCompare(b.date))]: a
    stable sort; on ISO dates [localeCompare] is the order of the
    characters.  Lines are inserted from the last to the first, each before
    the lines that are not earlier, so lines of one date keep their order. *)
Fixpoint insertByDate (x : InvoiceLine.t) (sorted : list InvoiceLine.t)
    : list InvoiceLine.t :=
  match sorted with
  | [] => [x]
  | y :: rest =>
      if String.leb (InvoiceLine.date x) (InvoiceLine.date y)
      then x :: y :: rest
      else y :: insertByDate x rest
  end.

Definition sortByDate (lines : list InvoiceLine.t) : list InvoiceLine.t :=
  List.fold_right insertByDate [] lines.

Definition sortInvoices (report : Report) : Report :=
  {| year := year report;
     generatedAt := generatedAt report;
     exchangeRateDate := exchangeRateDate report;
     totalRevenue := totalRevenue report;
     totalRevenueCHF := totalRevenueCHF report;
     monthlyRevenue := monthlyRevenue report;
     clientSummary := clientSummary report;
     invoices := sortByDate (invoices report) |}.

(** The creditor of an invoice differs from [firstCreditor] in one of
    the two fields that are compared. *)
Definition differs (firstCreditor currentCreditor : Creditor.t) : bool :=
  negb (String.eqb (Creditor.name currentCreditor) (Creditor.name firstCreditor))
  || negb (String.eqb (Creditor.uid currentCreditor) (Creditor.uid firstCreditor)).

(** The [for] loop of the consistency check: the first invoice after
    [invoices[0]] whose creditor differs, if any. *)
Fixpoint firstInconsistent (firstCreditor : Creditor.t)
    (rest : list ProcessedInvoice.t) : option ProcessedInvoice.t :=
  match rest with
  | [] => None
  | invoice :: rest' =>
      if differs firstCreditor (creditor (ProcessedInvoice.data invoice))
      then Some invoice
      else firstInconsistent firstCreditor rest'
  end.

Definition describe (invoice : ProcessedInvoice.t) : string :=
  let c := creditor (ProcessedInvoice.data invoice) in
  "Invoice " +:+ ProcessedInvoice.fileName invoice +:+ " has creditor: "
  +:+ Creditor.name c +:+ " (" +:+ Creditor.uid c +:+ ")".

Definition emptyReport (year now : string) : Report :=
  {| year := year;
     generatedAt := now;
     exchangeRateDate := datePart now;
     totalRevenue := ∅;
     totalRevenueCHF := 0;
     monthlyRevenue := ∅;
     clientSummary := ∅;
     invoices := [] |}.

Definition languagesOf (language : LanguageOption) : list ReportLanguage :=
  match language with
  | Both => [De; En]
  | OnlyDe => [De]
  | OnlyEn => [En]
  end.

(** [generateReport()], from the list of processed invoices to the
    reports; the conversion to PDF that may follow is
    [generateReportAndPdfs] below.  [now] is the text of
    [new Date().toISOString()].  The result is how the run ends and what
    it wrote to the error stream.  The consistency check is guarded by
    [invoices.length > 1] and starts at [invoices[1]]: it walks [rest],
    which is empty for a single invoice.  Writing the reports does not
    throw for amounts that are numbers, which they are when the currency
    codes are not names of inherited members. *)
Definition generateReport (now year : string) (language : LanguageOption)
    (exchangeRates : gmap string Qc) (invoices : list ProcessedInvoice.t)
    : outcome * list string :=
  match invoices with
  | [] => (Exited 0, ["No invoices found for year " +:+ year])
  | first :: rest =>
      match firstInconsistent (creditor (ProcessedInvoice.data first)) rest with
      | Some current =>
          (Exited 1,
           [ "Error: Critical creditor information is inconsistent across invoices";
             describe first;
             describe current ])
      | None =>
          let '(report, stderr) :=
            List.fold_left (processInvoice exchangeRates) invoices
              (emptyReport year now, []) in
          (Completed (sortInvoices report) (languagesOf language), stderr)
      end
  end.

Section Pdf.

(** [convertMarkdownToPdf(file)] of [md-to-pdf], which runs external
    programs: for the report of a language, the path it returns or the
    error it throws, and the lines that it writes to the error stream
    itself. *)
Variable convertMarkdownToPdf : ReportLanguage -> result string * list string.

(** The loop over [generatedFiles] that [generateReport] ends with when
    [generatePdf] is set: an error of a conversion is caught and
    reported, and the loop goes on. *)
Definition convertReports (generatePdf : bool)
    (generatedFiles : list ReportLanguage) : list string :=
  if generatePdf then
    List.flat_map
      (fun file =>
         let '(converted, written) := convertMarkdownToPdf file in
         match converted with
         | Ok pdfFile => written
         | Throw e => written ++ ["Error converting to PDF: " +:+ message e]
         end)
      generatedFiles
  else [].

(** [generateReport()] from the processed invoices to its end: the reports
    and then the conversion to PDF. *)
Definition generateReportAndPdfs (generatePdf : bool) (now year : string)
    (language : LanguageOption) (exchangeRates : gmap string Qc)
    (invoices : list ProcessedInvoice.t) : outcome * list string :=
  match generateReport now year language exchangeRates invoices with
  | (Completed report generatedFiles, stderr) =>
      (Completed report generatedFiles,
       stderr ++ convertReports generatePdf generatedFiles)
  | (Exited code, stderr) => (Exited code, stderr)
  end.

End Pdf.

Section Files.

(** [JSON.stringify] and the current date, which the invoice numbers
    depend on, and [path.join]. *)
Variable JSON_stringify : InvoiceData -> string.
Variable today : JS.Date.
Variable join : string -> string -> string.

(** The filter of [fs.readdirSync(invoicesDir)]. *)
Definition isInvoiceFile (year file : string) : bool :=
  JS.startsWith file (year +:+ "-") && JS.endsWith file ".json".

(** The callback of [invoiceFiles.map], on a file name and the invoice
    that [JSON.parse] reads from the file.  The date is printed with
    [toISOString] as soon as it is made, which throws on an invalid
    date. *)
Definition processFile (year invoicesDir : string)
    (entry : string * InvoiceData) : result ProcessedInvoice.t :=
  let '(file, data) := entry in
  let filePath := join invoicesDir file in
  let clientName := Debtor.name (debtor data) in
  let month := substring 5 2 file in
  let monthIndex := option_map (fun n => n - 1) (JS.parseInt month) in
  let date := JS.utcFirstOfMonth (JS.parseInt year) monthIndex in
  match JS.toISOString date with
  | Ok iso =>
      Ok {| ProcessedInvoice.client := clientName;
            ProcessedInvoice.month := month;
            ProcessedInvoice.fileName := file;
            ProcessedInvoice.date := iso;
            ProcessedInvoice.invoiceNumber :=
              InvoiceUtils.generateInvoiceNumberFromFile JSON_stringify today
                filePath data;
            ProcessedInvoice.data := data |}
  | Throw e => Throw e
  end.

(** [invoiceFiles.map(...)]: the files are processed in order, and the
    first exception ends the loop. *)
Fixpoint processFiles (year invoicesDir : string)
    (invoiceFiles : list (string * InvoiceData))
    : result (list ProcessedInvoice.t) :=
  match invoiceFiles with
  | [] => Ok []
  | entry :: rest =>
      match processFile year invoicesDir entry with
      | Ok invoice =>
          match processFiles year invoicesDir rest with
          | Ok invoices => Ok (invoice :: invoices)
          | Throw e => Throw e
          end
      | Throw e => Throw e
      end
  end.

(** [generateReport()], from the listing of the directory on, given with
    the invoice of each file.  An exception in the loop over the files
    rejects the promise, and the handler of the script writes a line and
    calls [process.exit(1)]. *)
Definition generateReportFromDirectory (now year invoicesDir : string)
    (language : LanguageOption) (exchangeRates : gmap string Qc)
    (directory : list (string * InvoiceData)) : outcome * list string :=
  let invoiceFiles :=
    List.filter (fun entry => isInvoiceFile year (fst entry)) directory in
  match processFiles year invoicesDir invoiceFiles with
  | Ok invoices => generateReport now year language exchangeRates invoices
  | Throw e => (Exited 1, ["Error generating report: " +:+ message e])
  end.

End Files.

(** [Object.keys(report.monthlyRevenue).sort()]: the keys in the order of
    their characters. *)
Fixpoint insertKey (key : string) (sorted : list string) : list string :=
  match sorted with
  | [] => [key]
  | other :: rest =>
      if String.leb key other then key :: other :: rest
      else other :: insertKey key rest
  end.

Definition sortedMonths (report : Report) : list string :=
  List.fold_right insertKey []
    (List.map fst (map_to_list (monthlyRevenue report))).

(** The quarterly table of [generateLanguageReport]: the numbers of its
    rows.  [None] stands for the [TypeError] of reading a month that
    [report.monthlyRevenue] does not have. *)
Module QuarterRow.
Record t : Type := {
  quarterIndex : Z;
  currencySums : gmap string Qc;
  quarterRevenue : Qc
}.
End QuarterRow.

(** [Math.ceil(parseInt(month) / 3) === quarterIndex] *)
Definition inQuarter (quarterIndex : Z) (month : string) : bool :=
  match JS.parseInt month with
  | Some monthNum => JS.ceilDiv monthNum 3 =? quarterIndex
  | None => false
  end.

Definition quarterRevenue (report : Report) (quarterMonths : list string)
    : option Qc :=
  List.fold_left
    (fun sum month =>
       match sum, monthlyRevenue report !! month with
       | Some sum, Some entry => Some (sum + MonthSummary.totalCHF entry)%Qc
       | _, _ => None
       end)
    quarterMonths (Some 0%Qc).

Definition currencySums (report : Report) (quarterMonths : list string)
    : option (gmap string Qc) :=
  List.fold_left
    (fun sums month =>
       match sums, monthlyRevenue report !! month with
       | Some sums, Some entry =>
           Some (map_fold (fun currency amount sums => addTo sums currency amount)
                   sums (MonthSummary.byCurrency entry))
       | _, _ => None
       end)
    quarterMonths (Some ∅).

(** One row: nothing for a quarter of the current year that has not
    begun. *)
Definition quarterRow (currentDate : JS.Date) (year : string) (report : Report)
    (sortedMonths : list string) (quarterIndex : Z)
    : option (option QuarterRow.t) :=
  let reportYear := JS.parseInt year in
  let currentYear := JS.getFullYear currentDate in
  let currentQuarter := JS.ceilDiv (JS.getMonth currentDate + 1) 3 in
  if bool_decide (reportYear = Some currentYear) && (currentQuarter <? quarterIndex)
  then Some None
  else
    let quarterMonths := List.filter (inQuarter quarterIndex) sortedMonths in
    match quarterRevenue report quarterMonths, currencySums report quarterMonths with
    | Some revenue, Some sums =>
        Some (Some {| QuarterRow.quarterIndex := quarterIndex;
                      QuarterRow.currencySums := sums;
                      QuarterRow.quarterRevenue := revenue |})
    | _, _ => None
    end.

(** [Array.from({ length: 4 }, ...).filter(Boolean)] *)
Fixpoint quarterRows (currentDate : JS.Date) (year : string) (report : Report)
    (sortedMonths : list string) (quarterIndices : list Z)
    : option (list QuarterRow.t) :=
  match quarterIndices with
  | [] => Some []
  | quarterIndex :: rest =>
      match quarterRow currentDate year report sortedMonths quarterIndex with
      | Some row =>
          match quarterRows currentDate year report sortedMonths rest with
          | Some rows =>
              Some (match row with Some row => row :: rows | None => rows end)
          | None => None
          end
      | None => None
      end
  end.

Definition quarterlySummary (currentDate : JS.Date) (year : string)
    (report : Report) (sortedMonths : list string) : option (list QuarterRow.t) :=
  quarterRows currentDate year report sortedMonths [1; 2; 3; 4].

(** The two sums that the invariants of a report speak of, over the
    entries of [clientSummary] and of [monthlyRevenue]. *)
Definition clientsCHF (clients : gmap string ClientSummary.t) : Qc :=
  map_fold (fun _ entry acc => (ClientSummary.totalBilledCHF entry + acc)%Qc)
    0%Qc clients.

Definition monthsCHF (months : gmap string MonthSummary.t) : Qc :=
  map_fold (fun _ entry acc => (MonthSummary.totalCHF entry + acc)%Qc)
    0%Qc months.

End Buchfuehrung.

(** ** The invoice generator (the script that renders one invoice as PDF)

    Its computations: the number and the payment reference of the invoice,
    and the three amounts of the totals rows.  The PDF itself and the QR
    bill are drawn by libraries and are left out. *)

Module InvoiceGenerator.

Section Prepare.

Variable JSON_stringify : InvoiceData -> string.

(** [invoiceNumber] of the immediately-invoked function that builds
    [invoiceData]: the provided number if [rawInvoiceData.number] is
    truthy, else [generateInvoiceNumberFromFile(inputFile, rawInvoiceData)]. *)
Definition invoiceNumber (now : JS.Date) (inputFile : string)
    (rawInvoiceData : InvoiceData) : string :=
  match number rawInvoiceData with
  | Some n =>
      if JS.truthy (Some n) then n
      else InvoiceUtils.generateInvoiceNumberFromFile JSON_stringify now
             inputFile rawInvoiceData
  | None =>
      InvoiceUtils.generateInvoiceNumberFromFile JSON_stringify now
        inputFile rawInvoiceData
  end.

(** [reference = generateSCORReference(invoiceNumber)] *)
Definition reference (now : JS.Date) (inputFile : string)
    (rawInvoiceData : InvoiceData) : result string :=
  InvoiceUtils.generateSCORReference (invoiceNumber now inputFile rawInvoiceData).

End Prepare.

(** [invoiceData.items.reduce((sum, item) => sum + item.amount, 0)] *)
Definition subtotal (invoiceData : InvoiceData) : Qc :=
  List.fold_left (fun sum item => (sum + amount item)%Qc) (items invoiceData) 0%Qc.

(** [invoiceData.vatRate ? subtotal * (invoiceData.vatRate / 100) : 0] *)
Definition vat (invoiceData : InvoiceData) : Qc :=
  match vatRate invoiceData with
  | Some rate =>
      if bool_decide (rate = 0%Qc) then 0%Qc
      else (subtotal invoiceData * (rate / Q2Qc 100))%Qc
  | None => 0%Qc
  end.

Definition total (invoiceData : InvoiceData) : Qc :=
  (subtotal invoiceData + vat invoiceData)%Qc.

End InvoiceGenerator.

(* ================================================================== *)
(** * Vocabulary of the statements *)
(* ================================================================== *)

(** The sum of [f] over the entries of a dictionary. *)
Definition total {V : Type} (f : V -> Qc) (m : gmap string V) : Qc :=
  map_fold (fun _ v acc => (f v + acc)%Qc) 0%Qc m.

(** What one invoice contributes to a report, and the loop over the
    invoices. *)
Definition currencyOf (invoice : ProcessedInvoice.t) : string :=
  JS.orElse (currency (ProcessedInvoice.data invoice)) "CHF".

(** No invoice is in a currency whose code is the name of a member that
    objects inherit ([constructor], [toString], [__proto__], ...).  For
    such a code the source reads the inherited member where it looks up a
    rate or a total by currency; the dictionaries indexed by currency
    codes do not follow it there. *)
Definition plainCurrencies (invoices : list ProcessedInvoice.t) : Prop :=
  List.Forall (fun invoice => JS.inherited (currencyOf invoice) = false)
    invoices.

Definition amountOf (invoice : ProcessedInvoice.t) : Qc :=
  Buchfuehrung.invoiceTotal (ProcessedInvoice.data invoice).

Definition amountCHFOf (exchangeRates : gmap string Qc)
    (invoice : ProcessedInvoice.t) : Qc :=
  fst (Buchfuehrung.invoiceTotalCHF exchangeRates (currencyOf invoice)
         (amountOf invoice)).

Definition warningsOf (exchangeRates : gmap string Qc)
    (invoice : ProcessedInvoice.t) : list string :=
  snd (Buchfuehrung.invoiceTotalCHF exchangeRates (currencyOf invoice)
         (amountOf invoice)).

Definition lineOf (exchangeRates : gmap string Qc)
    (invoice : ProcessedInvoice.t) : InvoiceLine.t :=
  {| InvoiceLine.client := ProcessedInvoice.client invoice;
     InvoiceLine.month := ProcessedInvoice.month invoice;
     InvoiceLine.date := Buchfuehrung.datePart (ProcessedInvoice.date invoice);
     InvoiceLine.invoiceNumber := ProcessedInvoice.invoiceNumber invoice;
     InvoiceLine.amount := amountOf invoice;
     InvoiceLine.amountCHF := amountCHFOf exchangeRates invoice;
     InvoiceLine.currency := currencyOf invoice;
     InvoiceLine.items := List.length (items (ProcessedInvoice.data invoice));
     InvoiceLine.fileName := ProcessedInvoice.fileName invoice |}.

Definition run (exchangeRates : gmap string Qc)
    (invoices : list ProcessedInvoice.t) (st : Report * list string)
    : Report * list string :=
  List.fold_left (Buchfuehrung.processInvoice exchangeRates) invoices st.

(** Sums over lists, and the invoices of the input that share a currency,
    a month or a client. *)
Definition sum (amounts : list Qc) : Qc := List.fold_right Qcplus 0%Qc amounts.

Definition inCurrency (code : string) (invoices : list ProcessedInvoice.t)
    : list ProcessedInvoice.t :=
  List.filter (fun invoice => String.eqb (currencyOf invoice) code) invoices.

Definition inMonth (month : string) (invoices : list ProcessedInvoice.t)
    : list ProcessedInvoice.t :=
  List.filter (fun invoice => String.eqb (ProcessedInvoice.month invoice) month)
    invoices.

Definition ofClient (client : string) (invoices : list ProcessedInvoice.t)
    : list ProcessedInvoice.t :=
  List.filter (fun invoice => String.eqb (ProcessedInvoice.client invoice) client)
    invoices.

(** The revenue in one currency: absent when no invoice has the currency. *)
Definition revenueIn (code : string) (invoices : list ProcessedInvoice.t)
    : option Qc :=
  match inCurrency code invoices with
  | [] => None
  | billed => Some (sum (List.map amountOf billed))
  end.

(** The command line: the last argument that satisfies [p], and the
    kinds of arguments. *)
Definition lastOf (p : string -> bool) (args : list string) : option string :=
  List.last (List.map Some (List.filter p args)) None.

Definition isDirectory (arg : string) : bool := negb (JS.startsWith arg "-").

Definition languageFlag (arg : string) : option LanguageOption :=
  if String.eqb arg "--lang=de" || String.eqb arg "-l=de" then Some OnlyDe
  else if String.eqb arg "--lang=en" || String.eqb arg "-l=en" then Some OnlyEn
  else None.

Definition isLanguageFlag (arg : string) : bool :=
  match languageFlag arg with Some _ => true | None => false end.

Definition isPdfFlag (arg : string) : bool :=
  String.eqb arg "--pdf" || String.eqb arg "-p".

(** The value of a number in decimal digits, from the most significant
    digit on. *)
Fixpoint horner (acc : N) (d : Decimal.uint) : N :=
  match d with
  | Decimal.Nil => acc
  | Decimal.D0 l => horner (10 * acc) l
  | Decimal.D1 l => horner (1 + 10 * acc) l
  | Decimal.D2 l => horner (2 + 10 * acc) l
  | Decimal.D3 l => horner (3 + 10 * acc) l
  | Decimal.D4 l => horner (4 + 10 * acc) l
  | Decimal.D5 l => horner (5 + 10 * acc) l
  | Decimal.D6 l => horner (6 + 10 * acc) l
  | Decimal.D7 l => horner (7 + 10 * acc) l
  | Decimal.D8 l => horner (8 + 10 * acc) l
  | Decimal.D9 l => horner (9 + 10 * acc) l
  end%N.

(** A month of the year in two digits, ["01"] to ["12"], and a year of
    four digits from ["0100"] on (earlier years count from 1900). *)
Definition isMonth (month : string) : bool :=
  (String.length month =? 2)%nat
  && JS.forallb JS.isDigit month
  && match JS.decimalValue 0 month with
     | Some monthNum => (1 <=? monthNum) && (monthNum <=? 12)
     | None => false
     end.

Definition isLaterYear (year : string) : bool :=
  Buchfuehrung.isYear year
  && match JS.decimalValue 0 year with
     | Some y => 100 <=? y
     | None => false
     end.

(** The invoice that a well-named file is processed to. *)
Definition processedAs (JSON_stringify : InvoiceData -> string)
    (today : JS.Date) (join : string -> string -> string)
    (invoicesDir : string) (entry : string * InvoiceData) : ProcessedInvoice.t :=
  {| ProcessedInvoice.client := Debtor.name (debtor (snd entry));
     ProcessedInvoice.month := substring 5 2 (fst entry);
     ProcessedInvoice.fileName := fst entry;
     ProcessedInvoice.date := substring 0 7 (fst entry) +:+ "-01T00:00:00.000Z";
     ProcessedInvoice.invoiceNumber :=
       InvoiceUtils.generateInvoiceNumberFromFile JSON_stringify today
         (join invoicesDir (fst entry)) (snd entry);
     ProcessedInvoice.data := snd entry |}.

(** The conversion of the invoice to CHF does not throw. *)
Definition converts (exchangeRates : gmap string Qc)
    (invoice : ProcessedInvoice.t) : bool :=
  String.eqb (currencyOf invoice) "CHF"
  || negb (CurrencyConverter.falsy (exchangeRates !! currencyOf invoice)
           || CurrencyConverter.falsy (exchangeRates !! "CHF")).

(** The two lines that the invoice adds to the error stream when its
    conversion throws. *)
Definition fallbackLines (exchangeRates : gmap string Qc)
    (invoice : ProcessedInvoice.t) : list string :=
  if converts exchangeRates invoice then []
  else [ "Warning: No conversion rate available for " +:+ currencyOf invoice
           +:+ " to CHF";
         "Using 1:1 rate for " +:+ currencyOf invoice +:+ " to CHF as fallback" ].

(** The order of the invoice lines, and the lines of one date. *)
Definition notLater (a b : InvoiceLine.t) : Prop :=
  String.leb (InvoiceLine.date a) (InvoiceLine.date b) = true.

(** The CHF total of a month of the report, [0] for a month without
    entry. *)
Definition monthCHF (report : Report) (month : string) : Qc :=
  from_option MonthSummary.totalCHF 0%Qc (monthlyRevenue report !! month).

Definition notLaterMonth (a b : InvoiceLine.t) : Prop :=
  String.leb (InvoiceLine.month a) (InvoiceLine.month b) = true.

Definition datedOn (day : string) (lines : list InvoiceLine.t)
    : list InvoiceLine.t :=
  List.filter (fun line => String.eqb (InvoiceLine.date line) day) lines.

(** What the entry of a month holds after the invoices [l]. *)
Definition monthHolds (exchangeRates : gmap string Qc) (month : string)
    (l : list ProcessedInvoice.t)
    (entry : option MonthSummary.t) : Prop :=
  match inMonth month l with
  | [] => entry = None
  | billed =>
      exists e : MonthSummary.t,
        entry = Some e
        /\ MonthSummary.total e = sum (List.map amountOf billed)
        /\ MonthSummary.totalCHF e
           = sum (List.map (amountCHFOf exchangeRates) billed)
        /\ forall code, MonthSummary.byCurrency e !! code = revenueIn code billed
  end.

(** What the entry of a client holds after the invoices [l]. *)
Definition clientHolds (exchangeRates : gmap string Qc) (client : string)
    (l : list ProcessedInvoice.t)
    : option ClientSummary.t :=
  match ofClient client l with
  | [] => None
  | first :: rest =>
      Some {| ClientSummary.totalBilled := sum (List.map amountOf (first :: rest));
              ClientSummary.totalBilledCHF :=
                sum (List.map (amountCHFOf exchangeRates) (first :: rest));
              ClientSummary.invoiceCount := Z.of_nat (List.length (first :: rest));
              ClientSummary.currency := currencyOf first |}
  end.

(** The text [k.toString().padStart(2, "0")] is two decimal digits that
    denote [k]; likewise with three. *)
Definition twoDigits (k : Z) : bool :=
  let text := JS.padStart 2 "0" (JS.toString k) in
  (String.length text =? 2)%nat
  && JS.forallb JS.isDigit text
  && bool_decide (JS.decimalValue 0 text = Some k).

Definition threeDigits (k : Z) : bool :=
  let text := JS.padStart 3 "0" (JS.toString k) in
  (String.length text =? 3)%nat
  && JS.forallb JS.isDigit text
  && bool_decide (JS.decimalValue 0 text = Some k).

(** The integers [lo], [lo + 1], ..., [lo + n - 1], for checks by
    enumeration. *)
Definition range (lo n : Z) : list Z :=
  List.map (fun i => lo + Z.of_nat i) (List.seq 0 (Z.to_nat n)).

(** The text [y.toString().slice(-2)] is two decimal digits that denote
    [y] modulo 100. *)
Definition lastTwoDigits (y : Z) : bool :=
  let text := JS.sliceLast 2 (JS.toString y) in
  (String.length text =? 2)%nat
  && JS.forallb JS.isDigit text
  && bool_decide (JS.decimalValue 0 text = Some (y mod 100)).

(** *** Sample data *)

Definition zeroRateTable : gmap string Qc :=
  <["EUR"%string := 0%Qc]> (<["CHF"%string := 1%Qc]> ∅).

Definition sampleRates : gmap string Qc :=
  <["EUR"%string := Q2Qc (105 # 100)]> (<["CHF"%string := 1%Qc]> ∅).

Definition threeRates : gmap string Qc :=
  <["USD"%string := Q2Qc (9 # 10)]> sampleRates.


(** [path.join] and [JSON.stringify] in the examples. *)
Definition joinWithSlash (directory file : string) : string :=
  directory +:+ "/" +:+ file.

Definition acme : Creditor.t :=
  {| Creditor.name := "Acme GmbH";
     Creditor.uid := "CHE-123.456.789";
     Creditor.address := "Bahnhofstrasse";
     Creditor.buildingNumber := "1";
     Creditor.zip := "8001";
     Creditor.city := "Zurich";
     Creditor.country := "CH";
     Creditor.email := "office@acme.example";
     Creditor.phone := "+41 44 000 00 00";
     Creditor.iban := "CH9300762011623852957";
     Creditor.swift := "ACMECHZZ";
     Creditor.accountName := "Acme GmbH" |}.


(** The processed invoice of the file [file]: one item of [price] in the
    currency [code], billed by [issuer] to [clientName], no VAT. *)
Definition invoiceOf (issuer : Creditor.t) (clientName file : string)
    (code : option string) (price : Qc) : ProcessedInvoice.t :=
  {| ProcessedInvoice.client := clientName;
     ProcessedInvoice.month := substring 5 2 file;
     ProcessedInvoice.fileName := file;
     ProcessedInvoice.date :=
       substring 0 7 file +:+ "-01T00:00:00.000Z";
     ProcessedInvoice.invoiceNumber := "2503-001";
     ProcessedInvoice.data :=
       {| number := None;
          creditor := issuer;
          debtor :=
            {| Debtor.name := clientName;
               Debtor.address := "Main Street";
               Debtor.buildingNumber := "7";
               Debtor.zip := "3000";
               Debtor.city := "Bern";
               Debtor.country := "CH" |};
          columns := ["Description"; "Amount"];
          items := [ {| description := "Consulting"; amount := price |} ];
          language := EN;
          vatRate := None;
          currency := code |} |}.

Definition noon : string := "2025-06-30T12:00:00.000Z".

(** Three invoices of one year: two for Globex, in francs and in euros,
    and one for Initech in dollars, for which [sampleRates] has no rate. *)
Definition threeInvoices : list ProcessedInvoice.t :=
  [ invoiceOf acme "Globex" "2025-04-globex.json" (Some "EUR"%string) (Q2Qc 50);
    invoiceOf acme "Initech" "2025-04-initech.json" (Some "USD"%string) (Q2Qc 80);
    invoiceOf acme "Globex" "2025-03-globex.json" None (Q2Qc 100) ].

(** The report of a run that completes. *)
Definition reportOf (run : outcome * list string) : Report :=
  match fst run with
  | Completed report _ => report
  | Exited _ => Buchfuehrung.emptyReport EmptyString EmptyString
  end.

(** A directory of four files, three of them invoices of 2025. *)
Definition fourFiles : list (string * InvoiceData) :=
  [ ("2025-04-globex.json"%string,
     ProcessedInvoice.data
       (invoiceOf acme "Globex" "2025-04-globex.json" (Some "EUR"%string) (Q2Qc 50)));
    ("notes.txt"%string,
     ProcessedInvoice.data
       (invoiceOf acme "Nobody" "notes.txt" None (Q2Qc 1)));
    ("2025-04-initech.json"%string,
     ProcessedInvoice.data
       (invoiceOf acme "Initech" "2025-04-initech.json" (Some "USD"%string) (Q2Qc 80)));
    ("2025-03-globex.json"%string,
     ProcessedInvoice.data
       (invoiceOf acme "Globex" "2025-03-globex.json" None (Q2Qc 100))) ].

Definition threeInvoicesReport : Report :=
  reportOf (Buchfuehrung.generateReport noon "2025" Both sampleRates threeInvoices).

Definition threeInvoicesWarnings : list string :=
  snd (Buchfuehrung.generateReport noon "2025" Both sampleRates threeInvoices).

(** A conversion to PDF that fails for the German report. *)
Definition noMermaid (file : ReportLanguage) : result string * list string :=
  match file with
  | De =>
      (Throw (Error "mermaid-cli not installed"),
       [ "Error: mermaid-cli is not installed.";
         "Please install it using: npm install -g @mermaid-js/mermaid-cli" ])
  | En => (Ok "buchfuehrung-2025-en.pdf", [])
  end.

Definition threeInvoicesApril : MonthSummary.t :=
  default {| MonthSummary.total := 0; MonthSummary.totalCHF := 0;
             MonthSummary.byCurrency := ∅ |}
    (monthlyRevenue threeInvoicesReport !! "04").

Definition marchForConstructor : ProcessedInvoice.t :=
  invoiceOf acme "constructor" "2025-03-constructor.json" (Some "CHF"%string)
    (Q2Qc 100).

(** A stand-in for [JSON.stringify] in the examples: the names of the two
    parties and the item descriptions, separated by bars. *)
Definition partiesAndItems (data : InvoiceData) : string :=
  Creditor.name (creditor data) +:+ "|" +:+ Debtor.name (debtor data) +:+ "|"
  +:+ String.concat "|" (List.map description (items data)).

Definition november2026 : JS.Date := {| JS.getFullYear := 2026; JS.getMonth := 10 |}.

Definition marchForGlobex : InvoiceData :=
  ProcessedInvoice.data
    (invoiceOf acme "Globex" "2025-03-acme.json" None (Q2Qc 100)).

Definition fourFilesRun : outcome * list string :=
  Buchfuehrung.generateReportFromDirectory partiesAndItems november2026
    joinWithSlash noon "2025" "/srv/invoices" Both sampleRates fourFiles.

(* ================================================================== *)
(** * Properties *)
(* ================================================================== *)

(** ** The structured reference *)

Section StructuredReference.

Import InvoiceUtils.

Lemma append_String (c : ascii) (s t : string) :
  String c s +:+ t = String c (s +:+ t).
Proof. reflexivity. Qed.

Lemma append_assoc (s t u : string) : (s +:+ t) +:+ u = s +:+ (t +:+ u).
Proof.
  induction s as [|c s IH]; [reflexivity|].
  rewrite !append_String, IH. reflexivity.
Qed.

Lemma forallb_app (p : ascii -> bool) (s t : string) :
  JS.forallb p (s +:+ t) = JS.forallb p s && JS.forallb p t.
Proof.
  induction s as [|c s IH]; [reflexivity|].
  rewrite append_String. simpl. rewrite IH. apply andb_assoc.
Qed.

Lemma mapJoin_app (f : ascii -> string) (s t : string) :
  JS.mapJoin f (s +:+ t) = JS.mapJoin f s +:+ JS.mapJoin f t.
Proof.
  induction s as [|c s IH]; [reflexivity|].
  rewrite append_String. simpl. rewrite IH. symmetry. apply append_assoc.
Qed.

Lemma filter_forallb (p : ascii -> bool) (s : string) :
  JS.forallb p (JS.filter p s) = true.
Proof.
  induction s as [|c s IH]; simpl; [reflexivity|].
  destruct (p c) eqn:Hc; simpl; [rewrite Hc|]; exact IH.
Qed.

(** An upper-cased letter or digit is mapped to decimal digits only. *)
Lemma letterToNumber_digits (c : ascii) :
  JS.isAlnum c = true ->
  JS.forallb JS.isDigit (letterToNumber (JS.toUpperChar c)) = true.
Proof.
  destruct c as [[] [] [] [] [] [] [] []];
    vm_compute; intro H; first [reflexivity | discriminate H].
Qed.

Lemma converted_digits (s : string) :
  JS.forallb JS.isAlnum s = true ->
  JS.forallb JS.isDigit (JS.mapJoin letterToNumber (JS.toUpperCase s)) = true.
Proof.
  induction s as [|c s IH]; simpl; [reflexivity|].
  intros [Hc Hs]%andb_prop.
  rewrite forallb_app, (letterToNumber_digits c Hc). exact (IH Hs).
Qed.

(** The second [.map] leaves a string of digits as it is. *)
Lemma mapJoin_digits (s : string) :
  JS.forallb JS.isDigit s = true -> JS.mapJoin letterToNumber s = s.
Proof.
  induction s as [|c s IH]; simpl; [reflexivity|].
  intros [Hc Hs]%andb_prop.
  unfold letterToNumber. rewrite Hc, append_String. f_equal. exact (IH Hs).
Qed.

Lemma decimalValue_digits (s : string) (acc : Z) :
  JS.forallb JS.isDigit s = true -> 0 <= acc ->
  exists n, JS.decimalValue acc s = Some n /\ 0 <= n.
Proof.
  revert acc. induction s as [|c s IH]; simpl; intros acc Hs Hacc.
  - exists acc. split; [reflexivity | exact Hacc].
  - apply andb_prop in Hs as [Hc Hs]. rewrite Hc.
    apply IH; [exact Hs|].
    unfold JS.isDigit, JS.between in Hc.
    apply andb_prop in Hc as [Hlo _]. apply Z.leb_le in Hlo. lia.
Qed.

(** The string handed to [BigInt]: the converted payload followed by the
    digits of ["RF00"]. *)
Lemma numeric_shape (invoiceNumber : string) :
  let converted :=
    JS.mapJoin letterToNumber
      (JS.toUpperCase (JS.filter JS.isAlnum invoiceNumber)) in
  JS.mapJoin letterToNumber (converted +:+ "RF00") = converted +:+ "271500"
  /\ JS.forallb JS.isDigit (converted +:+ "271500") = true.
Proof.
  intro converted.
  assert (Hd : JS.forallb JS.isDigit converted = true)
    by apply converted_digits, filter_forallb.
  split.
  - rewrite mapJoin_app, (mapJoin_digits _ Hd). reflexivity.
  - rewrite forallb_app, Hd. reflexivity.
Qed.

(** [generateSCORReference] never throws: what it computes, in one
    equation. *)
Lemma generateSCORReference_value (invoiceNumber : string) :
  exists n : Z,
    0 <= n
    /\ JS.decimalValue 0
         (JS.mapJoin letterToNumber
            (JS.toUpperCase (JS.filter JS.isAlnum invoiceNumber)) +:+ "271500")
       = Some n
    /\ generateSCORReference invoiceNumber
       = Ok ("RF" +:+ JS.padStart 2 "0" (JS.toString (98 - Z.rem n 97))
             +:+ JS.filter JS.isAlnum invoiceNumber).
Proof.
  destruct (numeric_shape invoiceNumber) as [Hshape Hdigits].
  destruct (decimalValue_digits _ 0 Hdigits) as [n [Hn Hpos]]; [lia|].
  exists n. split; [exact Hpos|]. split; [exact Hn|].
  unfold generateSCORReference, JS.BigInt.
  cbv zeta in Hshape. rewrite Hshape, Hn. reflexivity.
Qed.

Lemma padded_check_digits (k : Z) :
  2 <= k <= 98 -> twoDigits k = true.
Proof.
  intro Hk.
  assert (Hall : List.forallb twoDigits (List.map Z.of_nat (List.seq 2 97)) = true)
    by (vm_compute; reflexivity).
  rewrite List.forallb_forall in Hall. apply Hall.
  apply List.in_map_iff. exists (Z.to_nat k). split; [lia|].
  apply List.in_seq. lia.
Qed.

End StructuredReference.

(** C1 (as stated): the reference of ["A1"] would be ["RF42A1"].  It is not:
    [F] is mapped to [15], not [31]. *)
Lemma scor_A1_is_not_RF42A1 :
  InvoiceUtils.generateSCORReference "A1" <> Ok "RF42A1"%string.
Proof. vm_compute. discriminate. Qed.

(** C1 (amended): the reference of ["A1"] is ["RF90A1"].  The cleaned payload
    ["A1"] maps to the digits ["101"]; with ["RF00"] appended and its letters
    mapped ([R] to 27, [F] to 15) this is ["101271500"], whose remainder
    modulo 97 is 8, so the check digits are 98 - 8 = 90. *)
Theorem scor_A1 :
  JS.filter JS.isAlnum "A1" = "A1"%string
  /\ JS.mapJoin InvoiceUtils.letterToNumber (JS.toUpperCase "A1") = "101"%string
  /\ JS.mapJoin InvoiceUtils.letterToNumber ("101" +:+ "RF00") = "101271500"%string
  /\ JS.BigInt "101271500" = Ok 101271500
  /\ Z.rem 101271500 97 = 8
  /\ JS.padStart 2 "0" (JS.toString (98 - 8)) = "90"%string
  /\ InvoiceUtils.generateSCORReference "A1" = Ok "RF90A1"%string.
Proof. vm_compute. repeat split; reflexivity. Qed.

(** C2 (as stated): the generator would fail exactly when no letter or digit
    survives the cleaning.  For ["--"] nothing survives, and it returns. *)
Lemma scor_empty_payload_returns :
  ~ (threw (InvoiceUtils.generateSCORReference "--")
     <-> JS.filter JS.isAlnum "--" = ""%string).
Proof.
  intros [_ H]. vm_compute in H. exact (H eq_refl).
Qed.

(** C2 (amended): the generator returns a reference for every input string
    and never fails; when no letter or digit survives the cleaning, the
    reference is ["RF04"]. *)
Theorem scor_total (invoiceNumber : string) :
  (exists reference,
      InvoiceUtils.generateSCORReference invoiceNumber = Ok reference)
  /\ (JS.filter JS.isAlnum invoiceNumber = ""%string ->
      InvoiceUtils.generateSCORReference invoiceNumber = Ok "RF04"%string).
Proof.
  split.
  - destruct (generateSCORReference_value invoiceNumber) as [n [_ [_ H]]].
    eexists. exact H.
  - intro Hclean. unfold InvoiceUtils.generateSCORReference.
    rewrite Hclean. vm_compute. reflexivity.
Qed.

(** C7: whenever the generator returns a reference, it is ["RF"], two check
    characters and the cleaned input; the two characters are decimal digits
    whose value lies between 2 and 98. *)
Theorem scor_check_digits (invoiceNumber reference : string) :
  InvoiceUtils.generateSCORReference invoiceNumber = Ok reference ->
  exists (checkDigits : string) (k : Z),
    reference = "RF" +:+ checkDigits +:+ JS.filter JS.isAlnum invoiceNumber
    /\ String.length checkDigits = 2%nat
    /\ JS.forallb JS.isDigit checkDigits = true
    /\ JS.decimalValue 0 checkDigits = Some k
    /\ 2 <= k <= 98.
Proof.
  intro Hret.
  destruct (generateSCORReference_value invoiceNumber) as [n [Hpos [_ H]]].
  rewrite H in Hret. injection Hret as <-.
  pose proof (Z.rem_bound_pos n 97 Hpos ltac:(lia)) as Hrem.
  set (k := 98 - Z.rem n 97) in *.
  assert (Hk : 2 <= k <= 98) by (unfold k; lia).
  pose proof (padded_check_digits k Hk) as Hok.
  unfold twoDigits in Hok.
  apply andb_prop in Hok as [[Hlen Hdig]%andb_prop Hval].
  exists (JS.padStart 2 "0" (JS.toString k)), k.
  split; [reflexivity|].
  split; [apply Nat.eqb_eq, Hlen|].
  split; [exact Hdig|].
  split; [apply bool_decide_eq_true in Hval; exact Hval | exact Hk].
Qed.

Lemma scor_check_digits_witness :
  exists (checkDigits : string) (k : Z),
    "RF18539007547034"%string
    = "RF" +:+ checkDigits +:+ JS.filter JS.isAlnum "5390 0754 7034"
    /\ String.length checkDigits = 2%nat
    /\ JS.forallb JS.isDigit checkDigits = true
    /\ JS.decimalValue 0 checkDigits = Some k
    /\ 2 <= k <= 98.
Proof.
  apply (scor_check_digits "5390 0754 7034" "RF18539007547034").
  vm_compute. reflexivity.
Defined.

(** ** Currency conversion *)

Section Conversion.

Import CurrencyConverter.

Lemma falsy_spec (o : option Qc) :
  falsy o = true <-> o = None \/ o = Some 0%Qc.
Proof.
  destruct o as [v|]; simpl.
  - rewrite bool_decide_eq_true. split.
    + intros ->. right. reflexivity.
    + intros [H|H]; [discriminate H | injection H as ->; reflexivity].
  - split; [left|]; reflexivity.
Qed.

Lemma falsy_false (o : option Qc) (v : Qc) :
  o = Some v -> v <> 0%Qc -> falsy o = false.
Proof.
  intros -> Hv. simpl. apply bool_decide_eq_false_2. exact Hv.
Qed.

Lemma eqb_distinct (a b : string) : a <> b -> String.eqb a b = false.
Proof. intro H. apply String.eqb_neq. exact H. Qed.

(** The value of a conversion between two currencies that both have a
    non-zero rate. *)
Lemma convertCurrency_value (x : Qc) (A B : string) (r : gmap string Qc)
    (ra rb : Qc) :
  A <> B -> r !! A = Some ra -> r !! B = Some rb ->
  ra <> 0%Qc -> rb <> 0%Qc ->
  convertCurrency x A B r = Ok (x * ra / rb)%Qc.
Proof.
  intros Hne Ha Hb Hra Hrb. unfold convertCurrency.
  rewrite (eqb_distinct _ _ Hne).
  rewrite (falsy_false _ _ Ha Hra), (falsy_false _ _ Hb Hrb), Ha, Hb.
  reflexivity.
Qed.

End Conversion.

(** C5 (as stated): a conversion between distinct currencies would fail
    exactly when the table lacks an entry for one of them.  A table that
    holds the rate 0 for EUR has both entries, and the conversion fails. *)
Lemma convert_fails_on_zero_rate :
  ~ (threw (CurrencyConverter.convertCurrency 1%Qc "EUR" "CHF" zeroRateTable)
     <-> (zeroRateTable !! "EUR"%string = None
          \/ zeroRateTable !! "CHF"%string = None)).
Proof.
  intros [H _].
  assert (Hthrew : threw (CurrencyConverter.convertCurrency 1%Qc "EUR" "CHF"
                            zeroRateTable)) by (vm_compute; exact I).
  destruct (H Hthrew) as [Hn|Hn]; vm_compute in Hn; discriminate Hn.
Qed.

(** C5 (amended): for distinct currencies A and B, neither of them the
    name of a member that objects inherit, and a table of finite rates, the
    conversion fails, with the message naming both, exactly when the table
    has no entry or the entry 0 for A or for B; otherwise it returns
    [x * r[A] / r[B]], computed without rounding. *)
Theorem convert_distinct (x : Qc) (A B : string) (r : gmap string Qc) :
  JS.inherited A = false -> JS.inherited B = false ->
  A <> B ->
  let unusable (c : string) := r !! c = None \/ r !! c = Some 0%Qc in
  (threw (CurrencyConverter.convertCurrency x A B r)
   <-> unusable A \/ unusable B)
  /\ (unusable A \/ unusable B ->
      CurrencyConverter.convertCurrency x A B r
      = Throw (Error ("No conversion rate available for " +:+ A
                      +:+ " to " +:+ B)))
  /\ (forall ra rb : Qc,
        r !! A = Some ra -> r !! B = Some rb ->
        ra <> 0%Qc -> rb <> 0%Qc ->
        CurrencyConverter.convertCurrency x A B r = Ok (x * ra / rb)%Qc).
Proof.
  intros _ _ Hne unusable.
  assert (Hfail : unusable A \/ unusable B ->
            CurrencyConverter.convertCurrency x A B r
            = Throw (Error ("No conversion rate available for " +:+ A
                            +:+ " to " +:+ B))).
  { intro Hu. unfold CurrencyConverter.convertCurrency.
    rewrite (eqb_distinct _ _ Hne).
    destruct Hu as [Hu|Hu]; apply falsy_spec in Hu; rewrite Hu;
      [reflexivity | rewrite orb_true_r; reflexivity]. }
  split; [split|split].
  - intro Hthrew. unfold CurrencyConverter.convertCurrency in Hthrew.
    rewrite (eqb_distinct _ _ Hne) in Hthrew.
    destruct (CurrencyConverter.falsy (r !! A)) eqn:Ha.
    + left. apply falsy_spec, Ha.
    + destruct (CurrencyConverter.falsy (r !! B)) eqn:Hb.
      * right. apply falsy_spec, Hb.
      * simpl in Hthrew. destruct Hthrew.
  - intro Hu. rewrite (Hfail Hu). exact I.
  - exact Hfail.
  - intros ra rb Ha Hb Hra Hrb.
    apply convertCurrency_value; assumption.
Qed.

Lemma convert_distinct_witness :
  let unusable (c : string) :=
    sampleRates !! c = None \/ sampleRates !! c = Some 0%Qc in
  (threw (CurrencyConverter.convertCurrency (Q2Qc 50) "EUR" "CHF" sampleRates)
   <-> unusable "EUR"%string \/ unusable "CHF"%string)
  /\ (unusable "EUR"%string \/ unusable "CHF"%string ->
      CurrencyConverter.convertCurrency (Q2Qc 50) "EUR" "CHF" sampleRates
      = Throw (Error ("No conversion rate available for " +:+ "EUR"
                      +:+ " to " +:+ "CHF")))
  /\ (forall ra rb : Qc,
        sampleRates !! "EUR"%string = Some ra ->
        sampleRates !! "CHF"%string = Some rb ->
        ra <> 0%Qc -> rb <> 0%Qc ->
        CurrencyConverter.convertCurrency (Q2Qc 50) "EUR" "CHF" sampleRates
        = Ok (Q2Qc 50 * ra / rb)%Qc).
Proof.
  apply (convert_distinct (Q2Qc 50) "EUR" "CHF" sampleRates).
  - reflexivity.
  - reflexivity.
  - discriminate.
Defined.

(** C10: converting between a currency and itself returns the amount, for
    every table; the table is not consulted, so no missing rate can make
    the call fail. *)
Theorem convert_same_currency (x : Qc) (C : string) (r : gmap string Qc) :
  CurrencyConverter.convertCurrency x C C r = Ok x.
Proof.
  unfold CurrencyConverter.convertCurrency.
  destruct (String.eqb C C) eqn:Hsame; [reflexivity|].
  apply String.eqb_neq in Hsame. contradiction.
Qed.

(** C8: with non-zero rates for A and B in the table, converting from A to
    B and back from B to A returns the amount that was put in. *)
Theorem convert_round_trip (x : Qc) (A B : string) (r : gmap string Qc)
    (ra rb : Qc) :
  r !! A = Some ra -> r !! B = Some rb ->
  ra <> 0%Qc -> rb <> 0%Qc ->
  exists y : Qc,
    CurrencyConverter.convertCurrency x A B r = Ok y
    /\ CurrencyConverter.convertCurrency y B A r = Ok x.
Proof.
  intros Ha Hb Hra Hrb.
  destruct (decide (A = B)) as [->|Hne].
  - exists x. unfold CurrencyConverter.convertCurrency.
    rewrite String.eqb_refl. split; reflexivity.
  - exists (x * ra / rb)%Qc. split.
    + apply convertCurrency_value; assumption.
    + rewrite (convertCurrency_value _ B A r rb ra); try assumption.
      * f_equal. field. split; assumption.
      * intro Heq. apply Hne. symmetry. exact Heq.
Qed.

Lemma convert_round_trip_witness :
  exists y : Qc,
    CurrencyConverter.convertCurrency (Q2Qc 50) "EUR" "CHF" sampleRates = Ok y
    /\ CurrencyConverter.convertCurrency y "CHF" "EUR" sampleRates = Ok (Q2Qc 50).
Proof.
  apply (convert_round_trip (Q2Qc 50) "EUR" "CHF" sampleRates
           (Q2Qc (105 # 100)) 1%Qc).
  - vm_compute. reflexivity.
  - vm_compute. reflexivity.
  - discriminate.
  - discriminate.
Defined.

(** ** The yearly report *)

Section Sums.

Context {V : Type} (f : V -> Qc).

Lemma total_commutes (j1 j2 : string) (z1 z2 : V) (y : Qc) :
  (f z1 + (f z2 + y) = f z2 + (f z1 + y))%Qc.
Proof. ring. Qed.

Lemma total_empty : total f ∅ = 0%Qc.
Proof. apply map_fold_empty. Qed.

Lemma total_insert_fresh (m : gmap string V) (k : string) (v : V) :
  m !! k = None -> total f (<[k := v]> m) = (f v + total f m)%Qc.
Proof.
  intro Hk. unfold total.
  rewrite map_fold_insert_L; [reflexivity | | exact Hk].
  intros. apply total_commutes; assumption.
Qed.

Lemma total_insert_present (m : gmap string V) (k : string) (old v : V) :
  m !! k = Some old -> total f (<[k := v]> m) = (f v + total f m - f old)%Qc.
Proof.
  intro Hk.
  rewrite <- insert_delete_eq.
  rewrite total_insert_fresh by apply lookup_delete_eq.
  assert (Hm : total f m = (f old + total f (delete k m))%Qc).
  { unfold total. rewrite (map_fold_delete_L _ _ k old m); [reflexivity | | exact Hk].
    intros. apply total_commutes; assumption. }
  rewrite Hm. ring.
Qed.

End Sums.

Section Aggregation.

Import Buchfuehrung.

Variable exchangeRates : gmap string Qc.

Lemma processInvoice_fields (report : Report) (stderr : list string)
    (invoice : ProcessedInvoice.t) :
  let st := processInvoice exchangeRates (report, stderr) invoice in
  totalRevenueCHF (fst st)
  = (totalRevenueCHF report + amountCHFOf exchangeRates invoice)%Qc
  /\ monthlyRevenue (fst st)
     = addToMonth (monthlyRevenue report) (ProcessedInvoice.month invoice)
         (currencyOf invoice) (amountOf invoice)
         (amountCHFOf exchangeRates invoice)
  /\ clientSummary (fst st)
     = addToClient (clientSummary report) (ProcessedInvoice.client invoice)
         (currencyOf invoice) (amountOf invoice)
         (amountCHFOf exchangeRates invoice)
  /\ invoices (fst st) = invoices report ++ [lineOf exchangeRates invoice]
  /\ snd st = stderr ++ warningsOf exchangeRates invoice.
Proof.
  unfold processInvoice, lineOf, amountCHFOf, warningsOf, amountOf, currencyOf.
  destruct (invoiceTotalCHF _ _ _) as [chf warnings]. simpl.
  repeat split; reflexivity.
Qed.

Lemma run_cons (invoice : ProcessedInvoice.t) (l : list ProcessedInvoice.t)
    (st : Report * list string) :
  run exchangeRates (invoice :: l) st
  = run exchangeRates l (processInvoice exchangeRates st invoice).
Proof. reflexivity. Qed.

(** The lines and the warnings of a run: one line per invoice, in input
    order. *)
Lemma run_lines (l : list ProcessedInvoice.t) (st : Report * list string) :
  invoices (fst (run exchangeRates l st))
  = invoices (fst st) ++ List.map (lineOf exchangeRates) l
  /\ snd (run exchangeRates l st)
     = snd st ++ List.concat (List.map (warningsOf exchangeRates) l).
Proof.
  revert st. induction l as [|invoice l IH]; intros [report stderr].
  - cbn [List.map List.concat]. rewrite !app_nil_r. split; reflexivity.
  - rewrite run_cons.
    destruct (processInvoice_fields report stderr invoice)
      as (_ & _ & _ & Hlines & Herr).
    destruct (IH (processInvoice exchangeRates (report, stderr) invoice))
      as [IHl IHe].
    rewrite IHl, IHe, Hlines, Herr.
    cbn [List.map List.concat fst snd]. rewrite <- !app_assoc.
    split; reflexivity.
Qed.

Lemma monthsCHF_total (months : gmap string MonthSummary.t) :
  monthsCHF months = total MonthSummary.totalCHF months.
Proof. reflexivity. Qed.

Lemma clientsCHF_total (clients : gmap string ClientSummary.t) :
  clientsCHF clients = total ClientSummary.totalBilledCHF clients.
Proof. reflexivity. Qed.

Lemma monthsCHF_addToMonth (months : gmap string MonthSummary.t)
    (month currency : string) (x xCHF : Qc) :
  monthsCHF (addToMonth months month currency x xCHF)
  = (monthsCHF months + xCHF)%Qc.
Proof.
  rewrite (monthsCHF_total months), (monthsCHF_total (addToMonth _ _ _ _ _)).
  unfold addToMonth.
  destruct (months !! month) as [entry|] eqn:Hm; cbn [from_option id].
  - rewrite (total_insert_present _ _ _ entry) by exact Hm.
    cbn [MonthSummary.totalCHF]. ring.
  - rewrite total_insert_fresh by exact Hm.
    cbn [MonthSummary.totalCHF]. ring.
Qed.

Lemma clientsCHF_addToClient (clients : gmap string ClientSummary.t)
    (client currency : string) (x xCHF : Qc) :
  JS.inherited client = false ->
  clientsCHF (addToClient clients client currency x xCHF)
  = (clientsCHF clients + xCHF)%Qc.
Proof.
  intro Hown.
  rewrite (clientsCHF_total clients), (clientsCHF_total (addToClient _ _ _ _ _)).
  unfold addToClient.
  destruct (clients !! client) as [entry|] eqn:Hc.
  - rewrite (total_insert_present _ _ _ entry) by exact Hc.
    cbn [bump ClientSummary.totalBilledCHF]. ring.
  - rewrite Hown, total_insert_fresh by exact Hc.
    cbn [bump ClientSummary.totalBilledCHF]. ring.
Qed.

(** The months of a report add up to its total in CHF. *)
Lemma run_months (l : list ProcessedInvoice.t) (st : Report * list string) :
  monthsCHF (monthlyRevenue (fst st)) = totalRevenueCHF (fst st) ->
  monthsCHF (monthlyRevenue (fst (run exchangeRates l st)))
  = totalRevenueCHF (fst (run exchangeRates l st)).
Proof.
  revert st. induction l as [|invoice l IH]; intros [report stderr] Hinv;
    [exact Hinv|].
  rewrite run_cons. apply IH.
  destruct (processInvoice_fields report stderr invoice) as (Ht & Hm & _).
  rewrite Ht, Hm, monthsCHF_addToMonth.
  cbn [fst] in Hinv. rewrite Hinv. reflexivity.
Qed.

(** So do its clients, when no client bears the name of an inherited
    property. *)
Lemma run_clients (l : list ProcessedInvoice.t) (st : Report * list string) :
  List.Forall
    (fun invoice => JS.inherited (ProcessedInvoice.client invoice) = false) l ->
  clientsCHF (clientSummary (fst st)) = totalRevenueCHF (fst st) ->
  clientsCHF (clientSummary (fst (run exchangeRates l st)))
  = totalRevenueCHF (fst (run exchangeRates l st)).
Proof.
  revert st. induction l as [|invoice l IH]; intros [report stderr] Hown Hinv;
    [exact Hinv|].
  inversion Hown as [|? ? Hinvoice Hrest]; subst.
  rewrite run_cons. apply IH; [exact Hrest|].
  destruct (processInvoice_fields report stderr invoice) as (Ht & _ & Hc & _).
  rewrite Ht, Hc, clientsCHF_addToClient by exact Hinvoice.
  cbn [fst] in Hinv. rewrite Hinv. reflexivity.
Qed.

End Aggregation.

Section Reports.

Import Buchfuehrung.

Lemma insertByDate_perm (x : InvoiceLine.t) (l : list InvoiceLine.t) :
  Permutation (insertByDate x l) (x :: l).
Proof.
  induction l as [|y l IH]; simpl; [reflexivity|].
  destruct (String.leb _ _); [reflexivity|].
  rewrite IH. apply perm_swap.
Qed.

Lemma sortByDate_perm (l : list InvoiceLine.t) : Permutation (sortByDate l) l.
Proof.
  induction l as [|x l IH]; simpl; [reflexivity|].
  rewrite insertByDate_perm, IH. reflexivity.
Qed.




(** A run whose creditors are consistent ends with the report that the
    loop over the invoices built, sorted by date. *)
Lemma generateReport_completes (now year : string) (language : LanguageOption)
    (exchangeRates : gmap string Qc)
    (first : ProcessedInvoice.t) (rest : list ProcessedInvoice.t) :
  firstInconsistent (creditor (ProcessedInvoice.data first)) rest = None ->
  generateReport now year language exchangeRates (first :: rest)
  = (Completed
       (sortInvoices
          (fst (run exchangeRates (first :: rest) (emptyReport year now, []))))
       (languagesOf language),
     snd (run exchangeRates (first :: rest) (emptyReport year now, []))).
Proof.
  intro Hok. unfold generateReport. rewrite Hok. unfold run.
  destruct (fold_left _ _ _) as [report stderr]. reflexivity.
Qed.

(** The two sums of a finished report: the months always add up to the
    total in CHF, the clients do when none of them bears an inherited
    property name. *)
Lemma report_months_total (now year : string) (language : LanguageOption)
    (exchangeRates : gmap string Qc) (invoices : list ProcessedInvoice.t)
    (report : Report) (generatedFiles : list ReportLanguage)
    (stderr : list string) :
  generateReport now year language exchangeRates invoices
  = (Completed report generatedFiles, stderr) ->
  monthsCHF (monthlyRevenue report) = totalRevenueCHF report.
Proof.
  destruct invoices as [|first rest]; [discriminate|].
  destruct (firstInconsistent (creditor (ProcessedInvoice.data first)) rest)
    as [current|] eqn:Hcheck.
  - unfold generateReport. rewrite Hcheck. discriminate.
  - rewrite (generateReport_completes _ _ _ _ _ _ Hcheck).
    intro Heq.
    assert (Hr : sortInvoices
                   (fst (run exchangeRates (first :: rest) (emptyReport year now, [])))
                 = report) by congruence.
    rewrite <- Hr. unfold sortInvoices. cbn [monthlyRevenue totalRevenueCHF].
    apply (run_months exchangeRates (first :: rest) (emptyReport year now, [])).
    reflexivity.
Qed.

Lemma report_clients_total (now year : string) (language : LanguageOption)
    (exchangeRates : gmap string Qc) (invoices : list ProcessedInvoice.t)
    (report : Report) (generatedFiles : list ReportLanguage)
    (stderr : list string) :
  List.Forall
    (fun invoice => JS.inherited (ProcessedInvoice.client invoice) = false)
    invoices ->
  generateReport now year language exchangeRates invoices
  = (Completed report generatedFiles, stderr) ->
  clientsCHF (clientSummary report) = totalRevenueCHF report.
Proof.
  intro Hown.
  destruct invoices as [|first rest]; [discriminate|].
  destruct (firstInconsistent (creditor (ProcessedInvoice.data first)) rest)
    as [current|] eqn:Hcheck.
  - unfold generateReport. rewrite Hcheck. discriminate.
  - rewrite (generateReport_completes _ _ _ _ _ _ Hcheck).
    intro Heq.
    assert (Hr : sortInvoices
                   (fst (run exchangeRates (first :: rest) (emptyReport year now, [])))
                 = report) by congruence.
    rewrite <- Hr. unfold sortInvoices. cbn [clientSummary totalRevenueCHF].
    apply (run_clients exchangeRates (first :: rest) (emptyReport year now, []));
      [exact Hown | reflexivity].
Qed.

(** The month of a processed invoice is [file.substring(5, 7)]: at most two
    characters, so never the name of an inherited property. *)
Lemma substring_length (n m : nat) (s : string) :
  (String.length (substring n m s) <= m)%nat.
Proof.
  revert n m. induction s as [|c s IH]; intros [|n] [|m]; simpl; try lia.
  - specialize (IH 0%nat m). lia.
  - apply IH.
  - apply IH.
Qed.

Lemma inherited_long (key : string) :
  JS.inherited key = true -> (7 <= String.length key)%nat.
Proof.
  unfold JS.inherited. rewrite List.existsb_exists.
  intros [name [Hin Heq]]. apply String.eqb_eq in Heq. subst name.
  simpl in Hin.
  repeat (destruct Hin as [<-|Hin]; [simpl; lia|]). destruct Hin.
Qed.

Lemma month_not_inherited (file : string) :
  JS.inherited (substring 5 2 file) = false.
Proof.
  destruct (JS.inherited (substring 5 2 file)) eqn:H; [|reflexivity].
  apply inherited_long in H. pose proof (substring_length 5 2 file). lia.
Qed.

End Reports.

(** C3: the sums of a report.  For one invoice of 100 CHF to a client named
    ["constructor"] the run completes with a total of 100 CHF; the month
    ["03"] holds the 100 CHF, while [clientSummary] has no entry at all, so
    the clients add up to 0: the guard [!report.clientSummary[client]] saw
    the inherited [constructor] and the invoice was booked nowhere. *)
Theorem clients_sum_misses_inherited_name :
  exists (report : Report) (stderr : list string),
    Buchfuehrung.generateReport noon "2025" Both sampleRates [marchForConstructor]
    = (Completed report [De; En], stderr)
    /\ totalRevenueCHF report = Q2Qc 100
    /\ Buchfuehrung.monthsCHF (monthlyRevenue report) = Q2Qc 100
    /\ clientSummary report = ∅
    /\ Buchfuehrung.clientsCHF (clientSummary report) = 0%Qc
    /\ Buchfuehrung.clientsCHF (clientSummary report) <> totalRevenueCHF report.
Proof.
  eexists. eexists.
  split; [apply generateReport_completes; reflexivity|].
  unfold Buchfuehrung.sortInvoices. cbn [totalRevenueCHF monthlyRevenue clientSummary].
  assert (Htotal : totalRevenueCHF
            (fst (run sampleRates [marchForConstructor]
                    (Buchfuehrung.emptyReport "2025" noon, [])))
          = Q2Qc 100)
    by (apply Qc_is_canon; vm_compute; reflexivity).
  assert (Hclients : clientSummary
            (fst (run sampleRates [marchForConstructor]
                    (Buchfuehrung.emptyReport "2025" noon, [])))
          = ∅)
    by (vm_compute; reflexivity).
  rewrite Htotal, Hclients.
  split; [reflexivity|].
  split.
  - rewrite <- Htotal. apply run_months. reflexivity.
  - split; [reflexivity|].
    split; [apply (total_empty ClientSummary.totalBilledCHF)|].
    rewrite clientsCHF_total, total_empty. discriminate.
Qed.






(** The scenario of two invoices for one client, 100 CHF and 50 EUR at
    1.05: the total is 152.50 CHF and the client has two invoices. *)
Example two_currencies_one_client :
  exists (report : Report) (stderr : list string),
    Buchfuehrung.generateReport noon "2025" Both sampleRates
      [ invoiceOf acme "Globex" "2025-03-globex.json" (Some "CHF"%string) (Q2Qc 100);
        invoiceOf acme "Globex" "2025-04-globex.json" (Some "EUR"%string) (Q2Qc 50) ]
    = (Completed report [De; En], stderr)
    /\ stderr = []
    /\ totalRevenueCHF report = Q2Qc (1525 # 10)
    /\ totalRevenue report !! "CHF"%string = Some (Q2Qc 100)
    /\ totalRevenue report !! "EUR"%string = Some (Q2Qc 50)
    /\ ClientSummary.invoiceCount
         <$> (clientSummary report !! "Globex"%string) = Some 2.
Proof.
  eexists. eexists.
  split; [apply generateReport_completes; reflexivity|].
  split; [vm_compute; reflexivity|].
  split; [apply Qc_is_canon; vm_compute; reflexivity|].
  split; [vm_compute; reflexivity|].
  split; vm_compute; reflexivity.
Qed.

(** ** Invoice numbers *)

Section InvoiceNumbers.

Import InvoiceUtils.

Lemma append_length (s t : string) :
  String.length (s +:+ t) = (String.length s + String.length t)%nat.
Proof.
  induction s as [|c s IH]; [reflexivity|].
  rewrite append_String. simpl. rewrite IH. reflexivity.
Qed.

Lemma append_empty_r (s : string) : s +:+ "" = s.
Proof.
  induction s as [|c s IH]; [reflexivity|].
  rewrite append_String, IH. reflexivity.
Qed.

Lemma hex_length (n : nat) (x : N) : String.length (Crypto.hex n x) = n.
Proof.
  revert x. induction n as [|n IH]; intro x; [reflexivity|].
  simpl. rewrite append_length, IH. simpl. lia.
Qed.

Lemma substring_prefix (s t : string) :
  substring 0 (String.length s) (s +:+ t) = s.
Proof.
  induction s as [|c s IH].
  - destruct t; reflexivity.
  - rewrite append_String. simpl. rewrite IH. reflexivity.
Qed.

Lemma hexValue_hexChar (d : N) :
  (d < 16)%N -> JS.hexValue (Crypto.hexChar d) = Some d.
Proof.
  intro Hd.
  assert (Hall : List.forallb
                   (fun k => bool_decide
                               (JS.hexValue (Crypto.hexChar (N.of_nat k))
                                = Some (N.of_nat k)))
                   (List.seq 0 16) = true)
    by (vm_compute; reflexivity).
  rewrite List.forallb_forall in Hall.
  assert (Hin : In (N.to_nat d) (List.seq 0 16)) by (apply List.in_seq; lia).
  specialize (Hall (N.to_nat d) Hin).
  rewrite N2Nat.id in Hall. apply bool_decide_eq_true in Hall. exact Hall.
Qed.

(** Reading back the [n] hexadecimal digits of [x]. *)
Lemma hexPrefixValue_hex (n : nat) (x acc : N) (seen : bool) (t : string) :
  JS.hexPrefixValue acc seen (Crypto.hex n x +:+ t)
  = JS.hexPrefixValue (acc * 16 ^ N.of_nat n + x mod 16 ^ N.of_nat n)%N
      (seen || negb (Nat.eqb n 0)) t.
Proof.
  revert x t. induction n as [|n IH]; intros x t.
  - simpl. rewrite orb_false_r, N.mod_1_r, N.mul_1_r, N.add_0_r. reflexivity.
  - cbn [Crypto.hex]. rewrite append_assoc, IH, append_String.
    cbn [JS.hexPrefixValue append].
    rewrite hexValue_hexChar by (apply N.mod_lt; lia).
    f_equal; [|simpl; rewrite orb_true_r; reflexivity].
    rewrite Nat2N.inj_succ, N.pow_succ_r', (N.Div0.mod_mul_r x 16). lia.
Qed.

(** [parseInt] of the first eight characters of a digest is its first
    word. *)
Lemma leading_hex (st : Crypto.state) :
  JS.parseInt16 (JS.slicePrefix 8 (Crypto.digestHex st))
  = Some (Crypto.leadingWord st).
Proof.
  destruct st as [a b c d e f g h].
  unfold Crypto.digestHex, JS.slicePrefix, Crypto.leadingWord, JS.parseInt16.
  pose proof (substring_prefix (Crypto.hex 8 a)) as Hsub.
  rewrite hex_length in Hsub. rewrite Hsub.
  rewrite <- (append_empty_r (Crypto.hex 8 a)).
  rewrite hexPrefixValue_hex. reflexivity.
Qed.

Lemma padded_suffix (k : Z) : 0 <= k < 1000 -> threeDigits k = true.
Proof.
  intro Hk.
  assert (Hall : List.forallb threeDigits (List.map Z.of_nat (List.seq 0 1000)) = true)
    by (vm_compute; reflexivity).
  rewrite List.forallb_forall in Hall. apply Hall.
  apply List.in_map_iff. exists (Z.to_nat k). split; [lia|].
  apply List.in_seq. lia.
Qed.

(** What the matcher accepts: a file name made of four digits, a dash, two
    digits and anything after them, which is the language of
    [/^(\d{4})-(\d{2})/]. *)
Lemma digits_shape (n : nat) (s ds tail : string) :
  digits n s = Some (ds, tail) ->
  s = ds +:+ tail /\ String.length ds = n /\ JS.forallb JS.isDigit ds = true.
Proof.
  revert s ds tail. induction n as [|n IH]; intros s ds tail; simpl.
  - intros [= <- <-]. repeat split; reflexivity.
  - destruct s as [|c s]; [discriminate|].
    destruct (JS.isDigit c) eqn:Hc; [|discriminate].
    destruct (digits n s) as [[ds' tail']|] eqn:Hrest; [|discriminate].
    intros [= <- <-]. destruct (IH _ _ _ Hrest) as (-> & Hlen & Hdig).
    rewrite append_String. simpl. rewrite Hlen, Hc, Hdig.
    repeat split; reflexivity.
Qed.

Lemma matchYearMonth_shape (filename yyyy mm : string) :
  matchYearMonth filename = Some (yyyy, mm) ->
  exists tail,
    filename = yyyy +:+ "-" +:+ mm +:+ tail
    /\ String.length yyyy = 4%nat /\ String.length mm = 2%nat
    /\ JS.forallb JS.isDigit yyyy = true /\ JS.forallb JS.isDigit mm = true.
Proof.
  unfold matchYearMonth.
  destruct (digits 4 filename) as [[y rest]|] eqn:Hy; [|discriminate].
  destruct rest as [|dash rest]; [discriminate|].
  destruct (Ascii.eqb_spec dash "-") as [->|Hdash];
    [|destruct dash as [[] [] [] [] [] [] [] []]; try discriminate;
      contradiction].
  destruct (digits 2 rest) as [[m tail]|] eqn:Hm; [|discriminate].
  intros [= <- <-].
  destruct (digits_shape _ _ _ _ Hy) as (-> & Hly & Hdy).
  destruct (digits_shape _ _ _ _ Hm) as (-> & Hlm & Hdm).
  exists tail. repeat split; assumption || reflexivity.
Qed.

Variable JSON_stringify : InvoiceData -> string.

(** The suffix: three decimal digits whose value is the first word of the
    digest modulo 1000. *)
Lemma hash_digits (data : InvoiceData) :
  let h := Crypto.leadingWord (Crypto.sha256 (JSON_stringify data)) in
  String.length (hash JSON_stringify data) = 3%nat
  /\ JS.forallb JS.isDigit (hash JSON_stringify data) = true
  /\ JS.decimalValue 0 (hash JSON_stringify data) = Some (Z.of_N (h mod 1000)).
Proof.
  intro h. unfold hash. rewrite leading_hex. fold h. unfold JS.mod1000Padded.
  assert (Hk : forall v : N, 0 <= Z.of_N (v mod 1000) < 1000).
  { intro v. split; [apply N2Z.is_nonneg|].
    apply (N2Z.inj_lt _ 1000), N.mod_lt. discriminate. }
  pose proof (padded_suffix _ (Hk h)) as Hok. unfold threeDigits in Hok.
  apply andb_prop in Hok as [[Hlen Hdig]%andb_prop Hval].
  split; [apply Nat.eqb_eq, Hlen|].
  split; [exact Hdig|].
  apply bool_decide_eq_true in Hval. exact Hval.
Qed.

(** With no usable [number] and a file name that starts with four digits, a
    dash and two digits, the number is built from the file name. *)
Lemma numbered_from_filename (now : JS.Date) (filePath : string)
    (invoiceData : InvoiceData) (y1 y2 y3 y4 m1 m2 : ascii) (tail : string) :
  JS.truthy (number invoiceData) = false ->
  List.last (JS.split "/" filePath) EmptyString
  = String y1 (String y2 (String y3 (String y4
      (String "-" (String m1 (String m2 tail)))))) ->
  JS.forallb JS.isDigit
    (String y1 (String y2 (String y3 (String y4
       (String m1 (String m2 EmptyString)))))) = true ->
  generateInvoiceNumberFromFile JSON_stringify now filePath invoiceData
  = String y3 (String y4 (String m1 (String m2
      (String "-" (hash JSON_stringify invoiceData))))).
Proof.
  intros Hnumber Hname Hdigits.
  simpl in Hdigits.
  repeat (apply andb_prop in Hdigits as [?Hd Hdigits]).
  assert (Hderived :
            match matchYearMonth
                    (List.last (JS.split "/" filePath) EmptyString) with
            | None => generateInvoiceNumber JSON_stringify now invoiceData
            | Some (yyyy, mm) =>
                JS.sliceLast 2 yyyy +:+ mm +:+ "-" +:+ hash JSON_stringify invoiceData
            end
            = String y3 (String y4 (String m1 (String m2
                (String "-" (hash JSON_stringify invoiceData)))))).
  { rewrite Hname. unfold matchYearMonth. cbn [digits].
    rewrite Hd, Hd0, Hd1, Hd2. cbn [digits]. rewrite Hd3, Hd4. reflexivity. }
  unfold generateInvoiceNumberFromFile.
  destruct (number invoiceData) as [n|].
  - rewrite Hnumber. exact Hderived.
  - exact Hderived.
Qed.

End InvoiceNumbers.

(** C9: an invoice without a usable [number], read from a file whose name
    starts with a four-digit year, a dash and a two-digit month, gets the
    last two digits of the year, the month, a dash and three decimal digits;
    their value is the number that the first eight hexadecimal characters of
    the SHA-256 digest of the serialized invoice denote, modulo 1000.  The
    result depends neither on the day of the run nor on anything of the
    invoice but its serialization. *)
Theorem invoice_number_from_filename
    (JSON_stringify : InvoiceData -> string) (now : JS.Date)
    (filePath : string) (invoiceData : InvoiceData)
    (y1 y2 y3 y4 m1 m2 : ascii) (tail : string) :
  JS.truthy (number invoiceData) = false ->
  List.last (JS.split "/" filePath) EmptyString
  = String y1 (String y2 (String y3 (String y4
      (String "-" (String m1 (String m2 tail)))))) ->
  JS.forallb JS.isDigit
    (String y1 (String y2 (String y3 (String y4
       (String m1 (String m2 EmptyString)))))) = true ->
  exists (h : N) (suffix : string),
    JS.parseInt16
      (JS.slicePrefix 8
         (Crypto.digestHex (Crypto.sha256 (JSON_stringify invoiceData))))
    = Some h
    /\ h = Crypto.leadingWord (Crypto.sha256 (JSON_stringify invoiceData))
    /\ String.length suffix = 3%nat
    /\ JS.forallb JS.isDigit suffix = true
    /\ JS.decimalValue 0 suffix = Some (Z.of_N (h mod 1000))
    /\ InvoiceUtils.generateInvoiceNumberFromFile JSON_stringify now filePath
         invoiceData
       = String y3 (String y4 (String m1 (String m2 (String "-" suffix))))
    /\ (forall (later : JS.Date) (other : InvoiceData),
          JS.truthy (number other) = false ->
          JSON_stringify other = JSON_stringify invoiceData ->
          InvoiceUtils.generateInvoiceNumberFromFile JSON_stringify later
            filePath other
          = InvoiceUtils.generateInvoiceNumberFromFile JSON_stringify now
              filePath invoiceData).
Proof.
  intros Hnumber Hname Hdigits.
  destruct (hash_digits JSON_stringify invoiceData) as (Hlen & Hdig & Hval).
  exists (Crypto.leadingWord (Crypto.sha256 (JSON_stringify invoiceData))),
         (InvoiceUtils.hash JSON_stringify invoiceData).
  split; [apply leading_hex|]. split; [reflexivity|].
  split; [exact Hlen|]. split; [exact Hdig|]. split; [exact Hval|].
  split.
  - apply (numbered_from_filename _ _ _ _ y1 y2 y3 y4 m1 m2 tail); assumption.
  - intros later other Hother Hsame.
    rewrite (numbered_from_filename _ now filePath invoiceData
               y1 y2 y3 y4 m1 m2 tail) by assumption.
    rewrite (numbered_from_filename _ later filePath other
               y1 y2 y3 y4 m1 m2 tail) by assumption.
    unfold InvoiceUtils.hash. rewrite Hsame. reflexivity.
Qed.

Lemma invoice_number_from_filename_witness :
  exists (h : N) (suffix : string),
    JS.parseInt16
      (JS.slicePrefix 8
         (Crypto.digestHex (Crypto.sha256 (partiesAndItems marchForGlobex))))
    = Some h
    /\ h = Crypto.leadingWord (Crypto.sha256 (partiesAndItems marchForGlobex))
    /\ String.length suffix = 3%nat
    /\ JS.forallb JS.isDigit suffix = true
    /\ JS.decimalValue 0 suffix = Some (Z.of_N (h mod 1000))
    /\ InvoiceUtils.generateInvoiceNumberFromFile partiesAndItems november2026
         "invoices/2025-03-acme.json" marchForGlobex
       = String "2" (String "5" (String "0" (String "3" (String "-" suffix))))
    /\ (forall (later : JS.Date) (other : InvoiceData),
          JS.truthy (number other) = false ->
          partiesAndItems other = partiesAndItems marchForGlobex ->
          InvoiceUtils.generateInvoiceNumberFromFile partiesAndItems later
            "invoices/2025-03-acme.json" other
          = InvoiceUtils.generateInvoiceNumberFromFile partiesAndItems
              november2026 "invoices/2025-03-acme.json" marchForGlobex).
Proof.
  apply (invoice_number_from_filename partiesAndItems november2026
           "invoices/2025-03-acme.json" marchForGlobex
           "2" "0" "2" "5" "0" "3" "-acme.json").
  - reflexivity.
  - vm_compute. reflexivity.
  - vm_compute. reflexivity.
Defined.

(** ** Checks of the embedding on known values *)

Example sha256_abc :
  Crypto.digestHex (Crypto.sha256 "abc")
  = "ba7816bf8f01cfea414140de5dae2223b00361a396177a9cb410ff61f20015ad"%string.
Proof. vm_compute. reflexivity. Qed.

Example sha256_empty :
  Crypto.digestHex (Crypto.sha256 "")
  = "e3b0c44298fc1c149afbf4c8996fb92427ae41e4649b934ca495991b7852b855"%string.
Proof. vm_compute. reflexivity. Qed.

Example sha256_two_blocks :
  Crypto.digestHex
    (Crypto.sha256 "abcdbcdecdefdefgefghfghighijhijkijkljklmklmnlmnomnopnopq")
  = "248d6a61d20638b8e5c026930c3e6039a33ce45964ff2167f6ecedd419db06c1"%string.
Proof. vm_compute. reflexivity. Qed.

(** The reference ["RF18 5390 0754 7034"] of ISO 11649. *)
Example scor_iso_vector :
  InvoiceUtils.generateSCORReference "5390 0754 7034"
  = Ok "RF18539007547034"%string.
Proof. vm_compute. reflexivity. Qed.

Example scor_lower_case :
  InvoiceUtils.generateSCORReference "inv-2025/a1" = Ok "RF60inv2025a1"%string.
Proof. vm_compute. reflexivity. Qed.

Example number_from_file_name :
  InvoiceUtils.generateInvoiceNumberFromFile partiesAndItems november2026
    "invoices/2025-03-acme.json" marchForGlobex = "2503-461"%string.
Proof. vm_compute. reflexivity. Qed.

Example number_from_today :
  InvoiceUtils.generateInvoiceNumberFromFile partiesAndItems november2026
    "invoices/acme.json" marchForGlobex = "2611-461"%string.
Proof. vm_compute. reflexivity. Qed.

(** Lines of one month keep the order of the input; months are put in
    order. *)
Example lines_sorted_by_date :
  List.map InvoiceLine.fileName
    (Buchfuehrung.sortByDate
       (List.map (lineOf sampleRates)
          [ invoiceOf acme "Globex" "2025-04-globex.json" None (Q2Qc 10);
            invoiceOf acme "Initech" "2025-03-initech.json" None (Q2Qc 20);
            invoiceOf acme "Globex" "2025-03-globex.json" None (Q2Qc 30) ]))
  = [ "2025-03-initech.json"; "2025-03-globex.json"; "2025-04-globex.json" ]%string.
Proof. vm_compute. reflexivity. Qed.

(* ================================================================== *)
(** * Further properties *)
(* ================================================================== *)

(** ** References *)

Section References.

Import InvoiceUtils.

Lemma append_inj (a a' b b' : string) :
  String.length a = String.length a' ->
  a +:+ b = a' +:+ b' -> a = a' /\ b = b'.
Proof.
  revert a'. induction a as [|c a IH]; intros [|c' a'] Hlen Heq;
    try discriminate Hlen.
  - split; [reflexivity | exact Heq].
  - rewrite !append_String in Heq. injection Heq as -> Heq.
    injection Hlen as Hlen. destruct (IH a' Hlen Heq) as [-> ->].
    split; reflexivity.
Qed.

(** The decimal value read with a start value [acc] is [acc] shifted by
    the length of the numeral plus the value read from 0. *)
Lemma decimalValue_shift (s : string) (acc : Z) :
  JS.decimalValue acc s
  = option_map (fun v => acc * 10 ^ Z.of_nat (String.length s) + v)
      (JS.decimalValue 0 s).
Proof.
  revert acc. induction s as [|c s IH]; intro acc.
  - simpl. f_equal. lia.
  - cbn [JS.decimalValue String.length]. destruct (JS.isDigit c); [|reflexivity].
    rewrite (IH (10 * acc + (JS.charCode c - 48))), (IH (10 * 0 + (JS.charCode c - 48))).
    destruct (JS.decimalValue 0 s) as [v|]; [|reflexivity].
    cbn [option_map]. f_equal.
    rewrite Nat2Z.inj_succ, Z.pow_succ_r by apply Nat2Z.is_nonneg. ring.
Qed.

Lemma decimalValue_app (s t : string) (acc : Z) :
  JS.decimalValue acc (s +:+ t)
  = match JS.decimalValue acc s with
    | Some v => JS.decimalValue v t
    | None => None
    end.
Proof.
  revert acc. induction s as [|c s IH]; intro acc; [reflexivity|].
  rewrite append_String. cbn [JS.decimalValue].
  destruct (JS.isDigit c); [apply IH | reflexivity].
Qed.

(** The reference of an input, with its parts named: [v] is the number
    that the converted payload denotes. *)
Lemma reference_parts (invoiceNumber : string) :
  let clean := JS.filter JS.isAlnum invoiceNumber in
  let converted := JS.mapJoin letterToNumber (JS.toUpperCase clean) in
  exists v : Z,
    0 <= v
    /\ JS.decimalValue 0 converted = Some v
    /\ generateSCORReference invoiceNumber
       = Ok ("RF"
             +:+ JS.padStart 2 "0"
                   (JS.toString (98 - Z.rem (v * 1000000 + 271500) 97))
             +:+ clean).
Proof.
  intros clean converted.
  destruct (generateSCORReference_value invoiceNumber) as (n & Hpos & Hn & Hgen).
  fold clean in Hn, Hgen. fold converted in Hn.
  rewrite decimalValue_app in Hn.
  assert (Hd : JS.forallb JS.isDigit converted = true)
    by apply converted_digits, filter_forallb.
  destruct (decimalValue_digits converted 0 Hd) as (v & Hv & Hvpos); [lia|].
  rewrite Hv in Hn. cbn [JS.decimalValue] in Hn.
  change (JS.isDigit "2") with true in Hn. change (JS.isDigit "7") with true in Hn.
  change (JS.isDigit "1") with true in Hn. change (JS.isDigit "5") with true in Hn.
  change (JS.isDigit "0") with true in Hn. cbv iota in Hn.
  change (JS.charCode "2" - 48) with 2 in Hn.
  change (JS.charCode "7" - 48) with 7 in Hn.
  change (JS.charCode "1" - 48) with 1 in Hn.
  change (JS.charCode "5" - 48) with 5 in Hn.
  change (JS.charCode "0" - 48) with 0 in Hn.
  injection Hn as Hn.
  assert (Hvalue : n = v * 1000000 + 271500) by (rewrite <- Hn; ring).
  exists v. split; [exact Hvpos|]. split; [exact Hv|].
  rewrite Hgen, Hvalue. reflexivity.
Qed.

Lemma check_digits_two (n : Z) :
  0 <= n ->
  let k := 98 - Z.rem n 97 in
  String.length (JS.padStart 2 "0" (JS.toString k)) = 2%nat
  /\ JS.decimalValue 0 (JS.padStart 2 "0" (JS.toString k)) = Some k
  /\ k = 98 - n mod 97.
Proof.
  intros Hn k.
  pose proof (Z.rem_bound_pos n 97 Hn ltac:(lia)) as Hrem.
  assert (Hk : 2 <= k <= 98) by (unfold k; lia).
  pose proof (padded_check_digits k Hk) as Hok. unfold twoDigits in Hok.
  apply andb_prop in Hok as [[Hlen _]%andb_prop Hval].
  split; [apply Nat.eqb_eq, Hlen|].
  split; [apply bool_decide_eq_true in Hval; exact Hval|].
  unfold k. rewrite Z.rem_mod_nonneg by lia. reflexivity.
Qed.

End References.

(** X1: two invoice numbers get the same reference exactly when they are
    the same after cleaning: separators never matter, and no two different
    payloads share a reference. *)
Theorem scor_same_reference_iff (s t : string) :
  InvoiceUtils.generateSCORReference s = InvoiceUtils.generateSCORReference t
  <-> JS.filter JS.isAlnum s = JS.filter JS.isAlnum t.
Proof.
  split.
  - destruct (reference_parts s) as (v & Hv & _ & Hs).
    destruct (reference_parts t) as (w & Hw & _ & Ht).
    rewrite Hs, Ht. intros [= Heq].
    assert (Hnv : 0 <= v * 1000000 + 271500) by lia.
    assert (Hnw : 0 <= w * 1000000 + 271500) by lia.
    destruct (check_digits_two _ Hnv) as (Hlv & _).
    destruct (check_digits_two _ Hnw) as (Hlw & _).
    refine (proj2 (append_inj
                     (JS.padStart 2 "0"
                        (JS.toString (98 - Z.rem (v * 1000000 + 271500) 97)))
                     (JS.padStart 2 "0"
                        (JS.toString (98 - Z.rem (w * 1000000 + 271500) 97)))
                     _ _ _ Heq)).
    transitivity 2%nat; [exact Hlv | symmetry; exact Hlw].
  - intro Hclean. unfold InvoiceUtils.generateSCORReference.
    rewrite Hclean. reflexivity.
Qed.

(** X2: every reference passes the ISO 11649 verification.  With the cleaned
    input converted to digits, followed by the digits of ["RF"] and by the
    two check digits of the reference, the number read is 1 modulo 97. *)
Theorem scor_reference_verifies (invoiceNumber : string) :
  let clean := JS.filter JS.isAlnum invoiceNumber in
  let converted :=
    JS.mapJoin InvoiceUtils.letterToNumber (JS.toUpperCase clean) in
  exists (checkDigits : string) (m : Z),
    InvoiceUtils.generateSCORReference invoiceNumber
    = Ok ("RF" +:+ checkDigits +:+ clean)
    /\ String.length checkDigits = 2%nat
    /\ JS.decimalValue 0 (converted +:+ "2715" +:+ checkDigits) = Some m
    /\ m mod 97 = 1.
Proof.
  intros clean converted.
  destruct (reference_parts invoiceNumber) as (v & Hv & Hconv & Hgen).
  fold clean in Hconv, Hgen. fold converted in Hconv.
  assert (Hn : 0 <= v * 1000000 + 271500) by lia.
  destruct (check_digits_two _ Hn) as (Hlen & Hval & Hk).
  set (k := 98 - Z.rem (v * 1000000 + 271500) 97) in *.
  exists (JS.padStart 2 "0" (JS.toString k)), (v * 1000000 + 271500 + k).
  split; [exact Hgen|]. split; [exact Hlen|]. split.
  - assert (HRF : JS.decimalValue v "2715" = Some (v * 10000 + 2715))
      by (rewrite decimalValue_shift; reflexivity).
    rewrite decimalValue_app, Hconv, decimalValue_app, HRF.
    rewrite decimalValue_shift, Hval, Hlen. cbn [option_map]. f_equal.
    change (10 ^ Z.of_nat 2) with 100. ring.
  - clearbody k. clear Hgen Hconv Hval Hlen. subst k.
    generalize (v * 1000000 + 271500). intro n.
    rewrite <- (Z.mod_unique (n + (98 - n mod 97)) 97 (n / 97 + 1) 1);
      [reflexivity | lia |].
    pose proof (Z.div_mod n 97 ltac:(lia)). lia.
Qed.

(** X3: the check digits do not depend on the case of the letters.  Two
    inputs whose cleaned forms agree up to case get the same check digits,
    each before its own cleaned form. *)
Theorem scor_check_digits_ignore_case (s t : string) :
  JS.toUpperCase (JS.filter JS.isAlnum s)
  = JS.toUpperCase (JS.filter JS.isAlnum t) ->
  exists checkDigits : string,
    String.length checkDigits = 2%nat
    /\ InvoiceUtils.generateSCORReference s
       = Ok ("RF" +:+ checkDigits +:+ JS.filter JS.isAlnum s)
    /\ InvoiceUtils.generateSCORReference t
       = Ok ("RF" +:+ checkDigits +:+ JS.filter JS.isAlnum t).
Proof.
  intro Hcase.
  destruct (reference_parts s) as (v & Hv & Hcs & Hs).
  destruct (reference_parts t) as (w & _ & Hct & Ht).
  rewrite Hcase, Hct in Hcs. injection Hcs as ->.
  assert (Hn : 0 <= v * 1000000 + 271500) by lia.
  destruct (check_digits_two _ Hn) as (Hlen & _).
  eexists. split; [exact Hlen|]. split; [exact Hs | exact Ht].
Qed.

Lemma scor_check_digits_ignore_case_witness :
  exists checkDigits : string,
    String.length checkDigits = 2%nat
    /\ InvoiceUtils.generateSCORReference "inv-2025/a1"
       = Ok ("RF" +:+ checkDigits +:+ JS.filter JS.isAlnum "inv-2025/a1")
    /\ InvoiceUtils.generateSCORReference "INV 2025 A1"
       = Ok ("RF" +:+ checkDigits +:+ JS.filter JS.isAlnum "INV 2025 A1").
Proof.
  apply (scor_check_digits_ignore_case "inv-2025/a1" "INV 2025 A1").
  vm_compute. reflexivity.
Defined.

(** ** Numbers *)

Section Numbers.

Import InvoiceUtils.

Variable JSON_stringify : InvoiceData -> string.

Lemma padded_two_digits (k : Z) : 0 <= k <= 99 -> twoDigits k = true.
Proof.
  intro Hk.
  assert (Hall : List.forallb twoDigits (List.map Z.of_nat (List.seq 0 100)) = true)
    by (vm_compute; reflexivity).
  rewrite List.forallb_forall in Hall. apply Hall.
  apply List.in_map_iff. exists (Z.to_nat k). split; [lia|].
  apply List.in_seq. lia.
Qed.

Lemma range_forallb (p : Z -> bool) (lo n k : Z) :
  List.forallb p (range lo n) = true -> lo <= k < lo + n -> p k = true.
Proof.
  intros Hall Hk. rewrite List.forallb_forall in Hall. apply Hall.
  apply List.in_map_iff. exists (Z.to_nat (k - lo)). split; [lia|].
  apply List.in_seq. lia.
Qed.

Lemma year_last_two_digits (y : Z) :
  2000 <= y <= 2999 -> lastTwoDigits y = true.
Proof.
  intro Hy. apply (range_forallb lastTwoDigits 2000 1000); [|lia].
  vm_compute. reflexivity.
Qed.

Lemma filter_all (p : ascii -> bool) (s : string) :
  JS.forallb p s = true -> JS.filter p s = s.
Proof.
  induction s as [|c s IH]; simpl; [reflexivity|].
  intros [Hc Hs]%andb_prop. rewrite Hc, (IH Hs). reflexivity.
Qed.

Lemma digits_alnum (s : string) :
  JS.forallb JS.isDigit s = true -> JS.forallb JS.isAlnum s = true.
Proof.
  induction s as [|c s IH]; simpl; [reflexivity|].
  intros [Hc Hs]%andb_prop. rewrite (IH Hs), andb_true_r.
  unfold JS.isAlnum. rewrite Hc. apply orb_true_r.
Qed.



Lemma split_no_separator (sep : ascii) (s : string) :
  JS.forallb (fun c => negb (Ascii.eqb c sep)) s = true ->
  JS.split sep s = [s].
Proof.
  induction s as [|c s IH]; simpl; [reflexivity|].
  intros [Hc Hs]%andb_prop. apply negb_true_iff in Hc.
  rewrite Hc, (IH Hs). reflexivity.
Qed.


Lemma invoiceNumber_unfold (now : JS.Date) (inputFile : string)
    (rawInvoiceData : InvoiceData) :
  InvoiceGenerator.invoiceNumber JSON_stringify now inputFile rawInvoiceData
  = generateInvoiceNumberFromFile JSON_stringify now inputFile rawInvoiceData.
Proof.
  unfold InvoiceGenerator.invoiceNumber, generateInvoiceNumberFromFile.
  destruct (number rawInvoiceData) as [n|]; [|reflexivity].
  destruct (JS.truthy (Some n)); reflexivity.
Qed.

End Numbers.

(** X4: the number derived from today's date.  For a year from 2000 to 2999
    it is the last two digits of the year, the month of the year in two
    digits, a dash and the three digits of the hash: eight characters. *)
Theorem number_from_date (JSON_stringify : InvoiceData -> string)
    (now : JS.Date) (data : InvoiceData) :
  2000 <= JS.getFullYear now <= 2999 ->
  0 <= JS.getMonth now <= 11 ->
  exists yy mm : string,
    InvoiceUtils.generateInvoiceNumber JSON_stringify now data
    = yy +:+ mm +:+ "-" +:+ InvoiceUtils.hash JSON_stringify data
    /\ String.length yy = 2%nat
    /\ JS.decimalValue 0 yy = Some (JS.getFullYear now mod 100)
    /\ String.length mm = 2%nat
    /\ JS.decimalValue 0 mm = Some (JS.getMonth now + 1)
    /\ String.length (InvoiceUtils.generateInvoiceNumber JSON_stringify now data)
       = 8%nat.
Proof.
  intros Hy Hm.
  pose proof (year_last_two_digits _ Hy) as Hyy.
  pose proof (padded_two_digits (JS.getMonth now + 1) ltac:(lia)) as Hmm.
  unfold lastTwoDigits in Hyy. unfold twoDigits in Hmm.
  apply andb_prop in Hyy as [[Hly _]%andb_prop Hvy].
  apply andb_prop in Hmm as [[Hlm _]%andb_prop Hvm].
  apply Nat.eqb_eq in Hly, Hlm.
  apply bool_decide_eq_true in Hvy, Hvm.
  destruct (hash_digits JSON_stringify data) as (Hlh & _).
  eexists. eexists.
  split; [reflexivity|].
  split; [exact Hly|]. split; [exact Hvy|].
  split; [exact Hlm|]. split; [exact Hvm|].
  unfold InvoiceUtils.generateInvoiceNumber.
  rewrite !append_length, Hly, Hlm, Hlh. reflexivity.
Qed.

Lemma number_from_date_witness :
  exists yy mm : string,
    InvoiceUtils.generateInvoiceNumber partiesAndItems november2026 marchForGlobex
    = yy +:+ mm +:+ "-" +:+ InvoiceUtils.hash partiesAndItems marchForGlobex
    /\ String.length yy = 2%nat
    /\ JS.decimalValue 0 yy = Some (JS.getFullYear november2026 mod 100)
    /\ String.length mm = 2%nat
    /\ JS.decimalValue 0 mm = Some (JS.getMonth november2026 + 1)
    /\ String.length
         (InvoiceUtils.generateInvoiceNumber partiesAndItems november2026
            marchForGlobex) = 8%nat.
Proof.
  apply (number_from_date partiesAndItems november2026 marchForGlobex).
  - vm_compute. split; discriminate.
  - vm_compute. split; discriminate.
Defined.

(** X5: the payment reference of an invoice that is numbered from its file
    name.  The invoice generator gives it the number [YYMM-ddd] and the
    reference ["RF"], two check digits, and [YYMMddd]: the dash is dropped,
    and the reference has eleven characters. *)
Theorem reference_of_derived_number
    (JSON_stringify : InvoiceData -> string) (now : JS.Date)
    (inputFile : string) (rawInvoiceData : InvoiceData)
    (y1 y2 y3 y4 m1 m2 : ascii) (tail : string) :
  JS.truthy (number rawInvoiceData) = false ->
  List.last (JS.split "/" inputFile) EmptyString
  = String y1 (String y2 (String y3 (String y4
      (String "-" (String m1 (String m2 tail)))))) ->
  JS.forallb JS.isDigit
    (String y1 (String y2 (String y3 (String y4
       (String m1 (String m2 EmptyString)))))) = true ->
  exists checkDigits ddd : string,
    InvoiceGenerator.invoiceNumber JSON_stringify now inputFile rawInvoiceData
    = String y3 (String y4 (String m1 (String m2 (String "-" ddd))))
    /\ InvoiceGenerator.reference JSON_stringify now inputFile rawInvoiceData
       = Ok ("RF" +:+ checkDigits
             +:+ String y3 (String y4 (String m1 (String m2 ddd))))
    /\ String.length checkDigits = 2%nat
    /\ String.length ddd = 3%nat
    /\ JS.forallb JS.isDigit
         (checkDigits +:+ String y3 (String y4 (String m1 (String m2 ddd))))
       = true.
Proof.
  intros Hnumber Hname Hdigits.
  pose proof (numbered_from_filename JSON_stringify now inputFile rawInvoiceData
                y1 y2 y3 y4 m1 m2 tail Hnumber Hname Hdigits) as Hnum.
  destruct (hash_digits JSON_stringify rawInvoiceData) as (Hlh & Hdh & _).
  set (ddd := InvoiceUtils.hash JSON_stringify rawInvoiceData) in *.
  simpl in Hdigits.
  repeat (apply andb_prop in Hdigits as [?Hd Hdigits]).
  assert (Hpayload :
            JS.forallb JS.isDigit
              (String y3 (String y4 (String m1 (String m2 ddd)))) = true).
  { simpl. rewrite Hd1, Hd2, Hd3, Hd4, Hdh. reflexivity. }
  assert (Hclean :
            JS.filter JS.isAlnum
              (String y3 (String y4 (String m1 (String m2 (String "-" ddd)))))
            = String y3 (String y4 (String m1 (String m2 ddd)))).
  { pose proof (digits_alnum _ Hpayload) as Ha. simpl in Ha.
    repeat (apply andb_prop in Ha as [?Ha Ha]).
    cbn [JS.filter]. rewrite Ha0, Ha1, Ha2, Ha3.
    change (JS.isAlnum "-") with false. cbv iota.
    rewrite (filter_all _ _ Ha). reflexivity. }
  destruct (reference_parts
              (String y3 (String y4 (String m1 (String m2 (String "-" ddd))))))
    as (v & Hv & _ & Href).
  rewrite Hclean in Href.
  assert (Hn : 0 <= v * 1000000 + 271500) by lia.
  pose proof (Z.rem_bound_pos _ 97 Hn ltac:(lia)) as Hrem.
  pose proof (padded_check_digits (98 - Z.rem (v * 1000000 + 271500) 97)
                ltac:(lia)) as Hok.
  unfold twoDigits in Hok.
  apply andb_prop in Hok as [[Hlen Hdig]%andb_prop _].
  eexists. exists ddd.
  split; [rewrite invoiceNumber_unfold; exact Hnum|].
  split.
  - unfold InvoiceGenerator.reference. rewrite invoiceNumber_unfold, Hnum.
    exact Href.
  - split; [apply Nat.eqb_eq, Hlen|]. split; [exact Hlh|].
    rewrite forallb_app, Hdig, Hpayload. reflexivity.
Qed.

Lemma reference_of_derived_number_witness :
  exists checkDigits ddd : string,
    InvoiceGenerator.invoiceNumber partiesAndItems november2026
      "invoices/2025-03-acme.json" marchForGlobex
    = String "2" (String "5" (String "0" (String "3" (String "-" ddd))))
    /\ InvoiceGenerator.reference partiesAndItems november2026
         "invoices/2025-03-acme.json" marchForGlobex
       = Ok ("RF" +:+ checkDigits
             +:+ String "2" (String "5" (String "0" (String "3" ddd))))
    /\ String.length checkDigits = 2%nat
    /\ String.length ddd = 3%nat
    /\ JS.forallb JS.isDigit
         (checkDigits +:+ String "2" (String "5" (String "0" (String "3" ddd))))
       = true.
Proof.
  apply (reference_of_derived_number partiesAndItems november2026
           "invoices/2025-03-acme.json" marchForGlobex
           "2" "0" "2" "5" "0" "3" "-acme.json").
  - reflexivity.
  - vm_compute. reflexivity.
  - vm_compute. reflexivity.
Defined.


(** ** Conversions *)

Section Rates.

Import CurrencyConverter.

Lemma convertCurrency_Ok (x y : Qc) (A B : string) (r : gmap string Qc) :
  convertCurrency x A B r = Ok y ->
  A = B /\ y = x
  \/ A <> B
     /\ exists ra rb : Qc,
          r !! A = Some ra /\ r !! B = Some rb
          /\ ra <> 0%Qc /\ rb <> 0%Qc /\ y = (x * ra / rb)%Qc.
Proof.
  unfold convertCurrency. destruct (String.eqb A B) eqn:Heq.
  - intros [= <-]. left. split; [apply String.eqb_eq, Heq | reflexivity].
  - apply String.eqb_neq in Heq. right. split; [exact Heq|].
    destruct (r !! A) as [ra|], (r !! B) as [rb|]; simpl in H;
      try discriminate H.
    + destruct (bool_decide (ra = 0%Qc)) eqn:Hra; [discriminate H|].
      destruct (bool_decide (rb = 0%Qc)) eqn:Hrb; [discriminate H|].
      apply bool_decide_eq_false in Hra, Hrb. simpl in H.
      injection H as <-. exists ra, rb. repeat split; assumption.
    + destruct (bool_decide (ra = 0%Qc)); discriminate H.
Qed.



End Rates.

(** X7: conversions compose.  If an amount converts from A to B and the
    result converts from B to C, then converting the amount from A to C
    directly succeeds with the same result: going through a third
    currency changes nothing. *)
Theorem convert_through_third (x y z : Qc) (A B C : string)
    (rates : gmap string Qc) :
  CurrencyConverter.convertCurrency x A B rates = Ok y ->
  CurrencyConverter.convertCurrency y B C rates = Ok z ->
  CurrencyConverter.convertCurrency x A C rates = Ok z.
Proof.
  intros Hxy Hyz.
  apply convertCurrency_Ok in Hxy as [[-> ->] | (HAB & ra & rb & Ha & Hb & Hra & Hrb & ->)];
    [exact Hyz|].
  pose proof Hyz as Hyz'.
  apply convertCurrency_Ok in Hyz' as [[<- ->] | (HBC & rb' & rc & Hb' & Hc & _ & Hrc & ->)].
  - apply convertCurrency_value; assumption.
  - assert (rb' = rb) as -> by congruence.
    destruct (decide (A = C)) as [<- | HAC].
    + assert (rc = ra) as -> by congruence.
      unfold CurrencyConverter.convertCurrency. rewrite String.eqb_refl.
      f_equal. field. split; assumption.
    + rewrite (convertCurrency_value x A C rates ra rc) by assumption.
      f_equal. field. split; assumption.
Qed.

Lemma convert_through_third_witness :
  CurrencyConverter.convertCurrency (Q2Qc 60) "EUR" "USD" threeRates
  = Ok (Q2Qc 70).
Proof.
  apply (convert_through_third (Q2Qc 60) (Q2Qc 63) (Q2Qc 70) "EUR" "CHF" "USD"
           threeRates).
  - apply (f_equal Ok), Qc_is_canon. vm_compute. reflexivity.
  - apply (f_equal Ok), Qc_is_canon. vm_compute. reflexivity.
Defined.

(** X8: conversion is linear in the amount.  If two amounts convert
    between the same two currencies, every combination [k * x + y] of them
    converts too, to the same combination of the results. *)
Theorem convert_linear (k x y x' y' : Qc) (A B : string)
    (rates : gmap string Qc) :
  CurrencyConverter.convertCurrency x A B rates = Ok x' ->
  CurrencyConverter.convertCurrency y A B rates = Ok y' ->
  CurrencyConverter.convertCurrency (k * x + y) A B rates
  = Ok (k * x' + y')%Qc.
Proof.
  intros Hx Hy.
  apply convertCurrency_Ok in Hx as [[-> ->] | (HAB & ra & rb & Ha & Hb & Hra & Hrb & ->)].
  - apply convertCurrency_Ok in Hy as [[_ ->] | [Hne _]]; [|congruence].
    unfold CurrencyConverter.convertCurrency. rewrite String.eqb_refl.
    reflexivity.
  - apply convertCurrency_Ok in Hy as [[-> _] | (_ & ra' & rb' & Ha' & Hb' & _ & _ & ->)];
      [congruence|].
    assert (ra' = ra) as -> by congruence.
    assert (rb' = rb) as -> by congruence.
    rewrite (convertCurrency_value _ A B rates ra rb) by assumption.
    f_equal. field. assumption.
Qed.

Lemma convert_linear_witness :
  CurrencyConverter.convertCurrency (Q2Qc 3 * Q2Qc 20 + Q2Qc 40) "EUR" "CHF"
    sampleRates
  = Ok (Q2Qc 3 * Q2Qc 21 + Q2Qc 42)%Qc.
Proof.
  apply (convert_linear (Q2Qc 3) (Q2Qc 20) (Q2Qc 40) (Q2Qc 21) (Q2Qc 42)
           "EUR" "CHF" sampleRates).
  - apply (f_equal Ok), Qc_is_canon. vm_compute. reflexivity.
  - apply (f_equal Ok), Qc_is_canon. vm_compute. reflexivity.
Defined.



(** ** The contents of a report *)

Section Contents.

Import Buchfuehrung.

Variable exchangeRates : gmap string Qc.

Lemma run_snoc (l : list ProcessedInvoice.t) (invoice : ProcessedInvoice.t)
    (st : Report * list string) :
  run exchangeRates (l ++ [invoice]) st
  = processInvoice exchangeRates (run exchangeRates l st) invoice.
Proof. unfold run. rewrite fold_left_app. reflexivity. Qed.

Lemma processInvoice_revenue (st : Report * list string)
    (invoice : ProcessedInvoice.t) :
  totalRevenue (fst (processInvoice exchangeRates st invoice))
  = addTo (totalRevenue (fst st)) (currencyOf invoice) (amountOf invoice).
Proof.
  destruct st as [report stderr]. unfold processInvoice.
  destruct (invoiceTotalCHF exchangeRates _ _) as [xCHF warnings].
  reflexivity.
Qed.

Lemma sum_app (l1 l2 : list Qc) : sum (l1 ++ l2) = (sum l1 + sum l2)%Qc.
Proof.
  induction l1 as [|x l1 IH]; simpl.
  - ring.
  - rewrite IH. ring.
Qed.

Lemma sum_snoc {A : Type} (f : A -> Qc) (l : list A) (x : A) :
  sum (List.map f (l ++ [x])) = (sum (List.map f l) + f x)%Qc.
Proof. rewrite List.map_app, sum_app. simpl. ring. Qed.

Lemma sum_perm (l1 l2 : list Qc) : Permutation l1 l2 -> sum l1 = sum l2.
Proof.
  induction 1 as [|x l1 l2 _ IH|x y l|l1 l2 l3 _ IH1 _ IH2]; simpl.
  - reflexivity.
  - rewrite IH. reflexivity.
  - ring.
  - rewrite IH1. exact IH2.
Qed.

Lemma filter_snoc {A : Type} (p : A -> bool) (l : list A) (x : A) :
  List.filter p (l ++ [x]) = List.filter p l ++ (if p x then [x] else []).
Proof. rewrite List.filter_app. reflexivity. Qed.

Lemma addTo_lookup (totals : gmap string Qc) (code key : string) (x : Qc) :
  addTo totals code x !! key
  = if String.eqb code key then Some (default 0%Qc (totals !! code) + x)%Qc
    else totals !! key.
Proof.
  unfold addTo. destruct (String.eqb code key) eqn:Heq.
  - apply String.eqb_eq in Heq as ->. apply lookup_insert_eq.
  - apply String.eqb_neq in Heq. apply lookup_insert_ne. exact Heq.
Qed.

(** Adding an invoice to the revenue by currency. *)
Lemma revenueIn_snoc (totals : gmap string Qc)
    (l : list ProcessedInvoice.t) (invoice : ProcessedInvoice.t) :
  (forall code, totals !! code = revenueIn code l) ->
  forall code,
    addTo totals (currencyOf invoice) (amountOf invoice) !! code
    = revenueIn code (l ++ [invoice]).
Proof.
  intros Hinv code. rewrite addTo_lookup. unfold revenueIn, inCurrency.
  rewrite filter_snoc.
  destruct (String.eqb (currencyOf invoice) code) eqn:Heq.
  - apply String.eqb_eq in Heq. rewrite Hinv, Heq.
    unfold revenueIn, inCurrency.
    destruct (List.filter _ l) as [|i billed]; simpl.
    + f_equal. ring.
    + f_equal. fold (sum (List.map amountOf (billed ++ [invoice]))).
      rewrite sum_snoc. fold (sum (List.map amountOf billed)). ring.
  - rewrite Hinv, app_nil_r. reflexivity.
Qed.

Lemma run_revenue (l : list ProcessedInvoice.t) (year now : string) :
  forall code,
    totalRevenue (fst (run exchangeRates l (emptyReport year now, []))) !! code
    = revenueIn code l.
Proof.
  induction l as [|invoice l IH] using rev_ind; intro code.
  - apply lookup_empty.
  - rewrite run_snoc, processInvoice_revenue.
    apply revenueIn_snoc. exact IH.
Qed.

(** A run that completes: the report is the result of the loop, sorted. *)
Lemma completed (now year : string) (language : LanguageOption)
    (invoices : list ProcessedInvoice.t) (report : Report)
    (generatedFiles : list ReportLanguage) (stderr : list string) :
  generateReport now year language exchangeRates invoices
  = (Completed report generatedFiles, stderr) ->
  report
  = sortInvoices (fst (run exchangeRates invoices (emptyReport year now, [])))
  /\ stderr = snd (run exchangeRates invoices (emptyReport year now, []))
  /\ generatedFiles = languagesOf language
  /\ invoices <> [].
Proof.
  destruct invoices as [|first rest]; [discriminate|].
  destruct (firstInconsistent (creditor (ProcessedInvoice.data first)) rest)
    as [current|] eqn:Hcheck.
  - unfold generateReport. rewrite Hcheck. discriminate.
  - rewrite (generateReport_completes _ _ _ _ _ _ Hcheck).
    intro Heq. repeat split; congruence.
Qed.

Lemma addToMonth_lookup (months : gmap string MonthSummary.t)
    (month code key : string) (x xCHF : Qc) :
  addToMonth months month code x xCHF !! key
  = if String.eqb month key then
      let entry :=
        default {| MonthSummary.total := 0; MonthSummary.totalCHF := 0;
                   MonthSummary.byCurrency := ∅ |} (months !! month) in
      Some {| MonthSummary.total := (MonthSummary.total entry + x)%Qc;
              MonthSummary.totalCHF := (MonthSummary.totalCHF entry + xCHF)%Qc;
              MonthSummary.byCurrency :=
                addTo (MonthSummary.byCurrency entry) code x |}
    else months !! key.
Proof.
  unfold addToMonth. destruct (String.eqb month key) eqn:Heq.
  - apply String.eqb_eq in Heq as ->. apply lookup_insert_eq.
  - apply String.eqb_neq in Heq. apply lookup_insert_ne. exact Heq.
Qed.

Lemma monthHolds_snoc (months : gmap string MonthSummary.t) (month : string)
    (l : list ProcessedInvoice.t) (invoice : ProcessedInvoice.t) :
  monthHolds exchangeRates month l (months !! month) ->
  monthHolds exchangeRates month (l ++ [invoice])
    (addToMonth months (ProcessedInvoice.month invoice) (currencyOf invoice)
       (amountOf invoice) (amountCHFOf exchangeRates invoice) !! month).
Proof.
  unfold monthHolds, inMonth. intro Hinv.
  rewrite addToMonth_lookup, filter_snoc.
  destruct (String.eqb (ProcessedInvoice.month invoice) month) eqn:Heq.
  - apply String.eqb_eq in Heq. rewrite Heq.
    destruct (List.filter _ l) as [|i billed].
    + rewrite Hinv. cbn [app from_option id].
      eexists. split; [reflexivity|]. cbn [MonthSummary.total
        MonthSummary.totalCHF MonthSummary.byCurrency].
      split; [simpl; ring|]. split; [simpl; ring|].
      apply (revenueIn_snoc ∅ []). intro code. apply lookup_empty.
    + destruct Hinv as (e & -> & Ht & HtCHF & Hby).
      rewrite <- app_comm_cons.
      eexists. split; [reflexivity|]. cbn [from_option id MonthSummary.total
        MonthSummary.totalCHF MonthSummary.byCurrency].
      rewrite app_comm_cons, !sum_snoc, Ht, HtCHF.
      split; [reflexivity|]. split; [reflexivity|].
      apply revenueIn_snoc. exact Hby.
  - rewrite app_nil_r. exact Hinv.
Qed.

Lemma run_month (l : list ProcessedInvoice.t) (year now month : string) :
  monthHolds exchangeRates month l
    (monthlyRevenue (fst (run exchangeRates l (emptyReport year now, [])))
       !! month).
Proof.
  induction l as [|invoice l IH] using rev_ind.
  - unfold monthHolds. apply lookup_empty.
  - rewrite run_snoc.
    destruct (run exchangeRates l (emptyReport year now, [])) as [report stderr].
    destruct (processInvoice_fields exchangeRates report stderr invoice)
      as (_ & -> & _).
    apply monthHolds_snoc. exact IH.
Qed.

(** In every month the total is the sum of the amounts by currency. *)
Lemma addTo_total (totals : gmap string Qc) (code : string) (x : Qc) :
  total (fun amount => amount) (addTo totals code x)
  = (total (fun amount => amount) totals + x)%Qc.
Proof.
  unfold addTo. destruct (totals !! code) as [old|] eqn:Hold.
  - rewrite (total_insert_present _ _ _ old) by exact Hold. simpl. ring.
  - rewrite total_insert_fresh by exact Hold. simpl. ring.
Qed.

Lemma run_month_currencies (l : list ProcessedInvoice.t) (year now : string) :
  map_Forall
    (fun _ entry =>
       MonthSummary.total entry
       = total (fun amount => amount) (MonthSummary.byCurrency entry))
    (monthlyRevenue (fst (run exchangeRates l (emptyReport year now, [])))).
Proof.
  induction l as [|invoice l IH] using rev_ind.
  - apply map_Forall_empty.
  - rewrite run_snoc.
    destruct (run exchangeRates l (emptyReport year now, [])) as [report stderr].
    destruct (processInvoice_fields exchangeRates report stderr invoice)
      as (_ & -> & _).
    cbn [fst] in IH. unfold addToMonth. apply map_Forall_insert_2; [|exact IH].
    cbn [MonthSummary.total MonthSummary.byCurrency].
    rewrite addTo_total.
    destruct (monthlyRevenue report !! ProcessedInvoice.month invoice)
      as [entry|] eqn:Hentry; cbn [from_option id].
    + rewrite (IH _ _ Hentry). reflexivity.
    + cbn [MonthSummary.total MonthSummary.byCurrency].
      rewrite total_empty. reflexivity.
Qed.

Lemma ClientSummary_ext (b b' bCHF bCHF' : Qc) (n n' : Z) (c c' : string) :
  b = b' -> bCHF = bCHF' -> n = n' -> c = c' ->
  {| ClientSummary.totalBilled := b; ClientSummary.totalBilledCHF := bCHF;
     ClientSummary.invoiceCount := n; ClientSummary.currency := c |}
  = {| ClientSummary.totalBilled := b'; ClientSummary.totalBilledCHF := bCHF';
       ClientSummary.invoiceCount := n'; ClientSummary.currency := c' |}.
Proof. intros -> -> -> ->. reflexivity. Qed.

Lemma addToClient_other (clients : gmap string ClientSummary.t)
    (client code key : string) (x xCHF : Qc) :
  client <> key ->
  addToClient clients client code x xCHF !! key = clients !! key.
Proof.
  intro Hne. unfold addToClient.
  destruct (clients !! client) as [entry|].
  - apply lookup_insert_ne. exact Hne.
  - destruct (JS.inherited client); [reflexivity|].
    apply lookup_insert_ne. exact Hne.
Qed.

Lemma clientHolds_snoc (clients : gmap string ClientSummary.t) (client : string)
    (l : list ProcessedInvoice.t) (invoice : ProcessedInvoice.t) :
  JS.inherited client = false ->
  clients !! client = clientHolds exchangeRates client l ->
  addToClient clients (ProcessedInvoice.client invoice) (currencyOf invoice)
    (amountOf invoice) (amountCHFOf exchangeRates invoice) !! client
  = clientHolds exchangeRates client (l ++ [invoice]).
Proof.
  intros Hown Hinv. unfold clientHolds, ofClient in *.
  rewrite filter_snoc.
  destruct (String.eqb (ProcessedInvoice.client invoice) client) eqn:Heq.
  - apply String.eqb_eq in Heq. rewrite Heq. unfold addToClient.
    rewrite Hinv, Hown.
    destruct (List.filter _ l) as [|first rest].
    + rewrite lookup_insert_eq. cbn [app]. f_equal. unfold bump.
      apply ClientSummary_ext; simpl; try reflexivity; ring.
    + rewrite lookup_insert_eq. rewrite <- app_comm_cons. f_equal.
      unfold bump. cbn [ClientSummary.totalBilled ClientSummary.totalBilledCHF
        ClientSummary.invoiceCount ClientSummary.currency].
      rewrite app_comm_cons, !sum_snoc.
      apply ClientSummary_ext; try reflexivity.
      rewrite length_app. simpl. lia.
  - apply String.eqb_neq in Heq.
    rewrite addToClient_other, app_nil_r by exact Heq. exact Hinv.
Qed.

Lemma run_client (l : list ProcessedInvoice.t) (year now client : string) :
  JS.inherited client = false ->
  clientSummary (fst (run exchangeRates l (emptyReport year now, []))) !! client
  = clientHolds exchangeRates client l.
Proof.
  intro Hown. induction l as [|invoice l IH] using rev_ind.
  - apply lookup_empty.
  - rewrite run_snoc.
    destruct (run exchangeRates l (emptyReport year now, [])) as [report stderr].
    destruct (processInvoice_fields exchangeRates report stderr invoice)
      as (_ & _ & -> & _).
    apply clientHolds_snoc; assumption.
Qed.

Lemma run_totalCHF (l : list ProcessedInvoice.t) (year now : string) :
  totalRevenueCHF (fst (run exchangeRates l (emptyReport year now, [])))
  = sum (List.map (amountCHFOf exchangeRates) l).
Proof.
  induction l as [|invoice l IH] using rev_ind; [reflexivity|].
  rewrite run_snoc, sum_snoc.
  destruct (run exchangeRates l (emptyReport year now, [])) as [report stderr].
  destruct (processInvoice_fields exchangeRates report stderr invoice)
    as (-> & _).
  cbn [fst] in IH. rewrite IH. reflexivity.
Qed.

Lemma leb_refl (s : string) : String.leb s s = true.
Proof. destruct (String.leb_total s s); assumption. Qed.

Lemma insertByDate_sorted (x : InvoiceLine.t) (l : list InvoiceLine.t) :
  Sorted notLater l -> Sorted notLater (insertByDate x l).
Proof.
  induction 1 as [|y l Hl IH Hhd]; simpl.
  - constructor; constructor.
  - destruct (String.leb (InvoiceLine.date x) (InvoiceLine.date y)) eqn:Hxy.
    + constructor; [constructor; assumption|]. constructor. exact Hxy.
    + constructor; [exact IH|].
      assert (Hyx : notLater y x).
      { destruct (String.leb_total (InvoiceLine.date x) (InvoiceLine.date y))
          as [H|H]; [congruence | exact H]. }
      destruct Hhd as [|z l' Hyz]; simpl.
      * constructor. exact Hyx.
      * destruct (String.leb (InvoiceLine.date x) (InvoiceLine.date z));
          constructor; assumption.
Qed.

Lemma sortByDate_sorted (l : list InvoiceLine.t) : Sorted notLater (sortByDate l).
Proof.
  induction l as [|x l IH]; [constructor|].
  apply insertByDate_sorted. exact IH.
Qed.

Lemma insertByDate_stable (day : string) (x : InvoiceLine.t)
    (l : list InvoiceLine.t) :
  datedOn day (insertByDate x l) = datedOn day (x :: l).
Proof.
  induction l as [|y l IH]; [reflexivity|].
  cbn [insertByDate].
  destruct (String.leb (InvoiceLine.date x) (InvoiceLine.date y)) eqn:Hxy;
    [reflexivity|].
  unfold datedOn in *. cbn [List.filter] in *. rewrite IH.
  destruct (String.eqb (InvoiceLine.date x) day) eqn:Hx; [|reflexivity].
  destruct (String.eqb (InvoiceLine.date y) day) eqn:Hy; [|reflexivity].
  apply String.eqb_eq in Hx, Hy. rewrite Hx, Hy, leb_refl in Hxy.
  discriminate Hxy.
Qed.

Lemma sortByDate_stable (day : string) (l : list InvoiceLine.t) :
  datedOn day (sortByDate l) = datedOn day l.
Proof.
  induction l as [|x l IH]; [reflexivity|].
  cbn [sortByDate fold_right]. rewrite insertByDate_stable.
  fold (sortByDate l). unfold datedOn in *. cbn [List.filter]. rewrite IH.
  reflexivity.
Qed.

Lemma warningsOf_length (invoice : ProcessedInvoice.t) :
  warningsOf exchangeRates invoice
  = if converts exchangeRates invoice then []
    else [ "Warning: No conversion rate available for " +:+ currencyOf invoice
             +:+ " to CHF";
           "Using 1:1 rate for " +:+ currencyOf invoice +:+ " to CHF as fallback" ].
Proof.
  unfold warningsOf, converts, invoiceTotalCHF, CurrencyConverter.convertCurrency.
  destruct (String.eqb (currencyOf invoice) "CHF"); [reflexivity|].
  cbn [negb orb].
  destruct (CurrencyConverter.falsy (exchangeRates !! currencyOf invoice)
            || CurrencyConverter.falsy (exchangeRates !! "CHF")); reflexivity.
Qed.

Lemma warnings_count (l : list ProcessedInvoice.t) :
  List.length (List.concat (List.map (warningsOf exchangeRates) l))
  = (2 * List.length
           (List.filter (fun invoice => negb (converts exchangeRates invoice)) l))%nat.
Proof.
  induction l as [|invoice l IH]; [reflexivity|].
  cbn [List.map List.concat List.filter]. rewrite length_app, IH.
  rewrite warningsOf_length.
  destruct (converts exchangeRates invoice); simpl; lia.
Qed.

Lemma filter_none {A : Type} (p : A -> bool) (l : list A) :
  List.filter (fun x => negb (p x)) l = [] <-> List.forallb p l = true.
Proof.
  induction l as [|x l IH]; simpl; [tauto|].
  destruct (p x); simpl; [exact IH|]. split; discriminate.
Qed.

Lemma processInvoice_CHF (otherRates : gmap string Qc)
    (st : Report * list string) (invoice : ProcessedInvoice.t) :
  currencyOf invoice = "CHF" ->
  processInvoice exchangeRates st invoice = processInvoice otherRates st invoice.
Proof.
  intro HCHF. destruct st as [report stderr].
  unfold processInvoice, invoiceTotalCHF. fold (currencyOf invoice).
  rewrite HCHF. reflexivity.
Qed.

Lemma run_CHF (otherRates : gmap string Qc) (l : list ProcessedInvoice.t)
    (st : Report * list string) :
  List.Forall (fun invoice => currencyOf invoice = "CHF") l ->
  run exchangeRates l st = run otherRates l st.
Proof.
  intro HCHF. revert st.
  induction HCHF as [|invoice l Hinvoice _ IH]; intro st; [reflexivity|].
  rewrite !run_cons, (processInvoice_CHF otherRates) by exact Hinvoice.
  apply IH.
Qed.

End Contents.

(** X10: the revenue by currency.  In every report over invoices whose
    currency codes are not names of inherited members, [totalRevenue] has
    an entry for exactly the currencies that some invoice is billed in
    (CHF for an invoice without currency), and the entry is the sum of the
    totals of these invoices. *)
Theorem report_revenue_by_currency (now year : string)
    (language : LanguageOption) (exchangeRates : gmap string Qc)
    (invoices : list ProcessedInvoice.t) (report : Report)
    (generatedFiles : list ReportLanguage) (stderr : list string)
    (code : string) :
  plainCurrencies invoices ->
  Buchfuehrung.generateReport now year language exchangeRates invoices
  = (Completed report generatedFiles, stderr) ->
  totalRevenue report !! code = revenueIn code invoices.
Proof.
  intros _ Hrun. apply completed in Hrun as (-> & _).
  unfold Buchfuehrung.sortInvoices. cbn [totalRevenue].
  apply run_revenue.
Qed.

Lemma report_revenue_by_currency_witness :
  totalRevenue threeInvoicesReport !! "EUR" = revenueIn "EUR" threeInvoices.
Proof.
  apply (report_revenue_by_currency noon "2025" Both sampleRates threeInvoices
           threeInvoicesReport [De; En] threeInvoicesWarnings "EUR").
  - repeat constructor.
  - reflexivity.
Defined.

(** X11: the entry of a month.  In every report over invoices whose
    currency codes are not names of inherited members, [monthlyRevenue]
    has an entry for exactly the months of the invoices; its total is the
    sum of their totals, its total in CHF the sum of their amounts in CHF,
    and its amounts by currency are their revenue by currency. *)
Theorem report_month (now year : string) (language : LanguageOption)
    (exchangeRates : gmap string Qc) (invoices : list ProcessedInvoice.t)
    (report : Report) (generatedFiles : list ReportLanguage)
    (stderr : list string) (month : string) :
  plainCurrencies invoices ->
  Buchfuehrung.generateReport now year language exchangeRates invoices
  = (Completed report generatedFiles, stderr) ->
  match inMonth month invoices with
  | [] => monthlyRevenue report !! month = None
  | billed =>
      exists entry : MonthSummary.t,
        monthlyRevenue report !! month = Some entry
        /\ MonthSummary.total entry = sum (List.map amountOf billed)
        /\ MonthSummary.totalCHF entry
           = sum (List.map (amountCHFOf exchangeRates) billed)
        /\ forall code,
             MonthSummary.byCurrency entry !! code = revenueIn code billed
  end.
Proof.
  intros _ Hrun. apply completed in Hrun as (-> & _).
  unfold Buchfuehrung.sortInvoices. cbn [monthlyRevenue].
  exact (run_month exchangeRates invoices year now month).
Qed.

Lemma report_month_witness :
  match inMonth "04" threeInvoices with
  | [] => monthlyRevenue threeInvoicesReport !! "04" = None
  | billed =>
      exists entry : MonthSummary.t,
        monthlyRevenue threeInvoicesReport !! "04" = Some entry
        /\ MonthSummary.total entry = sum (List.map amountOf billed)
        /\ MonthSummary.totalCHF entry
           = sum (List.map (amountCHFOf sampleRates) billed)
        /\ forall code,
             MonthSummary.byCurrency entry !! code = revenueIn code billed
  end.
Proof.
  apply (report_month noon "2025" Both sampleRates threeInvoices
           threeInvoicesReport [De; En] threeInvoicesWarnings "04").
  - repeat constructor.
  - reflexivity.
Defined.

(** X12: the total of a month mixes currencies.  In every report over
    invoices whose currency codes are not names of inherited members, the
    [total] of a month is the plain sum of its amounts by currency:
    amounts in different currencies are added without conversion. *)
Theorem report_month_total_unconverted (now year : string)
    (language : LanguageOption) (exchangeRates : gmap string Qc)
    (invoices : list ProcessedInvoice.t) (report : Report)
    (generatedFiles : list ReportLanguage) (stderr : list string)
    (month : string) (entry : MonthSummary.t) :
  plainCurrencies invoices ->
  Buchfuehrung.generateReport now year language exchangeRates invoices
  = (Completed report generatedFiles, stderr) ->
  monthlyRevenue report !! month = Some entry ->
  MonthSummary.total entry
  = total (fun amount => amount) (MonthSummary.byCurrency entry).
Proof.
  intros _ Hrun Hentry. apply completed in Hrun as (-> & _).
  unfold Buchfuehrung.sortInvoices in Hentry. cbn [monthlyRevenue] in Hentry.
  exact (run_month_currencies exchangeRates invoices year now month entry Hentry).
Qed.

Lemma report_month_total_unconverted_witness :
  MonthSummary.total threeInvoicesApril
  = total (fun amount => amount) (MonthSummary.byCurrency threeInvoicesApril).
Proof.
  apply (report_month_total_unconverted noon "2025" Both sampleRates
           threeInvoices threeInvoicesReport [De; En] threeInvoicesWarnings
           "04" threeInvoicesApril).
  - repeat constructor.
  - reflexivity.
  - reflexivity.
Defined.

(** X13: the entry of a client.  For a client name that no inherited
    property bears, [clientSummary] has an entry exactly when the client
    has invoices; it counts them, adds up their totals and their amounts
    in CHF, and its currency is the one of the client's first invoice. *)
Theorem report_client (now year : string) (language : LanguageOption)
    (exchangeRates : gmap string Qc) (invoices : list ProcessedInvoice.t)
    (report : Report) (generatedFiles : list ReportLanguage)
    (stderr : list string) (client : string) :
  JS.inherited client = false ->
  Buchfuehrung.generateReport now year language exchangeRates invoices
  = (Completed report generatedFiles, stderr) ->
  clientSummary report !! client
  = match ofClient client invoices with
    | [] => None
    | first :: rest =>
        Some {| ClientSummary.totalBilled :=
                  sum (List.map amountOf (first :: rest));
                ClientSummary.totalBilledCHF :=
                  sum (List.map (amountCHFOf exchangeRates) (first :: rest));
                ClientSummary.invoiceCount :=
                  Z.of_nat (List.length (first :: rest));
                ClientSummary.currency := currencyOf first |}
    end.
Proof.
  intros Hown Hrun. apply completed in Hrun as (-> & _).
  unfold Buchfuehrung.sortInvoices. cbn [clientSummary].
  exact (run_client exchangeRates invoices year now client Hown).
Qed.

Lemma report_client_witness :
  clientSummary threeInvoicesReport !! "Globex"
  = match ofClient "Globex" threeInvoices with
    | [] => None
    | first :: rest =>
        Some {| ClientSummary.totalBilled :=
                  sum (List.map amountOf (first :: rest));
                ClientSummary.totalBilledCHF :=
                  sum (List.map (amountCHFOf sampleRates) (first :: rest));
                ClientSummary.invoiceCount :=
                  Z.of_nat (List.length (first :: rest));
                ClientSummary.currency := currencyOf first |}
    end.
Proof.
  apply (report_client noon "2025" Both sampleRates threeInvoices
           threeInvoicesReport [De; En] threeInvoicesWarnings "Globex").
  - reflexivity.
  - reflexivity.
Defined.

(** X14: the invoice lines are in the order of their dates, and the lines
    of one date are in the order of the input: the sort is stable and
    loses no line. *)
Theorem report_lines_sorted (now year : string) (language : LanguageOption)
    (exchangeRates : gmap string Qc) (input : list ProcessedInvoice.t)
    (report : Report) (generatedFiles : list ReportLanguage)
    (stderr : list string) :
  Buchfuehrung.generateReport now year language exchangeRates input
  = (Completed report generatedFiles, stderr) ->
  Sorted notLater (invoices report)
  /\ forall day,
       datedOn day (invoices report)
       = datedOn day (List.map (lineOf exchangeRates) input).
Proof.
  intro Hrun. apply completed in Hrun as (-> & _).
  unfold Buchfuehrung.sortInvoices. cbn [invoices].
  destruct (run_lines exchangeRates input
              (Buchfuehrung.emptyReport year now, [])) as [-> _].
  cbn [fst Buchfuehrung.emptyReport invoices app].
  split; [apply sortByDate_sorted|].
  intro day. apply sortByDate_stable.
Qed.

Lemma report_lines_sorted_witness :
  Sorted notLater (invoices threeInvoicesReport)
  /\ forall day,
       datedOn day (invoices threeInvoicesReport)
       = datedOn day (List.map (lineOf sampleRates) threeInvoices).
Proof.
  apply (report_lines_sorted noon "2025" Both sampleRates threeInvoices
           threeInvoicesReport [De; En] threeInvoicesWarnings).
  reflexivity.
Defined.

(** X15: the total in CHF.  In every report [totalRevenueCHF] is the sum,
    over the invoices of the input, of the amount in CHF that the invoice
    is booked with, and the amounts in CHF of the invoice lines add up to
    it. *)
Theorem report_total_CHF (now year : string) (language : LanguageOption)
    (exchangeRates : gmap string Qc) (input : list ProcessedInvoice.t)
    (report : Report) (generatedFiles : list ReportLanguage)
    (stderr : list string) :
  Buchfuehrung.generateReport now year language exchangeRates input
  = (Completed report generatedFiles, stderr) ->
  totalRevenueCHF report = sum (List.map (amountCHFOf exchangeRates) input)
  /\ sum (List.map InvoiceLine.amountCHF (invoices report))
     = totalRevenueCHF report.
Proof.
  intro Hrun. apply completed in Hrun as (-> & _).
  unfold Buchfuehrung.sortInvoices. cbn [invoices totalRevenueCHF].
  destruct (run_lines exchangeRates input
              (Buchfuehrung.emptyReport year now, [])) as [-> _].
  cbn [fst Buchfuehrung.emptyReport invoices app].
  rewrite run_totalCHF. split; [reflexivity|].
  rewrite (sum_perm _ (List.map InvoiceLine.amountCHF
                         (List.map (lineOf exchangeRates) input))).
  - rewrite List.map_map. reflexivity.
  - apply Permutation_map, sortByDate_perm.
Qed.

Lemma report_total_CHF_witness :
  totalRevenueCHF threeInvoicesReport
  = sum (List.map (amountCHFOf sampleRates) threeInvoices)
  /\ sum (List.map InvoiceLine.amountCHF (invoices threeInvoicesReport))
     = totalRevenueCHF threeInvoicesReport.
Proof.
  apply (report_total_CHF noon "2025" Both sampleRates threeInvoices
           threeInvoicesReport [De; En] threeInvoicesWarnings).
  reflexivity.
Defined.

(** X16: the error stream of a run that completes.  For invoices whose
    currency codes are not names of inherited members, it holds, in the
    order of the input, the two lines of each invoice whose conversion to
    CHF throws, that is, whose currency is not CHF and has, or CHF has, no
    rate or the rate zero; then, when PDF files are asked for, for each
    report what the conversion writes itself and the line
    [Error converting to PDF: ...] if it throws; and nothing else. *)
Theorem report_warnings
    (convertMarkdownToPdf : ReportLanguage -> result string * list string)
    (generatePdf : bool) (now year : string) (language : LanguageOption)
    (exchangeRates : gmap string Qc) (input : list ProcessedInvoice.t)
    (report : Report) (generatedFiles : list ReportLanguage)
    (stderr : list string) :
  plainCurrencies input ->
  Buchfuehrung.generateReportAndPdfs convertMarkdownToPdf generatePdf now year
    language exchangeRates input
  = (Completed report generatedFiles, stderr) ->
  generatedFiles = Buchfuehrung.languagesOf language
  /\ stderr
     = List.flat_map (fallbackLines exchangeRates) input
       ++ (if generatePdf then
             List.flat_map
               (fun file =>
                  match convertMarkdownToPdf file with
                  | (Ok pdfFile, written) => written
                  | (Throw e, written) =>
                      written
                      ++ ["Error converting to PDF: " +:+ Buchfuehrung.message e]
                  end)
               generatedFiles
           else []).
Proof.
  intros _. unfold Buchfuehrung.generateReportAndPdfs.
  destruct (Buchfuehrung.generateReport now year language exchangeRates input)
    as [[code | report' files] warnings] eqn:Hrun; [discriminate|].
  intros [= <- <- <-].
  apply completed in Hrun as (_ & -> & -> & _).
  split; [reflexivity|].
  destruct (run_lines exchangeRates input
              (Buchfuehrung.emptyReport year now, [])) as [_ ->].
  cbn [snd app]. unfold Buchfuehrung.convertReports. f_equal.
  rewrite List.flat_map_concat_map. f_equal.
  apply List.map_ext. intro invoice.
  rewrite warningsOf_length. reflexivity.
Qed.

Lemma report_warnings_witness :
  [De; En] = Buchfuehrung.languagesOf Both
  /\ threeInvoicesWarnings
     ++ [ "Error: mermaid-cli is not installed.";
          "Please install it using: npm install -g @mermaid-js/mermaid-cli";
          "Error converting to PDF: mermaid-cli not installed" ]
     = List.flat_map (fallbackLines sampleRates) threeInvoices
       ++ (if true then
             List.flat_map
               (fun file =>
                  match noMermaid file with
                  | (Ok pdfFile, written) => written
                  | (Throw e, written) =>
                      written
                      ++ ["Error converting to PDF: " +:+ Buchfuehrung.message e]
                  end)
               [De; En]
           else []).
Proof.
  apply (report_warnings noMermaid true noon "2025" Both sampleRates
           threeInvoices threeInvoicesReport [De; En]
           (threeInvoicesWarnings
            ++ [ "Error: mermaid-cli is not installed.";
                 "Please install it using: npm install -g @mermaid-js/mermaid-cli";
                 "Error converting to PDF: mermaid-cli not installed" ])).
  - repeat constructor.
  - reflexivity.
Defined.

(** X17: the two scripts agree on the total of an invoice.  The total that
    the invoice generator prints, subtotal plus VAT, is the amount that the
    report generator books for the same invoice. *)
Theorem invoice_total_agrees (invoiceData : InvoiceData) :
  InvoiceGenerator.total invoiceData = Buchfuehrung.invoiceTotal invoiceData.
Proof.
  unfold InvoiceGenerator.total, InvoiceGenerator.vat, InvoiceGenerator.subtotal,
    Buchfuehrung.invoiceTotal.
  destruct (vatRate invoiceData) as [rate|]; [|ring].
  destruct (bool_decide (rate = 0%Qc)); [ring | reflexivity].
Qed.

(** X18: a year billed in francs only does not depend on the exchange
    rates.  When every invoice is in CHF, or names no currency, the run
    ends in the same way, with the same report and the same error stream,
    whatever the table of rates is. *)
Theorem report_CHF_only (now year : string) (language : LanguageOption)
    (exchangeRates otherRates : gmap string Qc)
    (input : list ProcessedInvoice.t) :
  List.Forall (fun invoice => currencyOf invoice = "CHF") input ->
  Buchfuehrung.generateReport now year language exchangeRates input
  = Buchfuehrung.generateReport now year language otherRates input.
Proof.
  intro HCHF. unfold Buchfuehrung.generateReport.
  destruct input as [|first rest]; [reflexivity|].
  destruct (Buchfuehrung.firstInconsistent _ rest); [reflexivity|].
  fold (run exchangeRates (first :: rest) (Buchfuehrung.emptyReport year now, [])).
  fold (run otherRates (first :: rest) (Buchfuehrung.emptyReport year now, [])).
  rewrite (run_CHF exchangeRates otherRates) by exact HCHF. reflexivity.
Qed.

Lemma report_CHF_only_witness :
  Buchfuehrung.generateReport noon "2025" Both sampleRates
    [ invoiceOf acme "Globex" "2025-03-globex.json" None (Q2Qc 100);
      invoiceOf acme "Initech" "2025-04-initech.json" (Some "CHF"%string)
        (Q2Qc 50) ]
  = Buchfuehrung.generateReport noon "2025" Both zeroRateTable
      [ invoiceOf acme "Globex" "2025-03-globex.json" None (Q2Qc 100);
        invoiceOf acme "Initech" "2025-04-initech.json" (Some "CHF"%string)
          (Q2Qc 50) ].
Proof.
  apply (report_CHF_only noon "2025" Both sampleRates zeroRateTable).
  repeat constructor.
Defined.

(** ** The command line of the report generator *)

Section CommandLine.

Import Buchfuehrung.

Variable resolve : string -> string.
Variable DEFAULT_INVOICES_DIR : string.

Lemma lastOf_snoc (p : string -> bool) (args : list string) (arg : string) :
  lastOf p (args ++ [arg]) = if p arg then Some arg else lastOf p args.
Proof.
  unfold lastOf. rewrite List.filter_app. cbn [List.filter].
  destruct (p arg); [|rewrite app_nil_r; reflexivity].
  rewrite List.map_app. apply last_last.
Qed.

Lemma parseArgument_kinds (invoicesDir : string) (language : LanguageOption)
    (generatePdf : bool) (arg : string) :
  parseArgument resolve (invoicesDir, language, generatePdf) arg
  = (if isDirectory arg then resolve arg else invoicesDir,
     default language (languageFlag arg),
     generatePdf || isPdfFlag arg).
Proof.
  unfold parseArgument, isDirectory, languageFlag, isPdfFlag.
  destruct (String.eqb arg "--lang=de") eqn:H1;
    [apply String.eqb_eq in H1 as ->; simpl; rewrite orb_false_r; reflexivity|].
  destruct (String.eqb arg "-l=de") eqn:H2;
    [apply String.eqb_eq in H2 as ->; simpl; rewrite orb_false_r; reflexivity|].
  destruct (String.eqb arg "--lang=en") eqn:H3;
    [apply String.eqb_eq in H3 as ->; simpl; rewrite orb_false_r; reflexivity|].
  destruct (String.eqb arg "-l=en") eqn:H4;
    [apply String.eqb_eq in H4 as ->; simpl; rewrite orb_false_r; reflexivity|].
  destruct (String.eqb arg "--pdf") eqn:H5;
    [apply String.eqb_eq in H5 as ->; simpl; rewrite orb_true_r; reflexivity|].
  destruct (String.eqb arg "-p") eqn:H6;
    [apply String.eqb_eq in H6 as ->; simpl; rewrite orb_true_r; reflexivity|].
  simpl. rewrite orb_false_r.
  destruct (JS.startsWith arg "-"); reflexivity.
Qed.

(** The three variables after the loop over [rest]. *)
Lemma parsed_rest (rest : list string) :
  List.fold_left (parseArgument resolve) rest (DEFAULT_INVOICES_DIR, Both, false)
  = (from_option resolve DEFAULT_INVOICES_DIR (lastOf isDirectory rest),
     default Both (lastOf isLanguageFlag rest ≫= languageFlag),
     List.existsb isPdfFlag rest).
Proof.
  induction rest as [|arg rest IH] using rev_ind; [reflexivity|].
  rewrite fold_left_app, IH, !lastOf_snoc, existsb_app.
  cbn [List.fold_left List.existsb]. rewrite parseArgument_kinds, orb_false_r.
  f_equal. f_equal.
  - destruct (isDirectory arg); reflexivity.
  - unfold isLanguageFlag.
    destruct (languageFlag arg) as [flag|] eqn:Hflag; [|reflexivity].
    cbn [mbind option_bind]. rewrite Hflag. reflexivity.
Qed.

End CommandLine.

(** X19: the options of the report generator.  After a year of four
    digits the arguments are read in any order: the directory is the last
    argument that does not start with a dash (resolved; the default when
    there is none), the language is the one of the last language flag
    (both when there is none), PDF files are made when [--pdf] or [-p] is
    among the arguments, and every other argument that starts with a dash
    is ignored. *)
Theorem parseArguments_options (resolve : string -> string)
    (DEFAULT_INVOICES_DIR year : string) (rest : list string) :
  Buchfuehrung.isYear year = true ->
  Buchfuehrung.parseArguments resolve DEFAULT_INVOICES_DIR (year :: rest)
  = Parsed
      {| Options.year := year;
         Options.invoicesDir :=
           match lastOf isDirectory rest with
           | Some directory => resolve directory
           | None => DEFAULT_INVOICES_DIR
           end;
         Options.language :=
           match lastOf isLanguageFlag rest with
           | Some flag => default Both (languageFlag flag)
           | None => Both
           end;
         Options.generatePdf := List.existsb isPdfFlag rest |}.
Proof.
  intro Hyear. unfold Buchfuehrung.parseArguments.
  rewrite Hyear, parsed_rest. cbn [negb].
  destruct (lastOf isDirectory rest), (lastOf isLanguageFlag rest); reflexivity.
Qed.

Lemma parseArguments_options_witness :
  Buchfuehrung.parseArguments (fun directory => "/home/" +:+ directory)
    "/opt/invoices" ["2025"; "-p"; "old"; "--lang=en"; "--verbose"; "-l=de"; "new"]
  = Parsed
      {| Options.year := "2025";
         Options.invoicesDir := "/home/new";
         Options.language := OnlyDe;
         Options.generatePdf := true |}.
Proof.
  apply (parseArguments_options (fun directory => "/home/" +:+ directory)
           "/opt/invoices" "2025"
           ["-p"; "old"; "--lang=en"; "--verbose"; "-l=de"; "new"]).
  reflexivity.
Defined.

(** ** Numbers and their decimal text *)

Section DecimalText.

Lemma of_uint_acc_horner (d : Decimal.uint) (acc : positive) :
  N.pos (Pos.of_uint_acc d acc) = horner (N.pos acc) d.
Proof.
  revert acc. induction d; intro acc; simpl; try reflexivity; rewrite IHd;
    reflexivity.
Qed.

Lemma of_uint_horner (d : Decimal.uint) : Pos.of_uint d = horner 0 d.
Proof.
  induction d; simpl; try reflexivity; try exact IHd;
    rewrite of_uint_acc_horner; reflexivity.
Qed.

Lemma decimalValue_horner (d : Decimal.uint) (acc : N) :
  JS.decimalValue (Z.of_N acc) (NilEmpty.string_of_uint d)
  = Some (Z.of_N (horner acc d)).
Proof.
  revert acc. induction d; intro acc; cbn [NilEmpty.string_of_uint horner];
    try reflexivity;
    cbn [JS.decimalValue];
    match goal with
    | |- context [JS.isDigit ?c] => change (JS.isDigit c) with true; cbv iota
    end;
    rewrite <- IHd; f_equal;
    match goal with
    | |- context [JS.charCode ?c] =>
        let v := eval vm_compute in (JS.charCode c) in
        change (JS.charCode c) with v
    end; lia.
Qed.

Lemma decimalValue_uint (d : Decimal.uint) :
  JS.decimalValue 0 (NilEmpty.string_of_uint d) = Some (Z.of_uint d).
Proof.
  unfold Z.of_uint. rewrite of_uint_horner. exact (decimalValue_horner d 0).
Qed.

Lemma toString_uint (d : Decimal.uint) :
  JS.toString (Z.of_uint d) = NilEmpty.string_of_uint (Decimal.unorm d).
Proof.
  unfold JS.toString. change (Z.of_uint d) with (Z.of_int (Decimal.Pos d)).
  rewrite DecimalZ.to_of. cbn [Decimal.norm NilZero.string_of_int].
  pose proof (DecimalFacts.unorm_nonnil d) as Hnil.
  destruct (Decimal.unorm d); [contradiction Hnil|..]; reflexivity.
Qed.

Lemma string_of_uint_length (d : Decimal.uint) :
  String.length (NilEmpty.string_of_uint d) = Decimal.nb_digits d.
Proof. induction d; simpl; congruence. Qed.

Lemma string_of_uint_zeros (k : nat) (d : Decimal.uint) :
  NilEmpty.string_of_uint (Nat.iter k Decimal.D0 d)
  = JS.repeat "0" k +:+ NilEmpty.string_of_uint d.
Proof.
  induction k as [|k IH]; [reflexivity|].
  change (Nat.iter (S k) Decimal.D0 d) with (Decimal.D0 (Nat.iter k Decimal.D0 d)).
  cbn [JS.repeat NilEmpty.string_of_uint].
  rewrite IH. reflexivity.
Qed.

Lemma padStart_uint (d : Decimal.uint) :
  d <> Decimal.Nil ->
  JS.padStart (Decimal.nb_digits d) "0" (JS.toString (Z.of_uint d))
  = NilEmpty.string_of_uint d.
Proof.
  intro Hd. rewrite toString_uint. unfold JS.padStart.
  rewrite string_of_uint_length, <- string_of_uint_zeros, DecimalFacts.iter_D0_unorm
    by exact Hd.
  reflexivity.
Qed.

Lemma digit_cases (c : ascii) :
  JS.isDigit c = true ->
  In c ["0"; "1"; "2"; "3"; "4"; "5"; "6"; "7"; "8"; "9"]%char.
Proof.
  destruct c as [[] [] [] [] [] [] [] []]; intro H;
    try (vm_compute in H; discriminate H); simpl; tauto.
Qed.

Lemma digits_uint (s : string) :
  JS.forallb JS.isDigit s = true ->
  exists d : Decimal.uint, NilEmpty.string_of_uint d = s.
Proof.
  induction s as [|c s IH]; [exists Decimal.Nil; reflexivity|].
  cbn [JS.forallb]. intros [Hc Hs]%andb_prop.
  destruct (IH Hs) as [d <-].
  apply digit_cases in Hc. simpl in Hc.
  destruct Hc as [<-|[<-|[<-|[<-|[<-|[<-|[<-|[<-|[<-|[<-|[]]]]]]]]]]].
  - exists (Decimal.D0 d). reflexivity.
  - exists (Decimal.D1 d). reflexivity.
  - exists (Decimal.D2 d). reflexivity.
  - exists (Decimal.D3 d). reflexivity.
  - exists (Decimal.D4 d). reflexivity.
  - exists (Decimal.D5 d). reflexivity.
  - exists (Decimal.D6 d). reflexivity.
  - exists (Decimal.D7 d). reflexivity.
  - exists (Decimal.D8 d). reflexivity.
  - exists (Decimal.D9 d). reflexivity.
Qed.

(** A text of decimal digits denotes a number, and the number, printed and
    padded with zeros to the length of the text, is the text again. *)
Lemma digits_text (s : string) :
  JS.forallb JS.isDigit s = true -> s <> EmptyString ->
  exists v : Z,
    0 <= v
    /\ JS.decimalValue 0 s = Some v
    /\ JS.padStart (String.length s) "0" (JS.toString v) = s.
Proof.
  intros Hs Hne. destruct (digits_uint s Hs) as [d <-].
  exists (Z.of_uint d). split; [apply N2Z.is_nonneg|].
  split; [apply decimalValue_uint|].
  rewrite string_of_uint_length. apply padStart_uint.
  intros ->. apply Hne. reflexivity.
Qed.

Lemma decimalPrefixValue_digits (s : string) (acc : Z) :
  JS.forallb JS.isDigit s = true ->
  JS.decimalPrefixValue acc true s = JS.decimalValue acc s.
Proof.
  revert acc. induction s as [|c s IH]; intros acc; [reflexivity|].
  cbn [JS.forallb JS.decimalPrefixValue JS.decimalValue].
  intros [-> Hs]%andb_prop. apply IH. exact Hs.
Qed.

(** On a text of decimal digits [parseInt] reads the whole text. *)
Lemma parseInt_digits (s : string) :
  JS.forallb JS.isDigit s = true -> s <> EmptyString ->
  JS.parseInt s = JS.decimalValue 0 s.
Proof.
  intros Hs Hne. destruct s as [|c s]; [contradiction Hne; reflexivity|].
  pose proof Hs as Hall.
  cbn [JS.forallb] in Hs. apply andb_prop in Hs as [Hc Hs].
  assert (Hvalue :
            option_map (Z.mul 1) (JS.decimalPrefixValue 0 false (String c s))
            = JS.decimalValue 0 (String c s)).
  { cbn [JS.decimalPrefixValue JS.decimalValue]. rewrite Hc.
    rewrite decimalPrefixValue_digits by exact Hs.
    destruct (JS.decimalValue _ s) as [v|]; [|reflexivity].
    simpl. f_equal. destruct v; reflexivity. }
  apply digit_cases in Hc. simpl in Hc.
  destruct Hc as [<-|[<-|[<-|[<-|[<-|[<-|[<-|[<-|[<-|[<-|[]]]]]]]]]]];
    try exact Hvalue.
  destruct s as [|x s]; [reflexivity|].
  cbn [JS.forallb] in Hs. apply andb_prop in Hs as [Hx Hs].
  apply digit_cases in Hx. simpl in Hx.
  destruct Hx as [<-|[<-|[<-|[<-|[<-|[<-|[<-|[<-|[<-|[<-|[]]]]]]]]]]];
    exact Hvalue.
Qed.

Lemma string_of_uint_digits (d : Decimal.uint) :
  JS.forallb JS.isDigit (NilEmpty.string_of_uint d) = true.
Proof. induction d; simpl; try reflexivity; exact IHd. Qed.

Lemma toString_digits (v : Z) :
  0 <= v -> JS.forallb JS.isDigit (JS.toString v) = true.
Proof.
  intro Hv. unfold JS.toString. destruct v as [|p|p]; [reflexivity| |lia].
  cbn [Z.to_int NilZero.string_of_int].
  pose proof (string_of_uint_digits (Pos.to_uint p)) as Hd.
  destruct (Pos.to_uint p); [reflexivity|..]; exact Hd.
Qed.

Lemma padStart_all_digits (n : nat) (s : string) :
  JS.forallb JS.isDigit s = true ->
  JS.forallb JS.isDigit (JS.padStart n "0" s) = true.
Proof.
  intro Hs. unfold JS.padStart. rewrite forallb_app, Hs, andb_true_r.
  induction (n - String.length s)%nat as [|k IH]; [reflexivity|exact IH].
Qed.

Lemma forallb_impl (p q : ascii -> bool) (s : string) :
  (forall c, p c = true -> q c = true) ->
  JS.forallb p s = true -> JS.forallb q s = true.
Proof.
  intro Hpq. induction s as [|c s IH]; simpl; [reflexivity|].
  intros [Hc Hs]%andb_prop. rewrite (Hpq c Hc), (IH Hs). reflexivity.
Qed.

Lemma digit_not_T (c : ascii) :
  JS.isDigit c = true -> negb (Ascii.eqb c "T") = true.
Proof.
  intro Hc. apply digit_cases in Hc. simpl in Hc.
  destruct Hc as [<-|[<-|[<-|[<-|[<-|[<-|[<-|[<-|[<-|[<-|[]]]]]]]]]]];
    reflexivity.
Qed.

(** The first piece of a text is what precedes the first separator. *)
Lemma split_head (sep : ascii) (s rest : string) :
  JS.forallb (fun c => negb (Ascii.eqb c sep)) s = true ->
  List.hd EmptyString (JS.split sep (s +:+ String sep rest)) = s.
Proof.
  induction s as [|c s IH]; intro Hs.
  - change (EmptyString +:+ String sep rest) with (String sep rest).
    cbn [JS.split]. rewrite Ascii.eqb_refl. reflexivity.
  - rewrite append_String. cbn [JS.forallb] in Hs.
    apply andb_prop in Hs as [Hc Hs]. apply negb_true_iff in Hc.
    cbn [JS.split]. rewrite Hc. specialize (IH Hs).
    destruct (JS.split sep (s +:+ String sep rest)) as [|piece pieces];
      simpl in *; congruence.
Qed.

(** The day of a date that is printed from digits. *)
Lemma datePart_digits (yearText monthText : string) :
  JS.forallb JS.isDigit yearText = true ->
  JS.forallb JS.isDigit monthText = true ->
  Buchfuehrung.datePart
    (yearText +:+ "-" +:+ monthText +:+ "-01T00:00:00.000Z")
  = yearText +:+ "-" +:+ monthText +:+ "-01".
Proof.
  intros Hy Hm. unfold Buchfuehrung.datePart.
  replace (yearText +:+ "-" +:+ monthText +:+ "-01T00:00:00.000Z")
    with ((yearText +:+ "-" +:+ monthText +:+ "-01")
          +:+ String "T" "00:00:00.000Z")
    by (rewrite !append_assoc; reflexivity).
  apply split_head.
  rewrite !forallb_app.
  rewrite (forallb_impl _ _ yearText digit_not_T Hy).
  rewrite (forallb_impl _ _ monthText digit_not_T Hm).
  reflexivity.
Qed.

End DecimalText.

(** ** From the files to the invoices *)

Section FileNames.

Import Buchfuehrung.

Variable JSON_stringify : InvoiceData -> string.
Variable today : JS.Date.
Variable join : string -> string -> string.

Lemma digit_value (c : ascii) :
  JS.isDigit c = true -> 0 <= JS.charCode c - 48 <= 9.
Proof.
  unfold JS.isDigit, JS.between. intros [Hlo Hhi]%andb_prop.
  apply Z.leb_le in Hlo, Hhi. lia.
Qed.

Lemma decimalValue_bound (s : string) (acc v : Z) :
  JS.forallb JS.isDigit s = true -> 0 <= acc ->
  JS.decimalValue acc s = Some v ->
  acc * 10 ^ Z.of_nat (String.length s) <= v
  < (acc + 1) * 10 ^ Z.of_nat (String.length s).
Proof.
  revert acc. induction s as [|c s IH]; intros acc Hs Hacc Hv.
  - simpl in Hv. injection Hv as <-. simpl. lia.
  - cbn [JS.forallb] in Hs. apply andb_prop in Hs as [Hc Hs].
    cbn [JS.decimalValue] in Hv. rewrite Hc in Hv.
    pose proof (digit_value c Hc) as Hd.
    apply IH in Hv; [|exact Hs|lia].
    cbn [String.length]. rewrite Nat2Z.inj_succ, Z.pow_succ_r by lia.
    assert (Hpow : 0 < 10 ^ Z.of_nat (String.length s))
      by (apply Z.pow_pos_nonneg; lia).
    nia.
Qed.

(** A file name that starts with the year and a dash. *)
Lemma startsWith_year (file year : string) :
  String.length year = 4%nat ->
  JS.startsWith file (year +:+ "-") = true ->
  exists rest, file = year +:+ "-" +:+ rest.
Proof.
  intro Hlen.
  destruct year as [|y1 [|y2 [|y3 [|y4 [|]]]]]; try discriminate Hlen.
  destruct file as [|f1 [|f2 [|f3 [|f4 [|f5 rest]]]]];
    cbn [append JS.startsWith]; try discriminate;
    try (intros H; repeat (apply andb_prop in H as [_ H]); discriminate H).
  intro H.
  apply andb_prop in H as [H1 H]. apply andb_prop in H as [H2 H].
  apply andb_prop in H as [H3 H]. apply andb_prop in H as [H4 H].
  apply andb_prop in H as [H5 _].
  apply Ascii.eqb_eq in H1, H2, H3, H4, H5. subst.
  exists rest. reflexivity.
Qed.

Lemma name_parts (year month rest : string) :
  String.length year = 4%nat ->
  substring 5 2 (year +:+ "-" +:+ rest) = month ->
  String.length month = 2%nat ->
  substring 0 7 (year +:+ "-" +:+ rest) = year +:+ "-" +:+ month.
Proof.
  intros Hlen Hmonth Hm.
  destruct year as [|y1 [|y2 [|y3 [|y4 [|]]]]]; try discriminate Hlen.
  subst month. cbn [append substring] in *.
  destruct rest as [|m1 [|m2 rest]]; try discriminate Hm.
  reflexivity.
Qed.

Lemma isMonth_parts (month : string) :
  isMonth month = true ->
  String.length month = 2%nat
  /\ JS.forallb JS.isDigit month = true
  /\ exists monthNum, JS.decimalValue 0 month = Some monthNum /\ 1 <= monthNum <= 12.
Proof.
  unfold isMonth. intros [[Hlen Hdig]%andb_prop Hv]%andb_prop.
  apply Nat.eqb_eq in Hlen. repeat split; try assumption.
  destruct (JS.decimalValue 0 month) as [monthNum|]; [|discriminate Hv].
  apply andb_prop in Hv as [Hlo Hhi]. apply Z.leb_le in Hlo, Hhi.
  exists monthNum. split; [reflexivity | lia].
Qed.

Lemma isYear_parts (year : string) :
  isYear year = true ->
  String.length year = 4%nat
  /\ JS.forallb JS.isDigit year = true
  /\ exists y, JS.decimalValue 0 year = Some y /\ 0 <= y <= 9999.
Proof.
  unfold isYear. intros [Hlen Hdig]%andb_prop.
  apply Nat.eqb_eq in Hlen. repeat split; try assumption.
  destruct (decimalValue_digits year 0 Hdig ltac:(lia)) as (y & Hy & _).
  exists y. split; [exact Hy|].
  pose proof (decimalValue_bound year 0 y Hdig ltac:(lia) Hy) as Hb.
  rewrite Hlen in Hb. change (10 ^ Z.of_nat 4) with 10000 in Hb. lia.
Qed.

Lemma nonempty_length (s : string) (n : nat) :
  String.length s = S n -> s <> EmptyString.
Proof. intros Hlen ->. discriminate Hlen. Qed.

(** The text of a number that was read from [n] digits, padded to [n]. *)
Lemma padStart_digits (s : string) (n : nat) (v : Z) :
  String.length s = S n -> JS.forallb JS.isDigit s = true ->
  JS.decimalValue 0 s = Some v ->
  JS.padStart (S n) "0" (JS.toString v) = s.
Proof.
  intros Hlen Hdig Hv.
  destruct (digits_text s Hdig (nonempty_length s n Hlen)) as (v' & _ & Hv' & Hpad).
  rewrite Hlen in Hpad. congruence.
Qed.

(** The date of the first day of a month of the year, in a year from 100
    to 9999. *)
Lemma first_of_month (year month : string) (y monthNum : Z) :
  String.length year = 4%nat -> JS.forallb JS.isDigit year = true ->
  JS.decimalValue 0 year = Some y -> 100 <= y <= 9999 ->
  String.length month = 2%nat -> JS.forallb JS.isDigit month = true ->
  JS.decimalValue 0 month = Some monthNum -> 1 <= monthNum <= 12 ->
  JS.toISOString
    (JS.utcFirstOfMonth (JS.parseInt year)
       (option_map (fun n => n - 1) (JS.parseInt month)))
  = Ok (year +:+ "-" +:+ month +:+ "-01T00:00:00.000Z").
Proof.
  intros Hylen Hydig Hy Hyb Hmlen Hmdig Hm Hmb.
  rewrite (parseInt_digits year Hydig (nonempty_length _ _ Hylen)), Hy.
  rewrite (parseInt_digits month Hmdig (nonempty_length _ _ Hmlen)), Hm.
  cbn [option_map]. unfold JS.utcFirstOfMonth.
  replace ((0 <=? y) && (y <=? 99)) with false
    by (symmetry; apply andb_false_iff; right; apply Z.leb_gt; lia).
  rewrite (Z.div_small (monthNum - 1) 12), (Z.mod_small (monthNum - 1) 12) by lia.
  replace (y + 0) with y by lia.
  replace (-271821 <? y) with true by (symmetry; apply Z.ltb_lt; lia).
  replace (y <? 275760) with true by (symmetry; apply Z.ltb_lt; lia).
  cbn [orb andb]. unfold JS.toISOString.
  replace ((0 <=? y) && (y <=? 9999)) with true
    by (symmetry; apply andb_true_intro; split; apply Z.leb_le; lia).
  replace (monthNum - 1 + 1) with monthNum by lia.
  rewrite (padStart_digits year 3 y Hylen Hydig Hy).
  rewrite (padStart_digits month 1 monthNum Hmlen Hmdig Hm).
  reflexivity.
Qed.

Lemma processFile_named (year invoicesDir : string)
    (entry : string * InvoiceData) :
  isLaterYear year = true ->
  JS.startsWith (fst entry) (year +:+ "-") = true ->
  isMonth (substring 5 2 (fst entry)) = true ->
  processFile JSON_stringify today join year invoicesDir entry
  = Ok (processedAs JSON_stringify today join invoicesDir entry).
Proof.
  destruct entry as [file data]. cbn [fst].
  unfold isLaterYear. intros [Hyear Hlater]%andb_prop Hstart Hmonth.
  destruct (isYear_parts year Hyear) as (Hylen & Hydig & y & Hy & Hyb).
  rewrite Hy in Hlater. apply Z.leb_le in Hlater.
  destruct (isMonth_parts _ Hmonth) as (Hmlen & Hmdig & monthNum & Hm & Hmb).
  destruct (startsWith_year file year Hylen Hstart) as [rest Hfile].
  unfold processFile, processedAs. cbn [fst snd].
  rewrite (first_of_month year (substring 5 2 file) y monthNum)
    by (assumption || lia).
  f_equal. f_equal. rewrite Hfile.
  rewrite (name_parts year (substring 5 2 (year +:+ "-" +:+ rest)) rest Hylen
             eq_refl); [|rewrite <- Hfile; exact Hmlen].
  rewrite !append_assoc. reflexivity.
Qed.

Lemma processFiles_named (year invoicesDir : string)
    (invoiceFiles : list (string * InvoiceData)) :
  isLaterYear year = true ->
  List.Forall
    (fun entry =>
       JS.startsWith (fst entry) (year +:+ "-") = true
       /\ isMonth (substring 5 2 (fst entry)) = true)
    invoiceFiles ->
  processFiles JSON_stringify today join year invoicesDir invoiceFiles
  = Ok (List.map (processedAs JSON_stringify today join invoicesDir) invoiceFiles).
Proof.
  intro Hyear. induction 1 as [|entry rest [Hstart Hmonth] _ IH]; [reflexivity|].
  cbn [processFiles List.map].
  rewrite (processFile_named year invoicesDir entry Hyear Hstart Hmonth), IH.
  reflexivity.
Qed.

Lemma processFile_throws (year invoicesDir : string)
    (entry : string * InvoiceData) (e : exn) :
  processFile JSON_stringify today join year invoicesDir entry = Throw e ->
  e = Error "Invalid time value".
Proof.
  destruct entry as [file data]. unfold processFile, JS.toISOString.
  destruct (JS.utcFirstOfMonth _ _) as [[y m]|]; [discriminate|].
  intros [= <-]. reflexivity.
Qed.

Lemma processFiles_throws (year invoicesDir : string)
    (invoiceFiles : list (string * InvoiceData)) (entry : string * InvoiceData)
    (e : exn) :
  In entry invoiceFiles ->
  processFile JSON_stringify today join year invoicesDir entry = Throw e ->
  processFiles JSON_stringify today join year invoicesDir invoiceFiles
  = Throw (Error "Invalid time value").
Proof.
  intros Hin Hthrow. induction invoiceFiles as [|first rest IH]; [contradiction|].
  cbn [processFiles].
  destruct (processFile JSON_stringify today join year invoicesDir first)
    as [invoice|e'] eqn:Hfirst.
  - destruct Hin as [->|Hin]; [congruence|].
    rewrite (IH Hin). reflexivity.
  - apply processFile_throws in Hfirst as ->. reflexivity.
Qed.

(** The date for a month number of two digits, whatever it is. *)
Lemma carried_month (year month : string) (y monthNum : Z) :
  String.length year = 4%nat -> JS.forallb JS.isDigit year = true ->
  JS.decimalValue 0 year = Some y -> 100 <= y ->
  String.length month = 2%nat -> JS.forallb JS.isDigit month = true ->
  JS.decimalValue 0 month = Some monthNum ->
  y + (monthNum - 1) / 12 <= 9999 ->
  JS.toISOString
    (JS.utcFirstOfMonth (JS.parseInt year)
       (option_map (fun n => n - 1) (JS.parseInt month)))
  = Ok (JS.padStart 4 "0" (JS.toString (y + (monthNum - 1) / 12)) +:+ "-"
        +:+ JS.padStart 2 "0" (JS.toString ((monthNum - 1) mod 12 + 1))
        +:+ "-01T00:00:00.000Z").
Proof.
  intros Hylen Hydig Hy Hyb Hmlen Hmdig Hm Hcarry.
  pose proof (decimalValue_bound month 0 monthNum Hmdig ltac:(lia) Hm) as Hmb.
  rewrite Hmlen in Hmb. change (10 ^ Z.of_nat 2) with 100 in Hmb.
  rewrite (parseInt_digits year Hydig (nonempty_length _ _ Hylen)), Hy.
  rewrite (parseInt_digits month Hmdig (nonempty_length _ _ Hmlen)), Hm.
  cbn [option_map]. unfold JS.utcFirstOfMonth.
  replace ((0 <=? y) && (y <=? 99)) with false
    by (symmetry; apply andb_false_iff; right; apply Z.leb_gt; lia).
  assert (Hq : -1 <= (monthNum - 1) / 12 <= 8).
  { split.
    - apply Z.div_le_lower_bound; lia.
    - apply Z.lt_succ_r, Z.div_lt_upper_bound; lia. }
  replace (-271821 <? y + (monthNum - 1) / 12) with true
    by (symmetry; apply Z.ltb_lt; lia).
  replace (y + (monthNum - 1) / 12 <? 275760) with true
    by (symmetry; apply Z.ltb_lt; lia).
  cbn [orb andb]. unfold JS.toISOString.
  replace ((0 <=? y + (monthNum - 1) / 12) && (y + (monthNum - 1) / 12 <=? 9999))
    with true
    by (symmetry; apply andb_true_intro; split; apply Z.leb_le; lia).
  reflexivity.
Qed.

End FileNames.

(** X20: from the files to the invoices.  For a year from 0100 on, when
    every file of the directory that is kept (its name starts with the
    year and a dash and ends in [.json]) has a month from 01 to 12 after
    the dash, no file makes the run throw, and the report is the one of the
    invoices that take from their file the month, characters 5 and 6 of the
    name, and the date, the first seven characters of the name followed by
    [-01]; the files that are not kept are never looked at. *)
Theorem report_from_directory (JSON_stringify : InvoiceData -> string)
    (today : JS.Date) (join : string -> string -> string)
    (now year invoicesDir : string) (language : LanguageOption)
    (exchangeRates : gmap string Qc) (directory : list (string * InvoiceData)) :
  isLaterYear year = true ->
  List.Forall
    (fun entry =>
       Buchfuehrung.isInvoiceFile year (fst entry) = true ->
       isMonth (substring 5 2 (fst entry)) = true)
    directory ->
  Buchfuehrung.generateReportFromDirectory JSON_stringify today join now year
    invoicesDir language exchangeRates directory
  = Buchfuehrung.generateReport now year language exchangeRates
      (List.map (processedAs JSON_stringify today join invoicesDir)
         (List.filter
            (fun entry => Buchfuehrung.isInvoiceFile year (fst entry))
            directory)).
Proof.
  intros Hyear Hnamed. unfold Buchfuehrung.generateReportFromDirectory.
  rewrite (processFiles_named JSON_stringify today join year invoicesDir);
    [reflexivity | exact Hyear |].
  apply List.Forall_forall. intros entry [Hin Hkept]%List.filter_In.
  rewrite List.Forall_forall in Hnamed.
  split; [|exact (Hnamed entry Hin Hkept)].
  unfold Buchfuehrung.isInvoiceFile in Hkept.
  apply andb_prop in Hkept as [Hstart _]. exact Hstart.
Qed.

Lemma report_from_directory_witness :
  Buchfuehrung.generateReportFromDirectory partiesAndItems november2026
    joinWithSlash noon "2025" "/srv/invoices" Both sampleRates fourFiles
  = Buchfuehrung.generateReport noon "2025" Both sampleRates
      (List.map (processedAs partiesAndItems november2026 joinWithSlash "/srv/invoices")
         (List.filter
            (fun entry => Buchfuehrung.isInvoiceFile "2025" (fst entry))
            fourFiles)).
Proof.
  apply (report_from_directory partiesAndItems november2026 joinWithSlash noon
           "2025" "/srv/invoices" Both sampleRates fourFiles).
  - reflexivity.
  - repeat (apply List.Forall_cons;
            [vm_compute; intro H; first [reflexivity | discriminate H]|]).
    apply List.Forall_nil.
Defined.

(** X21: a month that is not a number stops the run.  If one of the files
    that are kept has, after the dash, two characters from which
    [parseInt] reads no number, the run ends with exit code 1 and the one
    line [Error generating report: Invalid time value], whatever the other
    files, the invoices and the rates are: no report is written. *)
Theorem unreadable_month_aborts (JSON_stringify : InvoiceData -> string)
    (today : JS.Date) (join : string -> string -> string)
    (now year invoicesDir : string) (language : LanguageOption)
    (exchangeRates : gmap string Qc) (directory : list (string * InvoiceData))
    (file : string) (data : InvoiceData) :
  In (file, data) directory ->
  Buchfuehrung.isInvoiceFile year file = true ->
  JS.parseInt (substring 5 2 file) = None ->
  Buchfuehrung.generateReportFromDirectory JSON_stringify today join now year
    invoicesDir language exchangeRates directory
  = (Exited 1, ["Error generating report: Invalid time value"]).
Proof.
  intros Hin Hkept Hmonth. unfold Buchfuehrung.generateReportFromDirectory.
  rewrite (processFiles_throws JSON_stringify today join year invoicesDir _
             (file, data) (Error "Invalid time value")); [reflexivity| |].
  - apply List.filter_In. split; [exact Hin | exact Hkept].
  - unfold Buchfuehrung.processFile. rewrite Hmonth. cbn [option_map].
    unfold JS.utcFirstOfMonth.
    destruct (JS.parseInt year); reflexivity.
Qed.

Lemma unreadable_month_aborts_witness :
  Buchfuehrung.generateReportFromDirectory partiesAndItems november2026
    joinWithSlash noon "2025" "/srv/invoices" Both sampleRates
    (("2025-Q1-summary.json"%string, marchForGlobex) :: fourFiles)
  = (Exited 1, ["Error generating report: Invalid time value"]).
Proof.
  apply (unreadable_month_aborts partiesAndItems november2026 joinWithSlash noon
           "2025" "/srv/invoices" Both sampleRates
           (("2025-Q1-summary.json"%string, marchForGlobex) :: fourFiles)
           "2025-Q1-summary.json" marchForGlobex).
  - left. reflexivity.
  - reflexivity.
  - reflexivity.
Defined.

(** X22: a month number outside 01..12 carries into the year.  For a file
    of a year from 0100 on whose name has two digits after the dash, the
    invoice keeps these two digits as its month, but its date is the first
    day of month [(m - 1) mod 12 + 1] in the year moved by
    [floor((m - 1) / 12)]: month 00 is dated December of the year before,
    month 13 January of the year after. *)
Theorem month_carries_into_year (JSON_stringify : InvoiceData -> string)
    (today : JS.Date) (join : string -> string -> string)
    (year month tail invoicesDir : string) (data : InvoiceData)
    (y monthNum : Z) :
  Buchfuehrung.isYear year = true ->
  JS.decimalValue 0 year = Some y -> 100 <= y ->
  String.length month = 2%nat -> JS.forallb JS.isDigit month = true ->
  JS.decimalValue 0 month = Some monthNum ->
  y + (monthNum - 1) / 12 <= 9999 ->
  exists invoice : ProcessedInvoice.t,
    Buchfuehrung.processFile JSON_stringify today join year invoicesDir
      (year +:+ "-" +:+ month +:+ tail, data) = Ok invoice
    /\ ProcessedInvoice.month invoice = month
    /\ Buchfuehrung.datePart (ProcessedInvoice.date invoice)
       = JS.padStart 4 "0" (JS.toString (y + (monthNum - 1) / 12)) +:+ "-"
         +:+ JS.padStart 2 "0" (JS.toString ((monthNum - 1) mod 12 + 1))
         +:+ "-01".
Proof.
  intros Hyear Hy Hyb Hmlen Hmdig Hm Hcarry.
  destruct (isYear_parts year Hyear) as (Hylen & Hydig & _).
  assert (Hsub : substring 5 2 (year +:+ "-" +:+ month +:+ tail) = month).
  { destruct year as [|y1 [|y2 [|y3 [|y4 [|]]]]]; try discriminate Hylen.
    destruct month as [|m1 [|m2 [|]]]; try discriminate Hmlen.
    cbn [append substring]. destruct tail; reflexivity. }
  unfold Buchfuehrung.processFile. rewrite Hsub.
  rewrite (carried_month year month y monthNum) by assumption.
  eexists. split; [reflexivity|]. split; [reflexivity|].
  cbn [ProcessedInvoice.date]. unfold Buchfuehrung.datePart.
  pose proof (decimalValue_bound month 0 monthNum Hmdig ltac:(lia) Hm) as Hmb.
  assert (Hq : -1 <= (monthNum - 1) / 12) by (apply Z.div_le_lower_bound; lia).
  pose proof (Z.mod_pos_bound (monthNum - 1) 12 ltac:(lia)) as Hr.
  apply datePart_digits; apply padStart_all_digits, toString_digits; lia.
Qed.

Lemma month_carries_into_year_witness :
  exists invoice : ProcessedInvoice.t,
    Buchfuehrung.processFile partiesAndItems november2026 joinWithSlash "2025"
      "/srv/invoices" ("2025" +:+ "-" +:+ "00" +:+ "-globex.json", marchForGlobex)
    = Ok invoice
    /\ ProcessedInvoice.month invoice = "00"
    /\ Buchfuehrung.datePart (ProcessedInvoice.date invoice)
       = JS.padStart 4 "0" (JS.toString (2025 + (0 - 1) / 12)) +:+ "-"
         +:+ JS.padStart 2 "0" (JS.toString ((0 - 1) mod 12 + 1))
         +:+ "-01".
Proof.
  apply (month_carries_into_year partiesAndItems november2026 joinWithSlash
           "2025" "00" "-globex.json" "/srv/invoices" marchForGlobex 2025 0).
  - reflexivity.
  - reflexivity.
  - lia.
  - reflexivity.
  - reflexivity.
  - reflexivity.
  - vm_compute. discriminate.
Defined.

(** ** The order of the invoice lines *)

Section MonthOrder.

Import Buchfuehrung.

Lemma compare_refl (s : string) : String.compare s s = Eq.
Proof.
  induction s as [|c s IH]; [reflexivity|].
  cbn [String.compare]. unfold Ascii.compare. rewrite N.compare_refl. exact IH.
Qed.

Lemma compare_prefix (p s t : string) :
  String.compare (p +:+ s) (p +:+ t) = String.compare s t.
Proof.
  induction p as [|c p IH]; [reflexivity|].
  rewrite !append_String. cbn [String.compare]. unfold Ascii.compare.
  rewrite N.compare_refl. exact IH.
Qed.

Lemma compare_suffix (a b s : string) :
  String.length a = String.length b ->
  String.compare (a +:+ s) (b +:+ s) = String.compare a b.
Proof.
  revert b. induction a as [|c a IH]; intros [|d b] Hlen;
    try discriminate Hlen.
  - apply compare_refl.
  - rewrite !append_String. cbn [String.compare].
    destruct (Ascii.compare c d); try reflexivity.
    apply IH. injection Hlen as Hlen. exact Hlen.
Qed.

(** Dates of one year are in the order of their months. *)
Lemma leb_dates (year a b : string) :
  String.length a = String.length b ->
  String.leb (year +:+ "-" +:+ a +:+ "-01") (year +:+ "-" +:+ b +:+ "-01")
  = String.leb a b.
Proof.
  intro Hlen. unfold String.leb.
  rewrite <- !append_assoc, !(append_assoc _ _ "-01").
  rewrite compare_prefix, compare_suffix by exact Hlen. reflexivity.
Qed.

Lemma Sorted_among {A : Type} (P : A -> Prop) (R R' : A -> A -> Prop)
    (l : list A) :
  (forall a b, P a -> P b -> R a b -> R' a b) ->
  List.Forall P l -> Sorted R l -> Sorted R' l.
Proof.
  intros HR HP Hsorted. induction Hsorted as [|a l Hl IH Hhd]; [constructor|].
  inversion HP as [|? ? Ha Hrest]; subst.
  constructor; [exact (IH Hrest)|].
  destruct Hhd as [|b l' Hab]; constructor.
  inversion Hrest; subst. apply HR; assumption.
Qed.

End MonthOrder.

(** X23: the invoice lines are in the order of the months.  For a year
    from 0100 on and a directory whose kept files all have a month from 01
    to 12 in their name, every line of the report is dated on the first of
    its month in that year, and the lines are in the order of their
    months. *)
Theorem report_lines_by_month (JSON_stringify : InvoiceData -> string)
    (today : JS.Date) (join : string -> string -> string)
    (now year invoicesDir : string) (language : LanguageOption)
    (exchangeRates : gmap string Qc) (directory : list (string * InvoiceData))
    (report : Report) (generatedFiles : list ReportLanguage)
    (stderr : list string) :
  isLaterYear year = true ->
  List.Forall
    (fun entry =>
       Buchfuehrung.isInvoiceFile year (fst entry) = true ->
       isMonth (substring 5 2 (fst entry)) = true)
    directory ->
  Buchfuehrung.generateReportFromDirectory JSON_stringify today join now year
    invoicesDir language exchangeRates directory
  = (Completed report generatedFiles, stderr) ->
  Sorted notLaterMonth (invoices report)
  /\ List.Forall
       (fun line =>
          InvoiceLine.date line
          = year +:+ "-" +:+ InvoiceLine.month line +:+ "-01")
       (invoices report).
Proof.
  intros Hyear Hnamed. unfold Buchfuehrung.generateReportFromDirectory.
  set (kept := List.filter
                 (fun entry => Buchfuehrung.isInvoiceFile year (fst entry))
                 directory).
  assert (Hkept : List.Forall
                    (fun entry =>
                       JS.startsWith (fst entry) (year +:+ "-") = true
                       /\ isMonth (substring 5 2 (fst entry)) = true) kept).
  { apply List.Forall_forall. intros entry [Hin Hk]%List.filter_In.
    rewrite List.Forall_forall in Hnamed.
    split; [|exact (Hnamed entry Hin Hk)].
    unfold Buchfuehrung.isInvoiceFile in Hk.
    apply andb_prop in Hk as [Hstart _]. exact Hstart. }
  rewrite (processFiles_named JSON_stringify today join year invoicesDir kept
             Hyear Hkept).
  intro Hrun. apply completed in Hrun as (-> & _).
  unfold Buchfuehrung.sortInvoices. cbn [invoices].
  destruct (run_lines exchangeRates
              (List.map (processedAs JSON_stringify today join invoicesDir) kept)
              (Buchfuehrung.emptyReport year now, [])) as [-> _].
  cbn [fst Buchfuehrung.emptyReport invoices app].
  set (lines := List.map (lineOf exchangeRates)
                  (List.map (processedAs JSON_stringify today join invoicesDir)
                     kept)).
  set (P := fun line : InvoiceLine.t =>
              String.length (InvoiceLine.month line) = 2%nat
              /\ InvoiceLine.date line
                 = year +:+ "-" +:+ InvoiceLine.month line +:+ "-01").
  unfold isLaterYear in Hyear. apply andb_prop in Hyear as [Hyear _].
  destruct (isYear_parts year Hyear) as (Hylen & Hydig & _).
  assert (Hlines : List.Forall P lines).
  { apply List.Forall_forall. intros line Hline.
    apply List.in_map_iff in Hline as (invoice & <- & Hinvoice).
    apply List.in_map_iff in Hinvoice as (entry & <- & Hentry).
    rewrite List.Forall_forall in Hkept.
    destruct (Hkept entry Hentry) as [Hstart Hmonth].
    destruct (isMonth_parts _ Hmonth) as (Hmlen & Hmdig & _).
    destruct (startsWith_year (fst entry) year Hylen Hstart) as [rest Hfile].
    split; [exact Hmlen|].
    cbn [lineOf processedAs InvoiceLine.date InvoiceLine.month
         ProcessedInvoice.date ProcessedInvoice.month].
    rewrite Hfile at 1.
    rewrite (name_parts year (substring 5 2 (fst entry)) rest Hylen);
      [|rewrite Hfile; reflexivity|exact Hmlen].
    rewrite !append_assoc.
    apply datePart_digits; assumption. }
  assert (Hsorted : List.Forall P (Buchfuehrung.sortByDate lines)).
  { apply (Permutation_Forall (Permutation_sym (sortByDate_perm lines))).
    exact Hlines. }
  split.
  - apply (Sorted_among P notLater notLaterMonth); [|exact Hsorted|].
    + intros a b [Ha Hda] [Hb Hdb] Hab. unfold notLater in Hab.
      rewrite Hda, Hdb, leb_dates in Hab by congruence. exact Hab.
    + apply sortByDate_sorted.
  - apply (List.Forall_impl _ (P := P)); [|exact Hsorted].
    intros line [_ Hdate]. exact Hdate.
Qed.

Lemma report_lines_by_month_witness :
  Sorted notLaterMonth (invoices (reportOf fourFilesRun))
  /\ List.Forall
       (fun line =>
          InvoiceLine.date line
          = "2025" +:+ "-" +:+ InvoiceLine.month line +:+ "-01")
       (invoices (reportOf fourFilesRun)).
Proof.
  apply (report_lines_by_month partiesAndItems november2026 joinWithSlash noon
           "2025" "/srv/invoices" Both sampleRates fourFiles
           (reportOf fourFilesRun) [De; En] (snd fourFilesRun)).
  - reflexivity.
  - repeat (apply List.Forall_cons;
            [vm_compute; intro H; first [reflexivity | discriminate H]|]).
    apply List.Forall_nil.
  - vm_compute. reflexivity.
Defined.

(** ** The quarterly table *)

Section Quarters.

Import Buchfuehrung.

Lemma insertKey_perm (key : string) (keys : list string) :
  Permutation (insertKey key keys) (key :: keys).
Proof.
  induction keys as [|other keys IH]; simpl; [reflexivity|].
  destruct (String.leb key other); [reflexivity|].
  rewrite IH. apply perm_swap.
Qed.

Lemma sortedMonths_perm (report : Report) :
  Permutation (sortedMonths report)
    (List.map fst (map_to_list (monthlyRevenue report))).
Proof.
  unfold sortedMonths.
  induction (List.map fst (map_to_list (monthlyRevenue report)))
    as [|key keys IH]; simpl; [reflexivity|].
  rewrite insertKey_perm, IH. reflexivity.
Qed.

Lemma sortedMonths_present (report : Report) (month : string) :
  In month (sortedMonths report) ->
  exists entry, monthlyRevenue report !! month = Some entry.
Proof.
  intro Hin.
  apply (Permutation_in _ (sortedMonths_perm report)) in Hin.
  apply List.in_map_iff in Hin as ([key entry] & <- & Hentry).
  exists entry. apply elem_of_map_to_list, list_elem_of_In. exact Hentry.
Qed.

(** The revenue of a quarter: the sum of the CHF totals of its months. *)
Lemma quarterRevenue_sum (report : Report) (months : list string) (acc : Qc) :
  (forall month, In month months ->
     exists entry, monthlyRevenue report !! month = Some entry) ->
  List.fold_left
    (fun sum month =>
       match sum, monthlyRevenue report !! month with
       | Some sum, Some entry => Some (sum + MonthSummary.totalCHF entry)%Qc
       | _, _ => None
       end)
    months (Some acc)
  = Some (acc + sum (List.map (monthCHF report) months))%Qc.
Proof.
  revert acc. induction months as [|month months IH]; intros acc Hpresent.
  - simpl. f_equal. ring.
  - cbn [List.fold_left List.map sum List.fold_right].
    destruct (Hpresent month (or_introl eq_refl)) as [entry Hentry].
    unfold monthCHF at 1. rewrite Hentry. cbn [from_option].
    rewrite IH by (intros m Hm; apply Hpresent; right; exact Hm).
    f_equal. fold (sum (List.map (monthCHF report) months)). ring.
Qed.

Lemma currencySums_present (report : Report) (months : list string)
    (sums : gmap string Qc) :
  (forall month, In month months ->
     exists entry, monthlyRevenue report !! month = Some entry) ->
  exists result,
    List.fold_left
      (fun sums month =>
         match sums, monthlyRevenue report !! month with
         | Some sums, Some entry =>
             Some (map_fold (fun currency amount sums => addTo sums currency amount)
                     sums (MonthSummary.byCurrency entry))
         | _, _ => None
         end)
      months (Some sums)
    = Some result.
Proof.
  revert sums. induction months as [|month months IH]; intros sums Hpresent.
  - exists sums. reflexivity.
  - cbn [List.fold_left].
    destruct (Hpresent month (or_introl eq_refl)) as [entry ->].
    apply IH. intros m Hm. apply Hpresent. right. exact Hm.
Qed.

Lemma sum_cons (x : Qc) (l : list Qc) : sum (x :: l) = (x + sum l)%Qc.
Proof. reflexivity. Qed.

(** A month of the year lies in exactly one of the four quarters. *)
Lemma quarter_of_month (month : string) :
  isMonth month = true ->
  exists quarter,
    1 <= quarter <= 4
    /\ forall quarterIndex,
         inQuarter quarterIndex month = (quarter =? quarterIndex).
Proof.
  intro Hmonth.
  destruct (isMonth_parts month Hmonth) as (Hlen & Hdig & monthNum & Hm & Hb).
  exists (JS.ceilDiv monthNum 3). split.
  - unfold JS.ceilDiv.
    assert (-4 <= - monthNum / 3) by (apply Z.div_le_lower_bound; lia).
    assert (- monthNum / 3 < 0) by (apply Z.div_lt_upper_bound; lia).
    lia.
  - intro quarterIndex. unfold inQuarter.
    rewrite (parseInt_digits month Hdig (nonempty_length _ _ Hlen)), Hm.
    reflexivity.
Qed.

Lemma quarters_partition (g : string -> Qc) (months : list string) :
  List.Forall (fun month => isMonth month = true) months ->
  (sum (List.map g (List.filter (inQuarter 1) months))
   + (sum (List.map g (List.filter (inQuarter 2) months))
      + (sum (List.map g (List.filter (inQuarter 3) months))
         + (sum (List.map g (List.filter (inQuarter 4) months)) + 0))))%Qc
  = sum (List.map g months).
Proof.
  induction 1 as [|month months Hmonth _ IH]; [simpl; ring|].
  destruct (quarter_of_month month Hmonth) as (quarter & Hq & Hin).
  cbn [List.filter]. rewrite !Hin.
  cbn [List.map sum List.fold_right].
  fold (sum (List.map g months)). rewrite <- IH.
  assert (Hcases : quarter = 1 \/ quarter = 2 \/ quarter = 3 \/ quarter = 4)
    by lia.
  destruct Hcases as [-> | [-> | [-> | ->]]];
    repeat match goal with
           | |- context [Z.eqb ?a ?b] =>
               let v := eval vm_compute in (Z.eqb a b) in
               change (Z.eqb a b) with v
           end;
    cbv iota; cbn [List.map]; rewrite sum_cons; ring.
Qed.

(** The CHF totals of the months, in the order of [sortedMonths], add up
    to the sum over the dictionary. *)
Lemma sortedMonths_total (report : Report) :
  sum (List.map (monthCHF report) (sortedMonths report))
  = monthsCHF (monthlyRevenue report).
Proof.
  rewrite (sum_perm _ _ (Permutation_map _ (sortedMonths_perm report))).
  unfold monthsCHF. rewrite map_fold_foldr.
  pose proof (fun key entry =>
                proj1 (elem_of_map_to_list (monthlyRevenue report) key entry))
    as Hentries.
  induction (map_to_list (monthlyRevenue report)) as [|[key entry] entries IH];
    [reflexivity|].
  cbn [List.map sum List.fold_right foldr fst uncurry].
  unfold monthCHF at 1.
  rewrite (Hentries key entry) by (apply list_elem_of_In; left; reflexivity).
  cbn [from_option]. f_equal. apply IH.
  intros k e Hin. apply Hentries. apply list_elem_of_In. right.
  apply list_elem_of_In. exact Hin.
Qed.

(** The months of a report are months of its invoices. *)
Lemma report_month_billed (exchangeRates : gmap string Qc)
    (input : list ProcessedInvoice.t) (year now month : string)
    (entry : MonthSummary.t) :
  monthlyRevenue (fst (run exchangeRates input (emptyReport year now, [])))
    !! month = Some entry ->
  exists invoice, In invoice input /\ ProcessedInvoice.month invoice = month.
Proof.
  intro Hentry.
  pose proof (run_month exchangeRates input year now month) as Hholds.
  unfold monthHolds, inMonth in Hholds. rewrite Hentry in Hholds.
  destruct (List.filter _ input) as [|invoice billed] eqn:Hfilter;
    [discriminate Hholds|].
  assert (Hin : In invoice (List.filter
                              (fun invoice =>
                                 String.eqb (ProcessedInvoice.month invoice) month)
                              input))
    by (rewrite Hfilter; left; reflexivity).
  apply List.filter_In in Hin as [Hin Heq].
  exists invoice. split; [exact Hin | apply String.eqb_eq, Heq].
Qed.

(** A row of the table for a year that is not the current one. *)
Lemma quarterRow_shown (currentDate : JS.Date) (year : string) (report : Report)
    (quarterIndex : Z) :
  JS.parseInt year <> Some (JS.getFullYear currentDate) ->
  exists sums,
    quarterRow currentDate year report (sortedMonths report) quarterIndex
    = Some (Some {| QuarterRow.quarterIndex := quarterIndex;
                    QuarterRow.currencySums := sums;
                    QuarterRow.quarterRevenue :=
                      sum (List.map (monthCHF report)
                             (List.filter (inQuarter quarterIndex)
                                (sortedMonths report))) |}).
Proof.
  intro Hyear. unfold quarterRow.
  rewrite (bool_decide_eq_false_2 _ Hyear). cbn [andb].
  assert (Hpresent : forall month,
             In month (List.filter (inQuarter quarterIndex) (sortedMonths report)) ->
             exists entry, monthlyRevenue report !! month = Some entry).
  { intros month [Hin _]%List.filter_In. apply sortedMonths_present, Hin. }
  unfold quarterRevenue, currencySums.
  rewrite (quarterRevenue_sum report _ 0 Hpresent).
  destruct (currencySums_present report _ ∅ Hpresent) as [sums ->].
  exists sums. do 3 f_equal. ring.
Qed.

End Quarters.

(** X24: the quarterly table adds up.  For a report of a year that is not
    the current one, over invoices whose months are 01 to 12, the table
    has the four rows Q1 to Q4, reading none of them fails, and the CHF
    values of the rows add up to [totalRevenueCHF]. *)
Theorem quarters_add_up (now year : string) (language : LanguageOption)
    (exchangeRates : gmap string Qc) (input : list ProcessedInvoice.t)
    (report : Report) (generatedFiles : list ReportLanguage)
    (stderr : list string) (currentDate : JS.Date) :
  Buchfuehrung.generateReport now year language exchangeRates input
  = (Completed report generatedFiles, stderr) ->
  List.Forall
    (fun invoice => isMonth (ProcessedInvoice.month invoice) = true) input ->
  JS.parseInt year <> Some (JS.getFullYear currentDate) ->
  exists rows : list Buchfuehrung.QuarterRow.t,
    Buchfuehrung.quarterlySummary currentDate year report
      (Buchfuehrung.sortedMonths report) = Some rows
    /\ List.map Buchfuehrung.QuarterRow.quarterIndex rows = [1; 2; 3; 4]
    /\ sum (List.map Buchfuehrung.QuarterRow.quarterRevenue rows) = totalRevenueCHF report.
Proof.
  intros Hrun Hmonths Hyear.
  pose proof (report_months_total _ _ _ _ _ _ _ _ Hrun) as Htotal.
  assert (Hvalid : List.Forall (fun month => isMonth month = true)
                     (Buchfuehrung.sortedMonths report)).
  { apply List.Forall_forall. intros month Hin.
    apply sortedMonths_present in Hin as [entry Hentry].
    apply completed in Hrun as (-> & _).
    unfold Buchfuehrung.sortInvoices in Hentry. cbn [monthlyRevenue] in Hentry.
    apply report_month_billed in Hentry as (invoice & Hin & <-).
    rewrite List.Forall_forall in Hmonths. exact (Hmonths invoice Hin). }
  unfold Buchfuehrung.quarterlySummary. cbn [Buchfuehrung.quarterRows].
  destruct (quarterRow_shown currentDate year report 1 Hyear) as [sums1 ->].
  destruct (quarterRow_shown currentDate year report 2 Hyear) as [sums2 ->].
  destruct (quarterRow_shown currentDate year report 3 Hyear) as [sums3 ->].
  destruct (quarterRow_shown currentDate year report 4 Hyear) as [sums4 ->].
  eexists. split; [reflexivity|]. split; [reflexivity|].
  cbn [List.map Buchfuehrung.QuarterRow.quarterRevenue]. rewrite !sum_cons.
  change (sum []) with 0%Qc.
  rewrite (quarters_partition (monthCHF report) _ Hvalid).
  rewrite sortedMonths_total. exact Htotal.
Qed.

Lemma quarters_add_up_witness :
  exists rows : list Buchfuehrung.QuarterRow.t,
    Buchfuehrung.quarterlySummary november2026 "2025" threeInvoicesReport
      (Buchfuehrung.sortedMonths threeInvoicesReport) = Some rows
    /\ List.map Buchfuehrung.QuarterRow.quarterIndex rows = [1; 2; 3; 4]
    /\ sum (List.map Buchfuehrung.QuarterRow.quarterRevenue rows)
       = totalRevenueCHF threeInvoicesReport.
Proof.
  apply (quarters_add_up noon "2025" Both sampleRates threeInvoices
           threeInvoicesReport [De; En] threeInvoicesWarnings november2026).
  - reflexivity.
  - repeat constructor.
  - vm_compute. discriminate.
Defined.

(** ** Checks of the file and date functions on known values *)

Example parseInt_known :
  JS.parseInt "07" = Some 7 /\ JS.parseInt " 12" = Some 12
  /\ JS.parseInt "-5" = Some (-5) /\ JS.parseInt "1a" = Some 1
  /\ JS.parseInt "0x" = None /\ JS.parseInt "0x1f" = Some 31
  /\ JS.parseInt ".j" = None /\ JS.parseInt "" = None.
Proof. repeat split; reflexivity. Qed.

Example dates_known :
  JS.toISOString (JS.utcFirstOfMonth (Some 2025) (Some 2))
  = Ok "2025-03-01T00:00:00.000Z"
  /\ JS.toISOString (JS.utcFirstOfMonth (Some 2025) (Some (-1)))
     = Ok "2024-12-01T00:00:00.000Z"
  /\ JS.toISOString (JS.utcFirstOfMonth (Some 2025) (Some 12))
     = Ok "2026-01-01T00:00:00.000Z"
  /\ JS.toISOString (JS.utcFirstOfMonth (Some 25) (Some 0))
     = Ok "1925-01-01T00:00:00.000Z"
  /\ JS.toISOString (JS.utcFirstOfMonth (Some 9999) (Some 12))
     = Ok "+010000-01-01T00:00:00.000Z"
  /\ JS.toISOString (JS.utcFirstOfMonth (Some 2025) None)
     = Throw (Error "Invalid time value").
Proof. repeat split; reflexivity. Qed.

Example kept_files :
  List.map fst
    (List.filter (fun entry => Buchfuehrung.isInvoiceFile "2025" (fst entry))
       fourFiles)
  = [ "2025-04-globex.json"; "2025-04-initech.json"; "2025-03-globex.json" ]%string.
Proof. reflexivity. Qed.
